(** * wandb-log-crawler: the incremental log store of [src/crawler.py]

    A shallow embedding of [DatatimeHandler] and [WandbLogCrawler]
    (the constructor, [get_runs], [get_logs],
    [get_last_store_line_datetime], [ensure_file_exist], [store_lines],
    [store_logs], [execute]) together with the library functions they call
    ([str.split], [str.strip], [in], [os.path.join], [datetime.strptime],
    text-mode file iteration), followed by the properties of the store.
    The endless loop of [run] and the start-up code of [main.py] are not
    embedded.

    Conventions of the model.
    - A Python [str] is a [string]: a sequence of 8-bit characters.  Among
      these the decimal digits are ['0'..'9'] and the white space of
      [str.strip] is 9-13, 28-32, 133 and 160.
    - Exceptions are values of [exn]; a computation that may raise returns a
      [result].  Code that reads or writes the disk or the process log runs in
      the monad [M]: it takes the state and gives back the state reached
      together with the value returned or the exception raised, so the writes
      made before an exception stay visible.
    - The file system is a finite map from path strings to nodes, a
      directory or a file with its text.  Paths are the strings
      [os.path.join] builds and are compared as strings.  An operation fails
      only for the entry at its own path (none where one is needed, a
      directory where a file is needed, an entry where none may be): the
      directories above a path, permissions and the encoding of the text are
      not modelled.
    - The calls to [logging] are recorded in the state with their arguments.
    - The remote service is a value of [remote], passed to the functions that
      call it: the outcome of listing the runs and, for each run name, the
      outcome of the request for its log lines. *)

From Stdlib Require Import Ascii NArith.
From stdpp Require Import gmap strings list fin_maps sorting.

Local Open Scope char_scope.
Local Open Scope stdpp_scope.

(** ** Exceptions and results *)

Inductive exn : Type :=
  | ValueError
  | KeyError (key : string)
  | FileNotFoundError (path : string)
  | IsADirectoryError (path : string)
  | FileExistsError (path : string)
  | RemoteError (run_id : string).

Inductive result (A : Type) : Type :=
  | Ok (a : A)
  | Raise (e : exn).
Arguments Ok {A} a.
Arguments Raise {A} e.

Definition is_ok {A} (r : result A) : bool :=
  match r with Ok _ => true | Raise _ => false end.

(** ** Python string operations *)

Module Str.

Definition eqb_ascii (a b : ascii) : bool := Ascii.eqb a b.

(** [len(s) == 0]: the truth value of a string is [negb (is_empty s)]. *)
Definition is_empty (s : string) : bool :=
  match s with EmptyString => true | String _ _ => false end.

(** [s.startswith(p)] *)
Fixpoint startswith (p s : string) : bool :=
  match p, s with
  | EmptyString, _ => true
  | String a p', String b s' => eqb_ascii a b && startswith p' s'
  | String _ _, EmptyString => false
  end.

(** [s.endswith(c)] for a one-character [c] *)
Fixpoint endswith_char (c : ascii) (s : string) : bool :=
  match s with
  | EmptyString => false
  | String a EmptyString => eqb_ascii a c
  | String _ s' => endswith_char c s'
  end.

(** [needle in hay] *)
Fixpoint contains (needle hay : string) : bool :=
  startswith needle hay ||
  match hay with
  | EmptyString => false
  | String _ hay' => contains needle hay'
  end.

(** [c in s] for a character *)
Fixpoint mem (c : ascii) (s : string) : bool :=
  match s with
  | EmptyString => false
  | String a s' => eqb_ascii a c || mem c s'
  end.

(** [s.split(sep)] for a one-character separator: never the empty list. *)
Fixpoint split (sep : ascii) (s : string) : list string :=
  match s with
  | EmptyString => [EmptyString]
  | String c s' =>
      if eqb_ascii c sep then EmptyString :: split sep s'
      else match split sep s' with
           | [] => [String c EmptyString]
           | h :: t => String c h :: t
           end
  end.

(** [''.join(l)] *)
Fixpoint join_empty (l : list string) : string :=
  match l with
  | [] => EmptyString
  | s :: l' => s +:+ join_empty l'
  end.

(** [l[0]] of a list that [split] returned *)
Definition first (l : list string) : string :=
  match l with [] => EmptyString | h :: _ => h end.

(** White space in the sense of [str.isspace], for characters below 256. *)
Definition is_space (c : ascii) : bool :=
  let n := N_of_ascii c in
  ((9 <=? n) && (n <=? 13) || (28 <=? n) && (n <=? 32)
   || (n =? 133) || (n =? 160))%N.

Fixpoint lstrip (s : string) : string :=
  match s with
  | EmptyString => EmptyString
  | String c s' => if is_space c then lstrip s' else s
  end.

Fixpoint rstrip (s : string) : string :=
  match s with
  | EmptyString => EmptyString
  | String c s' =>
      let r := rstrip s' in
      if is_space c && is_empty r then EmptyString else String c r
  end.

(** [s.strip()] *)
Definition strip (s : string) : string := rstrip (lstrip s).

Definition is_digit (c : ascii) : bool :=
  let n := N_of_ascii c in ((48 <=? n) && (n <=? 57))%N.

Definition digit_value (c : ascii) : N := (N_of_ascii c - 48)%N.

(** [int(s)] on a string of decimal digits with optional surrounding white
    space, the only shape the fields of a matched timestamp have. *)
Fixpoint int_digits (acc : N) (s : string) : N :=
  match s with
  | EmptyString => acc
  | String c s' => int_digits (10 * acc + digit_value c)%N s'
  end.

Definition int (s : string) : N := int_digits 0%N (strip s).

(** [s + '0' * n] *)
Fixpoint pad_zeros (n : nat) (s : string) : string :=
  match n with
  | O => s
  | S n' => pad_zeros n' (s +:+ String "0" EmptyString)
  end.

End Str.

(** ** [os.path.join] (posixpath) for two components *)

Definition os_path_join (a b : string) : string :=
  if Str.startswith (String "/" EmptyString) b then b
  else if Str.is_empty a || Str.endswith_char "/" a then a +:+ b
  else a +:+ String "/" b.

(** ** [datetime] values and their order *)

Record datetime : Type := mk_datetime {
  year : N; month : N; day : N;
  hour : N; minute : N; second : N; microsecond : N
}.

Definition datetime_fields (d : datetime) : list N :=
  [year d; month d; day d; hour d; minute d; second d; microsecond d].

(** Python compares two naive [datetime]s as the tuples of their fields. *)
Fixpoint cmp_fields (a b : list N) : comparison :=
  match a, b with
  | [], [] => Eq
  | [], _ :: _ => Lt
  | _ :: _, [] => Gt
  | x :: a', y :: b' =>
      match (x ?= y)%N with
      | Eq => cmp_fields a' b'
      | c => c
      end
  end.

Definition datetime_cmp (a b : datetime) : comparison :=
  cmp_fields (datetime_fields a) (datetime_fields b).

(** [a <= b] *)
Definition datetime_le (a b : datetime) : bool :=
  match datetime_cmp a b with Gt => false | _ => true end.

(** [a < b] *)
Definition datetime_lt (a b : datetime) : bool :=
  match datetime_cmp a b with Lt => true | _ => false end.

Definition is_leap (y : N) : bool :=
  ((y mod 4 =? 0) && (negb (y mod 100 =? 0) || (y mod 400 =? 0)))%N.

Definition days_in_month (y m : N) : N :=
  (if m =? 2 then (if is_leap y then 29 else 28)
   else if (m =? 4) || (m =? 6) || (m =? 9) || (m =? 11) then 30
   else 31)%N.

(** The range checks of the [datetime] constructor. *)
Definition check_date_fields (y m d : N) : bool :=
  ((1 <=? y) && (y <=? 9999) && (1 <=? m) && (m <=? 12)
   && (1 <=? d) && (d <=? days_in_month y m))%N.

Definition check_time_fields (h mi s us : N) : bool :=
  ((h <=? 23) && (mi <=? 59) && (s <=? 59) && (us <=? 999999))%N.

(** ** The regular expression of [_strptime] for ['%Y-%m-%dT%H:%M:%S.%f']

    A matcher lists the ways it can match a prefix of its input, in the order
    a backtracking engine tries them: each entry is the text matched and the
    input left.  [re.match] takes the first entry of the whole pattern. *)

Module Re.

Definition matcher : Type := string → list (string * string).

Definition cls (p : ascii → bool) : matcher := λ s,
  match s with
  | String c r => if p c then [(String c EmptyString, r)] else []
  | EmptyString => []
  end.

Definition eps : matcher := λ s, [(EmptyString, s)].

Definition seq (a b : matcher) : matcher := λ s,
  '(x, r) ← a s; '(y, r') ← b r; [(x +:+ y, r')].

Definition alt (a b : matcher) : matcher := λ s, a s ++ b s.

(** [m{0,n}], greedy *)
Fixpoint upto (n : nat) (m : matcher) : matcher :=
  match n with
  | O => eps
  | S k => alt (seq m (upto k m)) eps
  end.

Definition chr (c : ascii) : matcher := cls (Str.eqb_ascii c).

(** [[lo-hi]] *)
Definition range (lo hi : ascii) : matcher :=
  cls (λ c, (N_of_ascii lo <=? N_of_ascii c)%N
            && (N_of_ascii c <=? N_of_ascii hi)%N).

(** [\d] *)
Definition digit : matcher := cls Str.is_digit.

(** The literal [T] of the format; the pattern is compiled with
    [re.IGNORECASE]. *)
Definition chr_T : matcher :=
  cls (λ c, Str.eqb_ascii c "T" || Str.eqb_ascii c "t").

(** ['Y': \d\d\d\d] *)
Definition re_Y : matcher := seq digit (seq digit (seq digit digit)).
(** ['m': 1[0-2]|0[1-9]|[1-9]] *)
Definition re_m : matcher :=
  alt (seq (chr "1") (range "0" "2"))
    (alt (seq (chr "0") (range "1" "9")) (range "1" "9")).
(** ['d': 3[0-1]|[1-2]\d|0[1-9]|[1-9]| [1-9]] *)
Definition re_d : matcher :=
  alt (seq (chr "3") (range "0" "1"))
    (alt (seq (range "1" "2") digit)
      (alt (seq (chr "0") (range "1" "9"))
        (alt (range "1" "9") (seq (chr " ") (range "1" "9"))))).
(** ['H': 2[0-3]|[0-1]\d|\d] *)
Definition re_H : matcher :=
  alt (seq (chr "2") (range "0" "3"))
    (alt (seq (range "0" "1") digit) digit).
(** ['M': [0-5]\d|\d] *)
Definition re_M : matcher := alt (seq (range "0" "5") digit) digit.
(** ['S': 6[0-1]|[0-5]\d|\d] *)
Definition re_S : matcher :=
  alt (seq (chr "6") (range "0" "1"))
    (alt (seq (range "0" "5") digit) digit).
(** ['f': [0-9]{1,6}] *)
Definition re_f : matcher := seq (range "0" "9") (upto 5 (range "0" "9")).

(** The named groups of a match. *)
Record groups : Type := mk_groups {
  g_Y : string; g_m : string; g_d : string;
  g_H : string; g_M : string; g_S : string; g_f : string
}.

Definition pattern (s : string) : list (groups * string) :=
  '(gY, s) ← re_Y s; '(_, s) ← chr "-" s;
  '(gm, s) ← re_m s; '(_, s) ← chr "-" s;
  '(gd, s) ← re_d s; '(_, s) ← chr_T s;
  '(gH, s) ← re_H s; '(_, s) ← chr ":" s;
  '(gM, s) ← re_M s; '(_, s) ← chr ":" s;
  '(gS, s) ← re_S s; '(_, s) ← chr "." s;
  '(gf, s) ← re_f s;
  [(mk_groups gY gm gd gH gM gS gf, s)].

(** [format_regex.match(data_string)] *)
Definition match_ (s : string) : option (groups * string) := head (pattern s).

End Re.

(** [datetime.strptime(data, '%Y-%m-%dT%H:%M:%S.%f')].  Every failure is a
    [ValueError]: no match, unconverted data after the match, or field values
    the [datetime] constructor refuses. *)
Definition strptime (data : string) : result datetime :=
  match Re.match_ data with
  | None => Raise ValueError
  | Some (g, rest) =>
      if negb (Str.is_empty rest) then Raise ValueError
      else
        let y := Str.int (Re.g_Y g) in
        let m := Str.int (Re.g_m g) in
        let d := Str.int (Re.g_d g) in
        let h := Str.int (Re.g_H g) in
        let mi := Str.int (Re.g_M g) in
        let s := Str.int (Re.g_S g) in
        let f := Re.g_f g in
        let us := Str.int (Str.pad_zeros (6 - String.length f) f) in
        if check_date_fields y m d && check_time_fields h mi s us
        then Ok (mk_datetime y m d h mi s us)
        else Raise ValueError
  end.

(** ** [DatatimeHandler] *)

Module DatatimeHandler.

Definition get_datetime_from_log (log_line : string) : result datetime :=
  let ts := Str.first (Str.split "|" log_line) in
  let ts := Str.strip ts in
  strptime ts.

Definition get_datetime_from_ts_str (timestamp : string) : result datetime :=
  strptime timestamp.

End DatatimeHandler.

(** ** The state: the disk and the process log *)

Inductive node : Type :=
  | Dir
  | File (content : string).

(** The calls to [logging], with their arguments in place of the formatted
    message. *)
Inductive log_record : Type :=
  | InfoRunIds (ids : list string)
  | ErrorGetLogs (run_id : string)
  | InfoStored (new_line_count : nat) (hotkey date_string : string)
  | InfoProcessing (run_id : string)
  | ErrorProcess (run_id : string) (e : exn)
  | InfoFinished.

Record state : Type := mk_state {
  fs : gmap string node;
  log : list log_record
}.

Definition M (A : Type) : Type := state → state * result A.

Definition ret {A} (a : A) : M A := λ st, (st, Ok a).
Definition raise {A} (e : exn) : M A := λ st, (st, Raise e).
Definition bind {A B} (m : M A) (k : A → M B) : M B := λ st,
  match m st with
  | (st', Ok a) => k a st'
  | (st', Raise e) => (st', Raise e)
  end.
Definition lift {A} (r : result A) : M A := λ st, (st, r).

(** [try: body except Exception as e: handler(e)] *)
Definition try_except {A} (body : M A) (handler : exn → M A) : M A := λ st,
  match body st with
  | (st', Ok a) => (st', Ok a)
  | (st', Raise e) => handler e st'
  end.

Notation "x ←← m ; k" := (bind m (λ x, k))
  (at level 20, m at level 100, k at level 200, right associativity,
   format "x  ←←  m ;  '/' k").
Notation "m ;; k" := (bind m (λ _, k))
  (at level 100, k at level 200, right associativity).

(** [for x in l: body(x)] *)
Fixpoint for_each {A} (body : A → M unit) (l : list A) : M unit :=
  match l with
  | [] => ret tt
  | x :: l' => (body x ;; for_each body l')
  end.

Definition logging (r : log_record) : M unit := λ st,
  (mk_state (fs st) (log st ++ [r]), Ok tt).

(** *** File operations *)

(** [os.path.exists(p)] *)
Definition os_path_exists (p : string) : M bool := λ st,
  (st, Ok (match fs st !! p with Some _ => true | None => false end)).

(** [os.makedirs(p)]: raises when there is an entry at [p]. *)
Definition os_makedirs (p : string) : M unit := λ st,
  match fs st !! p with
  | Some _ => (st, Raise (FileExistsError p))
  | None => (mk_state (<[p := Dir]> (fs st)) (log st), Ok tt)
  end.

(** [with open(p, "w") as f: f.write("")] *)
Definition write_empty_file (p : string) : M unit := λ st,
  match fs st !! p with
  | Some Dir => (st, Raise (IsADirectoryError p))
  | _ => (mk_state (<[p := File EmptyString]> (fs st)) (log st), Ok tt)
  end.

(** [open(p, "r")] followed by reading the whole text *)
Definition read_file (p : string) : M string := λ st,
  match fs st !! p with
  | Some (File c) => (st, Ok c)
  | Some Dir => (st, Raise (IsADirectoryError p))
  | None => (st, Raise (FileNotFoundError p))
  end.

(** [open(p, "a")]: creates the file when there is none. *)
Definition open_append (p : string) : M unit := λ st,
  match fs st !! p with
  | Some (File _) => (st, Ok tt)
  | Some Dir => (st, Raise (IsADirectoryError p))
  | None => (mk_state (<[p := File EmptyString]> (fs st)) (log st), Ok tt)
  end.

(** [f.write(s)] on a file opened for appending at [p]; the file is there
    whenever [open_append] returned. *)
Definition file_write (p : string) (s : string) : M unit := λ st,
  match fs st !! p with
  | Some (File c) => (mk_state (<[p := File (c +:+ s)]> (fs st)) (log st), Ok tt)
  | _ => (st, Ok tt)
  end.

Definition nl : string := String "010" EmptyString.

(** The text of a file opened in text mode with universal newlines: ['\r\n']
    and ['\r'] read as ['\n']. *)
Fixpoint universal_newlines (s : string) : string :=
  match s with
  | EmptyString => EmptyString
  | String c r =>
      if Str.eqb_ascii c "013" then
        match r with
        | String c' r' =>
            if Str.eqb_ascii c' "010" then String "010" (universal_newlines r')
            else String "010" (universal_newlines r)
        | EmptyString => String "010" EmptyString
        end
      else String c (universal_newlines r)
  end.

(** The lines [for line in f] yields, each with its ['\n'] when it has one. *)
Fixpoint split_lines (s : string) : list string :=
  match s with
  | EmptyString => []
  | String c r =>
      if Str.eqb_ascii c "010" then nl :: split_lines r
      else match split_lines r with
           | [] => [String c EmptyString]
           | h :: t => String c h :: t
           end
  end.

Definition file_lines (content : string) : list string :=
  split_lines (universal_newlines content).

(** ** [WandbLogCrawler] *)


Definition levels : list string :=
  ["SUCCESS"; "TRACE"; "ERROR"; "WARNING"; "INFO"; "DEBUG"].

Record crawler : Type := mk_crawler {
  entity : string;
  project : string;
  store_path : string;
  frequency : N
}.

(** A running job as [wandb.Api().runs] lists it. *)
Record run : Type := mk_run {
  run_id : string;
  run_config : gmap string string
}.

(** What [requests.post] returns: the status code, and the value of
    [response.json()["data"]["project"]["run"]["logLines"]["edges"]] or the
    exception its evaluation raises. *)
Record response : Type := mk_response {
  status_code : N;
  edges : result (list (gmap string (gmap string string)))
}.

(** The remote service during one cycle. *)
Record remote : Type := mk_remote {
  api_runs : result (list run);
  graphql_post : string → result response
}.


Definition get_runs (self : crawler) (w : remote) : M (list run) :=
  runs ←← lift (api_runs w);
  logging (InfoRunIds (run_id <$> runs)) ;;
  ret runs.

Definition get_logs (self : crawler) (w : remote) (run_id : string)
  : M (list (gmap string (gmap string string))) :=
  response ←← lift (graphql_post w run_id);
  if negb (status_code response =? 200)%N then
    (logging (ErrorGetLogs run_id) ;; raise (RemoteError run_id))
  else lift (edges response).

Definition log_file_path (self : crawler) (hotkey date : string) : string :=
  let folder_path := os_path_join (store_path self) hotkey in
  let file_name := date +:+ ".log" in
  os_path_join folder_path file_name.

Definition get_last_store_line_datetime (self : crawler) (date hotkey : string)
  : M (option datetime) :=
  let folder_path := os_path_join (store_path self) hotkey in
  let file_name := date +:+ ".log" in
  let file_path := os_path_join folder_path file_name in
  f ←← read_file file_path;
  let last_line := last (file_lines f) in
  match last_line with
  | Some l =>
      if negb (Str.is_empty l) then
        last_line_datetime ←← lift (DatatimeHandler.get_datetime_from_log l);
        ret (Some last_line_datetime)
      else ret None
  | None => ret None
  end.

Definition ensure_file_exist (self : crawler) (hotkey date : string) : M unit :=
  let folder_path := os_path_join (store_path self) hotkey in
  let file_name := date +:+ ".log" in
  let file_path := os_path_join folder_path file_name in
  folder_exists ←← os_path_exists folder_path;
  (if negb folder_exists then os_makedirs folder_path else ret tt) ;;
  file_exists ←← os_path_exists file_path;
  if negb file_exists then write_empty_file file_path else ret tt.

(** Lines 116-117: the rewriting of a line's content. *)
Definition strip_level (content : string) : string :=
  if existsb (λ level, Str.contains level content) levels
  then Str.join_empty (tail (Str.split "|" content))
  else content.

(** [timestamp.split('T')[0]] *)
Definition date_string_of (timestamp : string) : string :=
  Str.first (Str.split "T" timestamp).

(** [file_lines_map]: a dict, kept as the list of its items in insertion
    order, which is the order [.items()] iterates in. *)
Definition lines_map : Type := list (string * list (string * string)).

Definition map_has (k : string) (m : lines_map) : bool :=
  existsb (λ e, bool_decide (e.1 = k)) m.

(** [m[k].append(v)]; the key is in the dict whenever line 122 is
    reached. *)
Fixpoint map_append (k : string) (v : string * string) (m : lines_map) : lines_map :=
  match m with
  | [] => []
  | (k', vs) :: m' =>
      if bool_decide (k' = k) then (k', vs ++ [v]) :: m'
      else (k', vs) :: map_append k v m'
  end.

(** The body of the first loop of [store_lines] (lines 113-122). *)
Definition add_line (m : lines_map) (line : string * string) : lines_map :=
  let timestamp := line.1 in
  let content := strip_level line.2 in
  let date_string := date_string_of timestamp in
  let m := if negb (map_has date_string m) then m ++ [(date_string, [])] else m in
  map_append date_string (timestamp, content) m.

Definition group_lines (lines : list (string * string)) : lines_map :=
  fold_left add_line lines [].

(** [f"{ts} | {content}\n"] *)
Definition format_line (ts content : string) : string :=
  ts +:+ " | " +:+ content +:+ nl.

(** [last_line_datetime and ts_datetime <= last_line_datetime]: a [datetime]
    is always true, so the test is on [None] alone. *)
Definition already_stored (last_line_datetime : option datetime)
    (ts_datetime : datetime) : bool :=
  match last_line_datetime with
  | Some l => datetime_le ts_datetime l
  | None => false
  end.

(** The inner loop (lines 134-139), from a count of [new_line_count]. *)
Fixpoint write_lines (file_path : string) (last_line_datetime : option datetime)
    (content_lines : list (string * string)) (new_line_count : nat) : M nat :=
  match content_lines with
  | [] => ret new_line_count
  | (ts, content) :: rest =>
      ts_datetime ←← lift (DatatimeHandler.get_datetime_from_ts_str ts);
      if already_stored last_line_datetime ts_datetime
      then write_lines file_path last_line_datetime rest new_line_count
      else
        (file_write file_path (format_line ts content) ;;
         write_lines file_path last_line_datetime rest (S new_line_count))
  end.

(** The body of the second loop (lines 125-140). *)
Definition store_date (self : crawler) (hotkey : string)
    (item : string * list (string * string)) : M unit :=
  let date_string := item.1 in
  let content_lines := item.2 in
  let folder := os_path_join (store_path self) hotkey in
  let file_path := os_path_join folder (date_string +:+ ".log") in
  ensure_file_exist self hotkey date_string ;;
  last_line_datetime ←← get_last_store_line_datetime self date_string hotkey;
  open_append file_path ;;
  new_line_count ←← write_lines file_path last_line_datetime content_lines 0;
  logging (InfoStored new_line_count hotkey date_string).

Definition store_lines (self : crawler) (hotkey : string)
    (lines : list (string * string)) : M unit :=
  let file_lines_map := group_lines lines in
  for_each (store_date self hotkey) file_lines_map.

(** [d[k]] on a dict *)
Definition getitem {V} (d : gmap string V) (k : string) : result V :=
  match d !! k with
  | Some v => Ok v
  | None => Raise (KeyError k)
  end.

Definition get_log_ts_and_content (log : gmap string (gmap string string))
  : result (string * string) :=
  match getitem log "node" with
  | Ok node =>
      match getitem node "timestamp" with
      | Ok ts =>
          match getitem node "line" with
          | Ok line => Ok (ts, line)
          | Raise e => Raise e
          end
      | Raise e => Raise e
      end
  | Raise e => Raise e
  end.

(** [[f(x) for x in l]] *)
Fixpoint list_comprehension {A B} (f : A → result B) (l : list A) : result (list B) :=
  match l with
  | [] => Ok []
  | x :: l' =>
      match f x with
      | Ok y =>
          match list_comprehension f l' with
          | Ok ys => Ok (y :: ys)
          | Raise e => Raise e
          end
      | Raise e => Raise e
      end
  end.

Definition store_logs (self : crawler) (hotkey : string)
    (logs : list (gmap string (gmap string string))) : M unit :=
  lines ←← lift (list_comprehension get_log_ts_and_content logs);
  store_lines self hotkey lines.

(** The body of the loop of [execute] (lines 151-158). *)
Definition process_run (self : crawler) (w : remote) (r : run) : M unit :=
  logging (InfoProcessing (run_id r)) ;;
  let hotkey := default (run_id r) (run_config r !! "hotkey") in
  try_except
    (logs ←← get_logs self w (run_id r);
     store_logs self hotkey logs)
    (λ e, logging (ErrorProcess (run_id r) e)).

Definition execute (self : crawler) (w : remote) : M unit :=
  runs ←← get_runs self w;
  for_each (process_run self w) runs ;;
  logging InfoFinished.

(** ** Predicates used in the statements *)

(** A string that begins and ends with characters that are not white
    space. *)
Definition trimmed (s : string) : Prop :=
  (∃ c t, s = String c t ∧ Str.is_space c = false) ∧
  (∃ t c, s = t +:+ String c EmptyString ∧ Str.is_space c = false).

Fixpoint all_chars (P : ascii → bool) (s : string) : bool :=
  match s with
  | EmptyString => true
  | String c s' => P c && all_chars P s'
  end.

(** The characters the pattern of [strptime] can match. *)
Definition ts_char (c : ascii) : bool :=
  Str.is_digit c
  || Str.eqb_ascii c "-" || Str.eqb_ascii c "T" || Str.eqb_ascii c "t"
  || Str.eqb_ascii c ":" || Str.eqb_ascii c "." || Str.eqb_ascii c " ".

(** Every way [m] matches takes a prefix of the input that lies in [L]. *)
Definition sound (m : Re.matcher) (L : string → Prop) : Prop :=
  ∀ s x r, (x, r) ∈ m s → s = x +:+ r ∧ L x.

Definition chars (P : ascii → bool) : string → Prop :=
  λ x, all_chars P x = true.
Definition chars_ne (P : ascii → bool) : string → Prop :=
  λ x, x ≠ EmptyString ∧ all_chars P x = true.

(** What the model uses of a timestamp [strptime] accepts: it has no ['|']
    and no line break, begins with a digit and ends with one. *)
Record ts_shape (ts : string) : Prop := {
  ts_no_pipe : Str.mem "|" ts = false;
  ts_no_lf : Str.mem "010" ts = false;
  ts_no_cr : Str.mem "013" ts = false;
  ts_first_digit : ∃ c t, ts = String c t ∧ Str.is_digit c = true;
  ts_last_digit : ∃ t c, ts = t +:+ String c EmptyString ∧ Str.is_digit c = true
}.

(** [a <= b] as a relation *)
Definition dt_le (a b : datetime) : Prop := datetime_le a b = true.

(** The text is empty or ends with ['\n']. *)
Definition terminated (c : string) : bool :=
  Str.is_empty c || Str.endswith_char "010" c.

(** No ['\n'] and no ['\r']. *)
Definition no_linebreak (s : string) : bool :=
  negb (Str.mem "010" s) && negb (Str.mem "013" s).

(** ** The effect of the store functions on the disk, as functions *)

(** The text of the file at [p]; empty when [p] is not a file. *)
Definition file_text (f : gmap string node) (p : string) : string :=
  match f !! p with
  | Some (File c) => c
  | _ => EmptyString
  end.

(** What [ensure_file_exist] leaves on the disk. *)
Definition ensure_fs (self : crawler) (hotkey date : string)
    (f : gmap string node) : gmap string node :=
  let folder_path := os_path_join (store_path self) hotkey in
  let file_path := log_file_path self hotkey date in
  let f1 := match f !! folder_path with
            | None => <[folder_path := Dir]> f
            | Some _ => f
            end in
  match f1 !! file_path with
  | None => <[file_path := File EmptyString]> f1
  | Some _ => f1
  end.

(** The high-water mark [get_last_store_line_datetime] finds in a file with
    the text [content]. *)
Definition high_water_mark (content : string) : result (option datetime) :=
  match last (file_lines content) with
  | Some l =>
      if negb (Str.is_empty l) then
        match DatatimeHandler.get_datetime_from_log l with
        | Ok d => Ok (Some d)
        | Raise e => Raise e
        end
      else Ok None
  | None => Ok None
  end.

Definition valid_ts (line : string * string) : bool := is_ok (strptime line.1).

(** The lines the inner loop reaches: those before the first timestamp that
    does not parse. *)
Fixpoint valid_prefix (part : list (string * string)) : list (string * string) :=
  match part with
  | [] => []
  | l :: rest => if valid_ts l then l :: valid_prefix rest else []
  end.

(** The line passes the test of line 136. *)
Definition is_new (last_line_datetime : option datetime)
    (line : string * string) : bool :=
  match strptime line.1 with
  | Ok d => negb (already_stored last_line_datetime d)
  | Raise _ => false
  end.

Definition new_lines (last_line_datetime : option datetime)
    (part : list (string * string)) : list (string * string) :=
  List.filter (is_new last_line_datetime) part.

(** The text written for a list of lines. *)
Definition lines_text (ls : list (string * string)) : string :=
  Str.join_empty (map (λ l, format_line l.1 l.2) ls).

(** The disk after one pass of the second loop and the count it reports, or
    the exception that ends it. *)
Definition store_date_fs (self : crawler) (hotkey : string)
    (item : string * list (string * string)) (f : gmap string node)
  : gmap string node * result nat :=
  let p := log_file_path self hotkey item.1 in
  let f2 := ensure_fs self hotkey item.1 f in
  match f2 !! p with
  | Some (File c) =>
      match high_water_mark c with
      | Ok last =>
          let written := new_lines last (valid_prefix item.2) in
          (<[p := File (c +:+ lines_text written)]> f2,
           if forallb valid_ts item.2 then Ok (length written)
           else Raise ValueError)
      | Raise e => (f2, Raise e)
      end
  | Some Dir => (f2, Raise (IsADirectoryError p))
  | None => (f2, Raise (FileNotFoundError p))
  end.

(** A line as the first loop files it: the content rewritten by lines
    116-117. *)
Definition stored_line (line : string * string) : string * string :=
  (line.1, strip_level line.2).

(** The lines of a batch whose timestamp carries the date [d], in the order
    received. *)
Definition lines_of_date (d : string) (lines : list (string * string))
  : list (string * string) :=
  filter (λ l, date_string_of l.1 = d) lines.

(** The lines one pass of the second loop appends to its file. *)
Definition written (self : crawler) (hotkey : string)
    (item : string * list (string * string)) (f : gmap string node)
  : list (string * string) :=
  match ensure_fs self hotkey item.1 f !! log_file_path self hotkey item.1 with
  | Some (File c) =>
      match high_water_mark c with
      | Ok last => new_lines last (valid_prefix item.2)
      | Raise _ => []
      end
  | _ => []
  end.

(** The disk after the second loop, and how the loop ends. *)
Fixpoint store_all_fs (self : crawler) (hotkey : string) (items : lines_map)
    (f : gmap string node) : gmap string node * result unit :=
  match items with
  | [] => (f, Ok tt)
  | item :: rest =>
      match store_date_fs self hotkey item f with
      | (f', Ok _) => store_all_fs self hotkey rest f'
      | (f', Raise e) => (f', Raise e)
      end
  end.

(** No entry of the disk is removed, a directory stays one, and a file keeps
    its text as a prefix of the new text. *)
Definition extends (f f' : gmap string node) : Prop :=
  ∀ q, match f !! q with
       | Some Dir => f' !! q = Some Dir
       | Some (File c) => ∃ suffix, f' !! q = Some (File (c +:+ suffix))
       | None => True
       end.

(** The part of a log file's path that does not depend on the date, when the
    file name does not begin with ['/']. *)
Definition folder_prefix (self : crawler) (hotkey : string) : string :=
  let folder := os_path_join (store_path self) hotkey in
  if Str.is_empty folder || Str.endswith_char "/" folder then folder
  else folder +:+ String "/" EmptyString.

(** The file name [d + ".log"] is relative. *)
Definition relative_date (d : string) : Prop :=
  Str.startswith (String "/" EmptyString) (d +:+ ".log") = false.

(** The timestamp of the line is strictly later than [T]. *)
Definition later_than (T : datetime) (line : string * string) : bool :=
  match strptime line.1 with
  | Ok t => datetime_lt T t
  | Raise _ => false
  end.

(** The timestamp of the line is [T] or earlier. *)
Definition at_or_before (T : datetime) (line : string * string) : bool :=
  match strptime line.1 with
  | Ok t => datetime_le t T
  | Raise _ => false
  end.

(** ** Sample inputs *)

Definition sample_crawler : crawler := mk_crawler "entity" "project" "wandb_logs" 60.

Definition empty_state : state := mk_state ∅ [].

(** A store whose file of 2024-01-01 for the owner [hk] ends with a line of
    10:00:05. *)
Definition sample_state : state :=
  mk_state
    {[ "wandb_logs/hk/2024-01-01.log" :=
         File (format_line "2024-01-01T10:00:05.000000" "old") ]} [].

(** Three lines of 2024-01-01, one of them later than 10:00:05. *)
Definition sample_batch : list (string * string) :=
  [("2024-01-01T10:00:01.000000", "a");
   ("2024-01-01T10:00:09.000000", "b");
   ("2024-01-01T10:00:05.000000", "c")].

(** A store whose file of 2024-01-01 for the owner [hk] exists and is
    empty. *)
Definition sample_state_empty_file : state :=
  mk_state {[ "wandb_logs/hk/2024-01-01.log" := File EmptyString ]} [].

(** ** The rewriting of a line's content, stated without [split] *)

(** The text after the first [sep]; empty when there is none. *)
Fixpoint after_first (sep : ascii) (s : string) : string :=
  match s with
  | EmptyString => EmptyString
  | String c r => if Str.eqb_ascii c sep then r else after_first sep r
  end.

(** The text without its occurrences of [sep]. *)
Fixpoint drop_char (sep : ascii) (s : string) : string :=
  match s with
  | EmptyString => EmptyString
  | String c r =>
      if Str.eqb_ascii c sep then drop_char sep r
      else String c (drop_char sep r)
  end.

(** One of the level names occurs in the content. *)
Definition has_level (content : string) : Prop :=
  ∃ level a b, level ∈ levels ∧ content = a +:+ level +:+ b.

(** The content is a level name, possibly surrounded by white space, then
    ['|'], then [rest]. *)
Definition marker_prefix (content rest : string) : Prop :=
  ∃ marker level,
    content = marker +:+ String "|" rest ∧ Str.mem "|" marker = false ∧
    level ∈ levels ∧ Str.strip marker = level.

(** The claim about marker prefixes as the specification has it: whatever
    follows the first ['|'] is stored. *)
Definition marker_prefix_stored_as_stated (self : crawler) (hotkey : string)
    (ts content : string) (st : state) : Prop :=
  ∀ rest st',
    marker_prefix content rest →
    store_lines self hotkey [(ts, content)] st = (st', Ok tt) →
    fs st' !! log_file_path self hotkey (date_string_of ts)
      = Some (File (file_text (fs st) (log_file_path self hotkey (date_string_of ts))
                    +:+ format_line ts rest)).

(** The claim about the place of a persisted line as the specification has
    it: whatever is appended to a file [q] comes from lines whose path by
    the layout [<store_root>/<owner_key>/<date>.log] is [q]. *)
Definition persisted_at_layout_as_stated (self : crawler) (hotkey : string)
    (lines : list (string * string)) (st : state) : Prop :=
  ∀ q, ∃ W,
    file_text (fs (store_lines self hotkey lines st).1) q
      = file_text (fs st) q +:+ lines_text W ∧
    ∀ l, l ∈ W →
      q = store_path self +:+ "/" +:+ hotkey +:+ "/" +:+ date_string_of l.1 +:+ ".log".


(** A batch of two dates, the line of the first date earlier than the last
    line of [sample_state]. *)
Definition sample_batch_two_dates : list (string * string) :=
  [("2024-01-01T10:00:01.000000", "a");
   ("2024-01-02T10:00:00.000000", "b")].

(** ** One cycle of [execute] *)

(** The body of the [try] of [execute] (lines 155-156). *)
Definition try_body (self : crawler) (w : remote) (r : run) : M unit :=
  let hotkey := default (run_id r) (run_config r !! "hotkey") in
  logs ←← get_logs self w (run_id r);
  store_logs self hotkey logs.


(** A remote service with two running jobs: the request for the lines of
    the first is answered with status 500, the second has one line. *)
Definition sample_remote : remote :=
  mk_remote
    (Ok [mk_run "run1" ∅; mk_run "run2" {[ "hotkey" := "hk" ]}])
    (λ id,
       if bool_decide (id = "run1") then Ok (mk_response 500 (Ok []))
       else Ok (mk_response 200
                  (Ok [ {[ "node" := {[ "timestamp" := "2024-01-01T10:00:00.000000";
                                        "line" := "hello" ]} ]} ]))).


(** ** Order of lines *)

(** Each element is at most the next one. *)
Fixpoint sorted_by {A} (leb : A → A → bool) (l : list A) : bool :=
  match l with
  | a :: (b :: _) as rest => leb a b && sorted_by leb rest
  | _ => true
  end.

(** Both timestamps parse and the first is not later than the second. *)
Definition line_leb (a b : string * string) : bool :=
  match strptime a.1, strptime b.1 with
  | Ok x, Ok y => datetime_le x y
  | _, _ => false
  end.

(** The same for two lines of a file. *)
Definition text_leb (a b : string) : bool :=
  match DatatimeHandler.get_datetime_from_log a,
        DatatimeHandler.get_datetime_from_log b with
  | Ok x, Ok y => datetime_le x y
  | _, _ => false
  end.

(** The timestamps of the lines are in the fixed format and in
    non-decreasing order. *)
Definition time_ordered (part : list (string * string)) : bool :=
  forallb valid_ts part && sorted_by line_leb part.

(** The lines of a file with the text [content] are in non-decreasing
    timestamp order. *)
Definition file_sorted (content : string) : bool :=
  forallb (λ l, is_ok (DatatimeHandler.get_datetime_from_log l)) (file_lines content)
  && sorted_by text_leb (file_lines content).

(** The lines of each date of the batch are in non-decreasing timestamp
    order. *)
Definition batch_ordered (lines : list (string * string)) : bool :=
  forallb (λ item, time_ordered item.2) (group_lines lines).

(** No content of the batch has a line break. *)
Definition batch_clean (lines : list (string * string)) : bool :=
  forallb (λ l, no_linebreak l.2) lines.

(** The files of the dates of the batch are empty or end with ['\n']. *)
Definition files_terminated (self : crawler) (hotkey : string)
    (lines : list (string * string)) (st : state) : bool :=
  forallb (λ item, terminated (file_text (fs st) (log_file_path self hotkey item.1)))
    (group_lines lines).

Definition line_le (a b : string * string) : Prop := line_leb a b = true.
Definition text_le (a b : string) : Prop := text_leb a b = true.

(** The claim about a second run as the specification has it. *)
Definition second_run_appends_nothing_as_stated (self : crawler) (hotkey : string)
    (lines : list (string * string)) (st : state) : Prop :=
  fs (store_lines self hotkey lines (store_lines self hotkey lines st).1).1
  = fs (store_lines self hotkey lines st).1.

(** The claim about the order of a file as the specification has it. *)
Definition order_preserved_as_stated (self : crawler) (hotkey : string)
    (lines : list (string * string)) (st : state) : Prop :=
  ∀ q c,
    fs st !! q = Some (File c) → file_sorted c = true →
    ∃ c', fs (store_lines self hotkey lines st).1 !! q = Some (File c') ∧
          file_sorted c' = true.

(** The hypotheses on a partition and its file: a relative file name,
    timestamps valid and in order, contents without line break, and a file
    whose text is empty or ends with ['\n']. *)
Definition item_good (self : crawler) (hotkey : string) (f : gmap string node)
    (item : string * list (string * string)) : Prop :=
  relative_date item.1 ∧ time_ordered item.2 = true ∧
  (∀ l, l ∈ item.2 → no_linebreak l.2 = true) ∧
  terminated (file_text f (log_file_path self hotkey item.1)) = true.

(** The entry at the path of a log file does not stand in the way of
    [store_lines]: there is none, or it is a file whose last line, if it has
    one, parses. *)
Definition file_ready (f : gmap string node) (p : string) : Prop :=
  match f !! p with
  | Some (File c) => is_ok (high_water_mark c) = true
  | Some Dir => False
  | None => True
  end.

(** The disk [m] leaves, and what it returns or raises, depend on the disk
    it starts from and not on the log. *)
Definition disk_only {A} (m : M A) : Prop :=
  ∀ s1 s2, fs s1 = fs s2 → fs (m s1).1 = fs (m s2).1 ∧ (m s1).2 = (m s2).2.


(** A line whose content has a line break followed by what reads as an
    older log line. *)
Definition sample_batch_line_break : list (string * string) :=
  [("2024-01-01T10:00:00.000000",
    "x" +:+ nl +:+ "1999-01-01T00:00:00.000000 | y")].

(** A store whose file of 2024-01-01 for the owner [hk] has one line,
    without line terminator. *)
Definition sample_state_unterminated : state :=
  mk_state {[ "wandb_logs/hk/2024-01-01.log" := File "2020-01-01T00:00:00.0" ]} [].

(** The batch of the example of the specification. *)
Definition spec_example_batch : list (string * string) :=
  [("2024-01-01T10:00:00.000000", "INFO | hello");
   ("2024-01-01T10:00:01.000000", "world")].

(** ** Timestamps at full width *)

(** The character of the last decimal digit of [n]. *)
Definition digit_char (n : N) : ascii := ascii_of_N (48 + n mod 10).

(** The last [width] decimal digits of [n], the most significant first. *)
Fixpoint zfill (width : nat) (n : N) : string :=
  match width with
  | O => EmptyString
  | S w => zfill w (n / 10) +:+ String (digit_char n) EmptyString
  end.

(** [YYYY-MM-DD] *)
Definition date_text (d : datetime) : string :=
  zfill 4 (year d) +:+ "-" +:+ zfill 2 (month d) +:+ "-" +:+ zfill 2 (day d).

(** [YYYY-MM-DDTHH:MM:SS.ffffff] *)
Definition timestamp_text (d : datetime) : string :=
  date_text d +:+ "T" +:+ zfill 2 (hour d) +:+ ":" +:+ zfill 2 (minute d)
  +:+ ":" +:+ zfill 2 (second d) +:+ "." +:+ zfill 6 (microsecond d).

(** The fields are in the ranges the [datetime] constructor accepts. *)
Definition valid_datetime (d : datetime) : bool :=
  check_date_fields (year d) (month d) (day d)
  && check_time_fields (hour d) (minute d) (second d) (microsecond d).

(** The list begins with [x]. *)
Definition starts {A} (l : list A) (x : A) : Prop := ∃ t, l = x :: t.

(** ** The partitions of a batch *)

(** The elements of a list in the order of their first occurrence. *)
Fixpoint nub (l : list string) : list string :=
  match l with
  | [] => []
  | x :: l' => x :: filter (λ y, y ≠ x) (nub l')
  end.

(** The dates of the lines of a batch, in the order received. *)
Definition dates_of (lines : list (string * string)) : list string :=
  (λ l, date_string_of l.1) <$> lines.

(** The record the second loop logs for a partition, on the disk [f]. *)
Definition stored_record (self : crawler) (hotkey : string) (f : gmap string node)
    (item : string * list (string * string)) : log_record :=
  InfoStored (length (written self hotkey item f)) hotkey item.1.

(** ** The owner key of a run *)

(** [json_config.get("hotkey", run.id)] *)
Definition hotkey_of (r : run) : string :=
  default (run_id r) (run_config r !! "hotkey").

(** A path [store_lines] may write for the owner key [hotkey] and the batch
    [lines]: the folder of the owner or the file of a date of the batch. *)
Definition touched (self : crawler) (hotkey : string)
    (lines : list (string * string)) (q : string) : Prop :=
  q = os_path_join (store_path self) hotkey ∨
  ∃ l, l ∈ lines ∧ q = log_file_path self hotkey (date_string_of l.1).

(** ** Names of one path component *)

(** A name of one path component: not empty, without ['/'] and without the
    null character, and neither ["."] nor [".."]. *)
Definition plain_name (k : string) : bool :=
  negb (Str.is_empty k) && negb (Str.mem "/" k) && negb (Str.mem "000" k)
  && negb (bool_decide (k = ".")) && negb (bool_decide (k = "..")).

(** The date of every line of the batch has neither ['/'] nor the null
    character, so that the file of a date lies in the folder of the
    owner. *)
Definition plain_dates (lines : list (string * string)) : bool :=
  forallb (λ l, negb (Str.mem "/" (date_string_of l.1))
                && negb (Str.mem "000" (date_string_of l.1))) lines.

(** A disk on which the directories above a log file, which the model of the
    disk does not follow, cannot decide how [store_lines] ends for the owner
    key [hotkey]: the store root is a directory, the owner key is a plain
    name, and there is no file at the path of the owner's folder. *)
Definition store_ready (self : crawler) (hotkey : string)
    (f : gmap string node) : bool :=
  plain_name hotkey
  && match f !! store_path self with
     | Some Dir => true
     | _ => false
     end
  && match f !! os_path_join (store_path self) hotkey with
     | Some (File _) => false
     | _ => true
     end.

(** The store root followed by the separator [os.path.join] puts after
    it. *)
Definition root_prefix (self : crawler) : string :=
  if Str.is_empty (store_path self) || Str.endswith_char "/" (store_path self)
  then store_path self
  else store_path self +:+ String "/" EmptyString.

(** ** The lines of a run *)

(** The lines a cycle hands to [store_lines] for the run [r]: those of the
    answer to the request for its log lines, when the status is 200 and
    every entry has its timestamp and line; none otherwise. *)
Definition fetched_lines (w : remote) (r : run) : list (string * string) :=
  match graphql_post w (run_id r) with
  | Ok resp =>
      if (status_code resp =? 200)%N then
        match edges resp with
        | Ok logs =>
            match list_comprehension get_log_ts_and_content logs with
            | Ok lines => lines
            | Raise _ => []
            end
        | Raise _ => []
        end
      else []
  | Raise _ => []
  end.

(** ** The claims about the lines appended, as the specification has them *)

(** The file of a date whose last line has the timestamp [T] receives the
    lines of that date's partition that are later than [T], in the order
    received, whatever the batch. *)
Definition appends_after_mark_as_stated (self : crawler) (hotkey : string)
    (lines : list (string * string)) (st : state) : Prop :=
  ∀ d T,
    (∃ l, l ∈ lines ∧ date_string_of l.1 = d) →
    get_last_store_line_datetime self d hotkey st = (st, Ok (Some T)) →
    fs (store_lines self hotkey lines st).1 !! log_file_path self hotkey d
    = Some (File (file_text (fs st) (log_file_path self hotkey d)
                  +:+ lines_text (List.filter (later_than T)
                                    (stored_line <$> lines_of_date d lines)))).

(** A file that exists and has no lines gives no mark and receives every
    line of its date's partition, whatever the batch. *)
Definition empty_file_appends_all_as_stated (self : crawler) (hotkey : string)
    (lines : list (string * string)) (st : state) : Prop :=
  ∀ d c,
    fs st !! log_file_path self hotkey d = Some (File c) →
    file_lines c = [] →
    (∃ l, l ∈ lines ∧ date_string_of l.1 = d) →
    get_last_store_line_datetime self d hotkey st = (st, Ok None) ∧
    fs (store_lines self hotkey lines st).1 !! log_file_path self hotkey d
    = Some (File (lines_text (stored_line <$> lines_of_date d lines))).

(** Three lines of 2024-01-01, the second with a timestamp that is not
    accepted. *)
Definition sample_batch_bad_timestamp : list (string * string) :=
  [("2024-01-01T10:00:09.000000", "b");
   ("2024-01-01Tbad", "x");
   ("2024-01-01T10:00:10.000000", "c")].

(** The disk the constructor leaves: the store root and nothing else. *)
Definition sample_root : state := mk_state {[ "wandb_logs" := Dir ]} [].

(** A store with its root, the folder of the owner [hk] and the file of
    2024-01-01, which ends with a line of 10:00:05. *)
Definition sample_store : state :=
  mk_state
    {[ "wandb_logs" := Dir;
       "wandb_logs/hk" := Dir;
       "wandb_logs/hk/2024-01-01.log" :=
         File (format_line "2024-01-01T10:00:05.000000" "old") ]} [].

(** The same store with a directory where the file of 2024-01-01 would
    be. *)
Definition sample_store_blocked : state :=
  mk_state
    {[ "wandb_logs" := Dir;
       "wandb_logs/hk" := Dir;
       "wandb_logs/hk/2024-01-01.log" := Dir ]} [].

(** * Properties *)

(** ** Sample evaluations of the timestamp parser *)

Example strptime_ex1 :
  strptime "2024-01-01T10:00:00.000000" = Ok (mk_datetime 2024 1 1 10 0 0 0).
Proof. vm_compute. reflexivity. Qed.
Example strptime_ex2 :
  strptime "2024-2-29t1:2:3.5" = Ok (mk_datetime 2024 2 29 1 2 3 500000).
Proof. vm_compute. reflexivity. Qed.
Example strptime_ex3 : strptime "2023-02-29T10:00:00.000000" = Raise ValueError.
Proof. vm_compute. reflexivity. Qed.
Example strptime_ex4 : strptime "2024-01-01T10:00:60.0" = Raise ValueError.
Proof. vm_compute. reflexivity. Qed.
Example strptime_ex5 : strptime "2024-01-01T10:00:00.0000000" = Raise ValueError.
Proof. vm_compute. reflexivity. Qed.
Example strptime_ex6 : strptime "2024-01- 1T10:00:00.1" = Ok (mk_datetime 2024 1 1 10 0 0 100000).
Proof. vm_compute. reflexivity. Qed.
Example strptime_ex7 : strptime "2024-01-01 10:00:00.1" = Raise ValueError.
Proof. vm_compute. reflexivity. Qed.
Example strptime_ex8 : strptime "0000-01-01T10:00:00.1" = Raise ValueError.
Proof. vm_compute. reflexivity. Qed.
Example get_dt_ex : DatatimeHandler.get_datetime_from_log "2024-01-01T10:00:00.000000 | a | b
" = Ok (mk_datetime 2024 1 1 10 0 0 0).
Proof. vm_compute. reflexivity. Qed.

(** ** Strings *)

Section string_facts.

Implicit Types (s t u : string) (c : ascii).

Lemma sapp_nil_l s : EmptyString +:+ s = s.
Proof. reflexivity. Qed.

Lemma sapp_cons c s t : String c s +:+ t = String c (s +:+ t).
Proof. reflexivity. Qed.

Lemma sapp_nil_r s : s +:+ EmptyString = s.
Proof. induction s as [|c s IH]; [done|]. by rewrite sapp_cons, IH. Qed.

Lemma sapp_assoc s t u : (s +:+ t) +:+ u = s +:+ (t +:+ u).
Proof. induction s as [|c s IH]; [done|]. by rewrite !sapp_cons, IH. Qed.

Lemma sapp_eq_nil s t : s +:+ t = EmptyString → s = EmptyString ∧ t = EmptyString.
Proof. destruct s; [done|]. by rewrite sapp_cons. Qed.

Lemma sapp_length s t : String.length (s +:+ t) = String.length s + String.length t.
Proof. induction s as [|c s IH]; [done|]. rewrite sapp_cons. simpl. by rewrite IH. Qed.

Lemma sapp_inv_tail s t u : s +:+ u = t +:+ u → s = t.
Proof.
  revert t. induction s as [|c s IH]; intros [|d t] H; [done| | |].
  - apply (f_equal String.length) in H.
    rewrite sapp_nil_l, sapp_length in H. simpl in H. lia.
  - apply (f_equal String.length) in H.
    rewrite sapp_nil_l, sapp_length in H. simpl in H. lia.
  - rewrite !sapp_cons in H. injection H as -> H. f_equal. by apply IH.
Qed.

Lemma eqb_ascii_true a b : Str.eqb_ascii a b = true ↔ a = b.
Proof. apply Ascii.eqb_eq. Qed.

Lemma eqb_ascii_false a b : Str.eqb_ascii a b = false ↔ a ≠ b.
Proof. apply Ascii.eqb_neq. Qed.

Lemma eqb_ascii_refl a : Str.eqb_ascii a a = true.
Proof. by apply eqb_ascii_true. Qed.

(** *** Membership *)

Lemma mem_app c s t : Str.mem c (s +:+ t) = Str.mem c s || Str.mem c t.
Proof.
  induction s as [|a s IH]; [done|].
  rewrite sapp_cons. simpl. rewrite IH. by rewrite orb_assoc.
Qed.

(** *** [split] *)

Lemma split_not_nil c s : Str.split c s ≠ [].
Proof.
  destruct s as [|a s]; [done|]. simpl.
  destruct (Str.eqb_ascii a c); [done|]. by destruct (Str.split c s).
Qed.

Lemma split_no_sep c s : Str.mem c s = false → Str.split c s = [s].
Proof.
  induction s as [|a s IH]; [done|]. simpl. intros H.
  apply orb_false_iff in H as [Ha Hs]. rewrite Ha, (IH Hs). done.
Qed.

Lemma split_app_sep c s t :
  Str.mem c s = false →
  Str.split c (s +:+ String c t) = s :: Str.split c t.
Proof.
  induction s as [|a s IH]; intros H.
  - rewrite sapp_nil_l. simpl. by rewrite eqb_ascii_refl.
  - simpl in H. apply orb_false_iff in H as [Ha Hs].
    rewrite sapp_cons. simpl. rewrite Ha, (IH Hs). done.
Qed.

Lemma split_first_app c s t :
  Str.mem c s = false → Str.first (Str.split c (s +:+ String c t)) = s.
Proof. intros H. by rewrite split_app_sep. Qed.

Lemma split_first_cons c a s :
  a ≠ c → Str.first (Str.split c (String a s)) = String a (Str.first (Str.split c s)).
Proof.
  intros Hne. simpl. apply eqb_ascii_false in Hne. rewrite Hne.
  pose proof (split_not_nil c s). by destruct (Str.split c s).
Qed.

Lemma mem_join_split x c s :
  Str.mem x (Str.join_empty (Str.split c s)) = true → Str.mem x s = true.
Proof.
  induction s as [|a s IH]; [done|]. simpl.
  destruct (Str.eqb_ascii a c) eqn:E.
  - simpl. rewrite sapp_nil_l. intros H. rewrite (IH H). apply orb_true_r.
  - pose proof (split_not_nil c s) as Hn.
    destruct (Str.split c s) as [|h l]; [done|]. simpl in *.
    intros H. apply orb_true_iff in H as [H|H].
    + rewrite H. done.
    + rewrite (IH H). apply orb_true_r.
Qed.

Lemma mem_join_tail x (l : list string) :
  Str.mem x (Str.join_empty (tail l)) = true → Str.mem x (Str.join_empty l) = true.
Proof.
  destruct l as [|h l]; [done|]. simpl. intros H.
  rewrite mem_app, H. apply orb_true_r.
Qed.

(** *** [strip] *)

Lemma rstrip_snoc_nonspace s c :
  Str.is_space c = false → Str.rstrip (s +:+ String c EmptyString) = s +:+ String c EmptyString.
Proof.
  intros Hc. induction s as [|a s IH].
  - rewrite sapp_nil_l. simpl. by rewrite Hc.
  - rewrite sapp_cons. simpl. rewrite IH.
    destruct s; rewrite ?sapp_nil_l, ?sapp_cons; simpl; by rewrite andb_false_r.
Qed.

Lemma rstrip_snoc_space s c :
  Str.is_space c = true → Str.rstrip (s +:+ String c EmptyString) = Str.rstrip s.
Proof.
  intros Hc. induction s as [|a s IH].
  - rewrite sapp_nil_l. simpl. by rewrite Hc.
  - rewrite sapp_cons. simpl. by rewrite IH.
Qed.

Lemma strip_trimmed s : trimmed s → Str.strip s = s.
Proof.
  intros [(c & t & -> & Hc) (t' & c' & Hs & Hc')]. unfold Str.strip.
  cbn [Str.lstrip]. rewrite Hc, Hs. by apply rstrip_snoc_nonspace.
Qed.

Lemma strip_trimmed_space s :
  trimmed s → Str.strip (s +:+ String " " EmptyString) = s.
Proof.
  intros Ht. pose proof (strip_trimmed s Ht) as Hs.
  destruct Ht as [(c & t & -> & Hc) _]. unfold Str.strip in *.
  rewrite sapp_cons. cbn [Str.lstrip] in *. rewrite Hc in *.
  rewrite <- sapp_cons. by rewrite rstrip_snoc_space.
Qed.

End string_facts.

(** ** The shape of a timestamp that [strptime] accepts *)

Section matcher_facts.

Implicit Types (m a b : Re.matcher) (P : ascii → bool) (L : string → Prop).

Lemma all_chars_app P s t :
  all_chars P (s +:+ t) = all_chars P s && all_chars P t.
Proof.
  induction s as [|c s IH]; [done|].
  rewrite sapp_cons. simpl. by rewrite IH, andb_assoc.
Qed.

Lemma all_chars_impl P Q s :
  (∀ c, P c = true → Q c = true) → all_chars P s = true → all_chars Q s = true.
Proof.
  intros HPQ. induction s as [|c s IH]; [done|]. simpl.
  intros [Hc Hs]%andb_true_iff. by rewrite (HPQ _ Hc), (IH Hs).
Qed.

Lemma all_chars_not_mem P s c :
  all_chars P s = true → P c = false → Str.mem c s = false.
Proof.
  intros Hs Hc. induction s as [|a s IH]; [done|]. simpl in *.
  apply andb_true_iff in Hs as [Ha Hs]. rewrite (IH Hs), orb_false_r.
  apply eqb_ascii_false. intros ->. congruence.
Qed.

Lemma all_chars_last P s :
  all_chars P s = true → s ≠ EmptyString →
  ∃ t c, s = t +:+ String c EmptyString ∧ P c = true.
Proof.
  induction s as [|a s IH]; [done|]. simpl.
  intros [Ha Hs]%andb_true_iff _. destruct s as [|b s].
  - by exists EmptyString, a.
  - destruct (IH Hs) as (t & c & Ht & Hc); [done|].
    exists (String a t), c. by rewrite sapp_cons, <- Ht.
Qed.

Lemma sound_cls p P :
  (∀ c, p c = true → P c = true) → sound (Re.cls p) (chars_ne P).
Proof.
  intros Hp [|c s] x r; unfold Re.cls; [by intros ?%elem_of_nil|].
  destruct (p c) eqn:E; [|by intros ?%elem_of_nil].
  intros H%list_elem_of_singleton. injection H as -> ->.
  repeat split; [done|]. simpl. by rewrite (Hp _ E).
Qed.

Lemma sound_ne_chars m P : sound m (chars_ne P) → sound m (chars P).
Proof. intros H s x r Hx. destruct (H s x r Hx) as (? & ? & ?). done. Qed.

Lemma sound_eps P : sound Re.eps (chars P).
Proof. intros s x r H%list_elem_of_singleton. by injection H as -> ->. Qed.

Lemma elem_of_seq a b s x r :
  (x, r) ∈ Re.seq a b s →
  ∃ u v s', (u, s') ∈ a s ∧ (v, r) ∈ b s' ∧ x = u +:+ v.
Proof.
  unfold Re.seq. intros ([u s'] & H & Hu)%list_elem_of_bind.
  apply list_elem_of_bind in H as ([v r'] & H & Hv).
  apply list_elem_of_singleton in H. simplify_eq. eauto 6.
Qed.

Lemma sound_seq a b P :
  sound a (chars P) → sound b (chars P) → sound (Re.seq a b) (chars P).
Proof.
  intros Ha Hb s x r (u & v & s' & Hu & Hv & ->)%elem_of_seq.
  destruct (Ha _ _ _ Hu) as [-> Hu']. destruct (Hb _ _ _ Hv) as [-> Hv'].
  split; [by rewrite sapp_assoc|]. unfold chars in *.
  by rewrite all_chars_app, Hu', Hv'.
Qed.

Lemma sound_seq_ne a b P :
  sound a (chars_ne P) → sound b (chars P) → sound (Re.seq a b) (chars_ne P).
Proof.
  intros Ha Hb s x r (u & v & s' & Hu & Hv & ->)%elem_of_seq.
  destruct (Ha _ _ _ Hu) as [-> [Hne Hu']]. destruct (Hb _ _ _ Hv) as [-> Hv'].
  split; [by rewrite sapp_assoc|]. unfold chars in *. split.
  - intros [? _]%sapp_eq_nil. done.
  - by rewrite all_chars_app, Hu', Hv'.
Qed.

Lemma sound_alt a b L : sound a L → sound b L → sound (Re.alt a b) L.
Proof.
  intros Ha Hb s x r [H|H]%elem_of_app; [by apply Ha|by apply Hb].
Qed.

Lemma sound_upto n m P : sound m (chars P) → sound (Re.upto n m) (chars P).
Proof.
  intros Hm. induction n as [|n IH]; simpl; [apply sound_eps|].
  apply sound_alt; [by apply sound_seq|apply sound_eps].
Qed.

Lemma range_digit lo hi c :
  (48 ≤ N_of_ascii lo)%N → (N_of_ascii hi ≤ 57)%N →
  (N_of_ascii lo <=? N_of_ascii c)%N && (N_of_ascii c <=? N_of_ascii hi)%N = true →
  Str.is_digit c = true.
Proof.
  intros Hlo Hhi [H1 H2]%andb_true_iff. unfold Str.is_digit.
  apply N.leb_le in H1, H2. apply andb_true_iff. split; apply N.leb_le; lia.
Qed.

Lemma sound_digit : sound Re.digit (chars_ne Str.is_digit).
Proof. by apply sound_cls. Qed.

Lemma sound_range lo hi :
  (48 ≤ N_of_ascii lo)%N → (N_of_ascii hi ≤ 57)%N →
  sound (Re.range lo hi) (chars_ne Str.is_digit).
Proof. intros. apply sound_cls. intros c. by apply range_digit. Qed.

Lemma sound_chr c : ts_char c = true → sound (Re.chr c) (chars ts_char).
Proof.
  intros Hc. apply sound_ne_chars, sound_cls.
  by intros c' ->%eqb_ascii_true.
Qed.

Lemma sound_chr_T : sound Re.chr_T (chars ts_char).
Proof.
  apply sound_ne_chars, sound_cls. intros c [->%eqb_ascii_true| ->%eqb_ascii_true]%orb_true_iff; done.
Qed.

Lemma digit_ts_char c : Str.is_digit c = true → ts_char c = true.
Proof. unfold ts_char. by intros ->. Qed.

Lemma sound_digits_ts m : sound m (chars_ne Str.is_digit) → sound m (chars ts_char).
Proof.
  intros H s x r Hx. destruct (H _ _ _ Hx) as (-> & _ & Hd). split; [done|].
  by eapply all_chars_impl; [apply digit_ts_char|].
Qed.

End matcher_facts.

Local Ltac range_bounds := vm_compute; discriminate.

Local Ltac solve_sound :=
  repeat first
    [ apply sound_alt
    | apply sound_seq
    | apply sound_chr; reflexivity
    | apply sound_chr_T
    | apply sound_digits_ts; first
        [ apply sound_digit | apply sound_range; range_bounds ] ].

Lemma sound_re_Y : sound Re.re_Y (chars_ne Str.is_digit).
Proof.
  unfold Re.re_Y.
  repeat first [apply sound_digit | apply sound_seq_ne | apply sound_ne_chars].
Qed.

Lemma sound_re_f : sound Re.re_f (chars_ne Str.is_digit).
Proof.
  unfold Re.re_f. apply sound_seq_ne; [apply sound_range; range_bounds|].
  apply sound_upto, sound_ne_chars, sound_range; range_bounds.
Qed.

Lemma sound_re_m : sound Re.re_m (chars ts_char).
Proof. unfold Re.re_m. solve_sound. Qed.
Lemma sound_re_d : sound Re.re_d (chars ts_char).
Proof. unfold Re.re_d. solve_sound. Qed.
Lemma sound_re_H : sound Re.re_H (chars ts_char).
Proof. unfold Re.re_H. solve_sound. Qed.
Lemma sound_re_M : sound Re.re_M (chars ts_char).
Proof. unfold Re.re_M. solve_sound. Qed.
Lemma sound_re_S : sound Re.re_S (chars ts_char).
Proof. unfold Re.re_S. solve_sound. Qed.

Lemma bind_sound {B} (a : Re.matcher) L (k : string * string → list B) s z :
  sound a L → z ∈ a s ≫= k →
  ∃ x s', s = x +:+ s' ∧ L x ∧ z ∈ k (x, s').
Proof.
  intros Ha ([x s'] & Hz & Hx)%list_elem_of_bind.
  destruct (Ha _ _ _ Hx) as [-> HL]. eauto.
Qed.

Lemma pattern_shape s g r :
  (g, r) ∈ Re.pattern s →
  ∃ y mid f, s = y +:+ mid +:+ f +:+ r ∧
    chars_ne Str.is_digit y ∧ chars ts_char mid ∧ chars_ne Str.is_digit f.
Proof.
  unfold Re.pattern. intros H.
  apply (bind_sound _ _ _ _ _ sound_re_Y) in H as (y & s1 & -> & Hy & H).
  apply (bind_sound _ _ _ _ _ (sound_chr "-" eq_refl)) in H as (x1 & s2 & -> & H1 & H).
  apply (bind_sound _ _ _ _ _ sound_re_m) in H as (x2 & s3 & -> & H2 & H).
  apply (bind_sound _ _ _ _ _ (sound_chr "-" eq_refl)) in H as (x3 & s4 & -> & H3 & H).
  apply (bind_sound _ _ _ _ _ sound_re_d) in H as (x4 & s5 & -> & H4 & H).
  apply (bind_sound _ _ _ _ _ sound_chr_T) in H as (x5 & s6 & -> & H5 & H).
  apply (bind_sound _ _ _ _ _ sound_re_H) in H as (x6 & s7 & -> & H6 & H).
  apply (bind_sound _ _ _ _ _ (sound_chr ":" eq_refl)) in H as (x7 & s8 & -> & H7 & H).
  apply (bind_sound _ _ _ _ _ sound_re_M) in H as (x8 & s9 & -> & H8 & H).
  apply (bind_sound _ _ _ _ _ (sound_chr ":" eq_refl)) in H as (x9 & s10 & -> & H9 & H).
  apply (bind_sound _ _ _ _ _ sound_re_S) in H as (x10 & s11 & -> & H10 & H).
  apply (bind_sound _ _ _ _ _ (sound_chr "." eq_refl)) in H as (x11 & s12 & -> & H11 & H).
  apply (bind_sound _ _ _ _ _ sound_re_f) in H as (f & s13 & -> & Hf & H).
  apply list_elem_of_singleton in H. injection H as _ ->.
  exists y, (x1 +:+ x2 +:+ x3 +:+ x4 +:+ x5 +:+ x6 +:+ x7 +:+ x8 +:+ x9 +:+ x10 +:+ x11), f.
  split; [|split; [done|split; [|done]]].
  - by rewrite !sapp_assoc.
  - unfold chars in *. rewrite !all_chars_app.
    by rewrite H1, H2, H3, H4, H5, H6, H7, H8, H9, H10, H11.
Qed.

Lemma strptime_shape ts d : strptime ts = Ok d → ts_shape ts.
Proof.
  unfold strptime, Re.match_. destruct (head (Re.pattern ts)) as [[g r]|] eqn:Hh; [|done].
  destruct r; [|done]. intros _.
  apply head_Some_elem_of in Hh.
  apply pattern_shape in Hh as (y & mid & f & -> & [Hy Hyd] & Hmid & [Hf Hfd]).
  rewrite sapp_nil_r.
  assert (all_chars ts_char (y +:+ mid +:+ f) = true) as Hall.
  { unfold chars in *. rewrite !all_chars_app, Hmid.
    rewrite (all_chars_impl _ _ _ digit_ts_char Hyd).
    by rewrite (all_chars_impl _ _ _ digit_ts_char Hfd). }
  split.
  - by apply (all_chars_not_mem _ _ _ Hall).
  - by apply (all_chars_not_mem _ _ _ Hall).
  - by apply (all_chars_not_mem _ _ _ Hall).
  - destruct y as [|c y]; [done|]. exists c, (y +:+ mid +:+ f).
    split; [done|]. simpl in Hyd. by apply andb_true_iff in Hyd as [? _].
  - destruct (all_chars_last _ _ Hfd Hf) as (t & c & -> & Hc).
    exists (y +:+ mid +:+ t), c. by rewrite !sapp_assoc.
Qed.

Lemma digit_not_space c : Str.is_digit c = true → Str.is_space c = false.
Proof.
  unfold Str.is_digit, Str.is_space. intros [H1 H2]%andb_true_iff.
  apply N.leb_le in H1, H2.
  repeat (apply orb_false_iff; split); rewrite ?andb_false_iff, ?N.leb_gt, ?N.eqb_neq; lia.
Qed.

Lemma ts_shape_trimmed ts : ts_shape ts → trimmed ts.
Proof.
  intros [_ _ _ (c & t & -> & Hc) (t' & c' & Ht & Hc')]. split.
  - exists c, t. eauto using digit_not_space.
  - exists t', c'. eauto using digit_not_space.
Qed.

(** Reading back a line that was written for an accepted timestamp gives
    that timestamp's value. *)
Lemma get_datetime_from_log_format ts rest :
  ts_shape ts →
  DatatimeHandler.get_datetime_from_log (ts +:+ " | " +:+ rest) = strptime ts.
Proof.
  intros Hs. unfold DatatimeHandler.get_datetime_from_log.
  replace (ts +:+ " | " +:+ rest)
    with ((ts +:+ String " " EmptyString) +:+ String "|" (String " " rest))
    by (by rewrite sapp_assoc).
  rewrite split_first_app.
  - by rewrite strip_trimmed_space by by apply ts_shape_trimmed.
  - rewrite mem_app, (ts_no_pipe _ Hs). done.
Qed.

Lemma date_string_first_digit ts :
  ts_shape ts → ∃ c t, date_string_of ts = String c t ∧ Str.is_digit c = true.
Proof.
  intros [_ _ _ (c & t & -> & Hc) _]. unfold date_string_of.
  rewrite split_first_cons; [eauto|]. intros ->. done.
Qed.

(** ** The order on [datetime] *)

Section datetime_order.

Lemma cmp_fields_refl a : cmp_fields a a = Eq.
Proof. induction a as [|x a IH]; [done|]. simpl. by rewrite N.compare_refl. Qed.

Lemma cmp_fields_antisym a b : cmp_fields b a = CompOpp (cmp_fields a b).
Proof.
  revert b. induction a as [|x a IH]; intros [|y b]; try done. simpl.
  rewrite (N.compare_antisym x y). destruct (x ?= y)%N; simpl; auto.
Qed.

Lemma cmp_fields_eq a b : cmp_fields a b = Eq → a = b.
Proof.
  revert b. induction a as [|x a IH]; intros [|y b]; try done. simpl.
  destruct (x ?= y)%N eqn:E; try done.
  apply N.compare_eq in E as ->. intros ?. f_equal. auto.
Qed.

Lemma cmp_fields_lt_trans a b c :
  cmp_fields a b = Lt → cmp_fields b c = Lt → cmp_fields a c = Lt.
Proof.
  revert b c. induction a as [|x a IH]; intros [|y b] [|z c]; try done. simpl.
  destruct (x ?= y)%N eqn:Exy; try done; destruct (y ?= z)%N eqn:Eyz; try done.
  - apply N.compare_eq in Exy as ->. rewrite Eyz. eauto.
  - apply N.compare_eq in Exy as ->. by rewrite Eyz.
  - apply N.compare_eq in Eyz as <-. by rewrite Exy.
  - rewrite N.compare_lt_iff in Exy, Eyz.
    assert ((x ?= z)%N = Lt) as -> by (apply N.compare_lt_iff; lia). done.
Qed.

Global Instance dt_le_refl : Reflexive dt_le.
Proof. intros a. unfold dt_le, datetime_le, datetime_cmp. by rewrite cmp_fields_refl. Qed.

Global Instance dt_le_trans : Transitive dt_le.
Proof.
  intros a b c. unfold dt_le, datetime_le, datetime_cmp.
  destruct (cmp_fields (datetime_fields a) (datetime_fields b)) eqn:Eab; [| |done].
  - apply cmp_fields_eq in Eab as ->. done.
  - destruct (cmp_fields (datetime_fields b) (datetime_fields c)) eqn:Ebc; [| |done].
    + apply cmp_fields_eq in Ebc as <-. by rewrite Eab.
    + by rewrite (cmp_fields_lt_trans _ _ _ Eab Ebc).
Qed.

Lemma datetime_lt_not_le a b : datetime_lt a b = negb (datetime_le b a).
Proof.
  unfold datetime_lt, datetime_le, datetime_cmp.
  rewrite (cmp_fields_antisym (datetime_fields a) (datetime_fields b)).
  by destruct (cmp_fields (datetime_fields a) (datetime_fields b)).
Qed.

Lemma datetime_lt_le a b : datetime_lt a b = true → dt_le a b.
Proof.
  unfold dt_le, datetime_lt, datetime_le.
  by destruct (datetime_cmp a b).
Qed.

Lemma datetime_le_total a b : dt_le a b ∨ dt_le b a.
Proof.
  destruct (datetime_le a b) eqn:E; [by left|right].
  apply datetime_lt_le. by rewrite datetime_lt_not_le, E.
Qed.

End datetime_order.

(** ** The lines of a text file *)

Section text_facts.

Implicit Types (s t a b : string) (c : ascii).

Lemma endswith_char_cons c x s :
  s ≠ EmptyString → Str.endswith_char c (String x s) = Str.endswith_char c s.
Proof. by destruct s. Qed.

Lemma endswith_char_snoc c s : Str.endswith_char c (s +:+ String c EmptyString) = true.
Proof.
  induction s as [|x s IH]; [apply eqb_ascii_refl|].
  rewrite sapp_cons, endswith_char_cons; [done|].
  by intros [_ ?]%sapp_eq_nil.
Qed.

Lemma endswith_char_app c s t :
  t ≠ EmptyString → Str.endswith_char c (s +:+ t) = Str.endswith_char c t.
Proof.
  intros Ht. induction s as [|x s IH]; [done|].
  rewrite sapp_cons, endswith_char_cons; [done|].
  by intros [_ ?]%sapp_eq_nil.
Qed.

Lemma terminated_tail x s : terminated (String x s) = true → terminated s = true.
Proof.
  unfold terminated. destruct s as [|y s]; [done|].
  by rewrite endswith_char_cons.
Qed.

Lemma terminated_app_nl s t : terminated (s +:+ t +:+ nl) = true.
Proof.
  unfold terminated. rewrite <- sapp_assoc. unfold nl.
  by rewrite endswith_char_snoc, orb_true_r.
Qed.

Lemma universal_newlines_nil s : universal_newlines s = EmptyString → s = EmptyString.
Proof.
  destruct s as [|x s]; [done|]. simpl.
  destruct (Str.eqb_ascii x "013"); [|done].
  destruct s as [|y s]; [done|]. by destruct (Str.eqb_ascii y "010").
Qed.

Lemma universal_newlines_no_cr s :
  Str.mem "013" s = false → universal_newlines s = s.
Proof.
  induction s as [|x s IH]; [done|]. simpl.
  intros [-> Hs]%orb_false_iff. by rewrite IH.
Qed.

Lemma universal_newlines_app a b :
  terminated a = true →
  universal_newlines (a +:+ b) = universal_newlines a +:+ universal_newlines b.
Proof.
  induction a as [|x a IH]; [done|]. intros Ht.
  pose proof (terminated_tail _ _ Ht) as Ht'. specialize (IH Ht').
  rewrite sapp_cons. simpl.
  destruct (Str.eqb_ascii x "013") eqn:Ex; [|by rewrite IH].
  apply eqb_ascii_true in Ex as ->.
  destruct a as [|y a]; [done|]. rewrite sapp_cons in *. cbv beta iota.
  destruct (Str.eqb_ascii y "010") eqn:Ey.
  - apply eqb_ascii_true in Ey as ->. simpl in IH.
    injection IH as IH. by rewrite sapp_cons, IH.
  - by rewrite sapp_cons, <- IH.
Qed.

Lemma universal_newlines_terminated a :
  terminated a = true → terminated (universal_newlines a) = true.
Proof.
  induction a as [|x a IH]; [done|]. intros Ht.
  pose proof (terminated_tail _ _ Ht) as Ht'. specialize (IH Ht').
  simpl. destruct (Str.eqb_ascii x "013") eqn:Ex.
  - apply eqb_ascii_true in Ex as ->.
    destruct a as [|y a]; [done|]. simpl in IH.
    destruct (Str.eqb_ascii y "010") eqn:Ey.
    + apply eqb_ascii_true in Ey as ->. simpl in IH.
      destruct (universal_newlines a) as [|z u] eqn:Eu; [done|].
      unfold terminated in *. simpl. simpl in IH. done.
    + unfold terminated in *. simpl. simpl in IH.
      destruct (Str.eqb_ascii y "013");
        [destruct a as [|w a]; [done|]; destruct (Str.eqb_ascii w "010")|];
        simpl in *; done.
  - unfold terminated in *. simpl.
    destruct (universal_newlines a) as [|z u] eqn:Eu; [|done].
    apply universal_newlines_nil in Eu as ->. simpl in Ht. done.
Qed.

Lemma split_lines_nil s : split_lines s = [] → s = EmptyString.
Proof.
  destruct s as [|x s]; [done|]. simpl.
  destruct (Str.eqb_ascii x "010"); [done|]. by destruct (split_lines s).
Qed.

Lemma split_lines_app a b :
  terminated a = true → split_lines (a +:+ b) = split_lines a ++ split_lines b.
Proof.
  induction a as [|x a IH]; [done|]. intros Ht.
  pose proof (terminated_tail _ _ Ht) as Ht'. specialize (IH Ht').
  rewrite sapp_cons. simpl. rewrite IH.
  destruct (Str.eqb_ascii x "010") eqn:Ex; [done|].
  destruct (split_lines a) as [|h t] eqn:Ea; [|done].
  apply split_lines_nil in Ea as ->. unfold terminated in Ht. simpl in Ht.
  unfold Str.eqb_ascii in *. congruence.
Qed.

Lemma split_lines_line s :
  Str.mem "010" s = false → split_lines (s +:+ nl) = [s +:+ nl].
Proof.
  induction s as [|x s IH]; [done|]. simpl.
  intros [Hx Hs]%orb_false_iff. rewrite sapp_cons. simpl.
  by rewrite Hx, (IH Hs).
Qed.

(** Appending one terminated line to a terminated text adds one line. *)
Lemma file_lines_app_line a s :
  terminated a = true → no_linebreak s = true →
  file_lines (a +:+ s +:+ nl) = file_lines a ++ [s +:+ nl].
Proof.
  intros Ha [Hlf Hcr]%andb_true_iff.
  apply negb_true_iff in Hlf, Hcr. unfold file_lines.
  rewrite universal_newlines_app by done.
  rewrite split_lines_app by by apply universal_newlines_terminated.
  rewrite (universal_newlines_no_cr (s +:+ nl)).
  - by rewrite split_lines_line.
  - by rewrite mem_app, Hcr.
Qed.

End text_facts.

(** ** The store functions as functions of the disk *)

Section store_specs.

Context (self : crawler) (hotkey : string).

Lemma state_eta st : mk_state (fs st) (log st) = st.
Proof. by destruct st. Qed.

Lemma strptime_raise ts e : strptime ts = Raise e → e = ValueError.
Proof.
  unfold strptime. destruct (Re.match_ ts) as [[g r]|]; [|congruence].
  destruct (negb (Str.is_empty r)); [congruence|].
  match goal with |- context [if ?b then _ else _] => destruct b end; congruence.
Qed.

Lemma ensure_file_exist_spec date st :
  ensure_file_exist self hotkey date st
  = (mk_state (ensure_fs self hotkey date (fs st)) (log st), Ok tt).
Proof.
  unfold ensure_file_exist, ensure_fs, log_file_path, bind, os_path_exists,
    os_makedirs, write_empty_file, ret.
  set (folder := os_path_join (store_path self) hotkey).
  set (p := os_path_join folder (date +:+ ".log")).
  destruct (fs st !! folder) as [nd|] eqn:Hfolder; simpl.
  - destruct (fs st !! p) as [nd'|] eqn:Hp; simpl; rewrite ?Hp; [by rewrite state_eta|done].
  - rewrite Hfolder. simpl.
    destruct (<[folder:=Dir]> (fs st) !! p) as [nd'|] eqn:Hp; simpl; rewrite ?Hp; done.
Qed.

Lemma get_last_store_line_datetime_spec date st :
  get_last_store_line_datetime self date hotkey st
  = (st, match fs st !! log_file_path self hotkey date with
         | Some (File c) => high_water_mark c
         | Some Dir => Raise (IsADirectoryError (log_file_path self hotkey date))
         | None => Raise (FileNotFoundError (log_file_path self hotkey date))
         end).
Proof.
  unfold get_last_store_line_datetime, log_file_path, bind, read_file, high_water_mark.
  set (p := os_path_join _ (date +:+ ".log")).
  destruct (fs st !! p) as [[|c]|]; try done.
  destruct (last (file_lines c)) as [l|]; [|done].
  destruct (negb (Str.is_empty l)); [|done].
  unfold bind, lift, ret. by destruct (DatatimeHandler.get_datetime_from_log l).
Qed.

Lemma lines_text_cons l ls :
  lines_text (l :: ls) = format_line l.1 l.2 +:+ lines_text ls.
Proof. done. Qed.

Lemma lines_text_app ls1 ls2 :
  lines_text (ls1 ++ ls2) = lines_text ls1 +:+ lines_text ls2.
Proof.
  induction ls1 as [|l ls1 IH]; [done|].
  by rewrite <- app_comm_cons, !lines_text_cons, IH, sapp_assoc.
Qed.

Lemma valid_ts_ok ts content d : strptime ts = Ok d → valid_ts (ts, content) = true.
Proof. unfold valid_ts. cbn [fst]. by intros ->. Qed.

Lemma valid_ts_raise ts content e : strptime ts = Raise e → valid_ts (ts, content) = false.
Proof. unfold valid_ts. cbn [fst]. by intros ->. Qed.

Lemma is_new_ok last ts content d :
  strptime ts = Ok d → is_new last (ts, content) = negb (already_stored last d).
Proof. unfold is_new. cbn [fst]. by intros ->. Qed.

Lemma new_lines_cons last l ls :
  new_lines last (l :: ls)
  = if is_new last l then l :: new_lines last ls else new_lines last ls.
Proof. done. Qed.

Lemma write_lines_spec p last part n st c :
  fs st !! p = Some (File c) →
  write_lines p last part n st
  = (mk_state (<[p := File (c +:+ lines_text (new_lines last (valid_prefix part)))]> (fs st))
       (log st),
     if forallb valid_ts part
     then Ok (n + length (new_lines last (valid_prefix part)))
     else Raise ValueError).
Proof.
  revert n st c. induction part as [|[ts content] rest IH]; intros n st c Hp.
  - simpl. unfold ret. rewrite sapp_nil_r, (insert_id _ _ _ Hp), state_eta.
    do 2 f_equal. lia.
  - cbn [write_lines valid_prefix forallb].
    unfold bind at 1, lift, DatatimeHandler.get_datetime_from_ts_str.
    destruct (strptime ts) as [d|e] eqn:Hts.
    + rewrite (valid_ts_ok _ content _ Hts). cbn [andb].
      rewrite new_lines_cons, (is_new_ok _ _ _ _ Hts).
      destruct (already_stored last d) eqn:Hold; cbn [negb].
      * by apply IH.
      * unfold bind, file_write. rewrite Hp.
        erewrite IH by (cbn [fs]; apply lookup_insert_eq). cbn [fs log length].
        rewrite insert_insert_eq, lines_text_cons, sapp_assoc. cbn [fst snd].
        by rewrite Nat.add_succ_r.
    + rewrite (valid_ts_raise _ content _ Hts). cbn [andb].
      apply strptime_raise in Hts as ->. unfold new_lines. cbn [List.filter].
      by rewrite sapp_nil_r, (insert_id _ _ _ Hp), state_eta.
Qed.

Lemma ensure_fs_file date f :
  is_Some (ensure_fs self hotkey date f !! log_file_path self hotkey date).
Proof.
  unfold ensure_fs.
  destruct (f !! os_path_join (store_path self) hotkey);
    match goal with |- context [match ?x !! ?p with Some _ => _ | None => _ end] =>
      destruct (x !! p) eqn:E end; rewrite ?E, ?lookup_insert_eq; done.
Qed.

Lemma store_date_spec item st :
  store_date self hotkey item st
  = (mk_state (store_date_fs self hotkey item (fs st)).1
       (log st ++ match (store_date_fs self hotkey item (fs st)).2 with
                  | Ok n => [InfoStored n hotkey item.1]
                  | Raise _ => []
                  end),
     match (store_date_fs self hotkey item (fs st)).2 with
     | Ok _ => Ok tt
     | Raise e => Raise e
     end).
Proof.
  unfold store_date, store_date_fs. unfold bind at 1.
  rewrite ensure_file_exist_spec. unfold bind at 1.
  rewrite get_last_store_line_datetime_spec. cbn [fs log].
  fold (log_file_path self hotkey item.1).
  set (p := log_file_path self hotkey item.1).
  set (f2 := ensure_fs self hotkey item.1 (fs st)).
  destruct (f2 !! p) as [[|c]|] eqn:Hp; cbn [fst snd]; rewrite ?app_nil_r; try done.
  destruct (high_water_mark c) as [last|e]; cbn [fst snd]; rewrite ?app_nil_r; [|done].
  unfold bind at 1, open_append. cbn [fs]. rewrite Hp.
  unfold bind at 1. erewrite write_lines_spec by (cbn [fs]; exact Hp). cbn [fs log].
  destruct (forallb valid_ts item.2); cbn [fst snd]; rewrite ?app_nil_r; done.
Qed.

End store_specs.

(** ** The first loop: grouping by date *)

Section group_facts.

Implicit Types (m : lines_map) (lines : list (string * string)) (d : string).

Lemma map_has_elem_of d m : map_has d m = true ↔ d ∈ m.*1.
Proof.
  unfold map_has. rewrite existsb_exists, list_elem_of_fmap. split.
  - intros ([k vs] & Hin & Hk). apply bool_decide_eq_true in Hk.
    exists (k, vs). split; [done|]. by apply list_elem_of_In.
  - intros ([k vs] & -> & Hin). exists (k, vs).
    split; [by apply list_elem_of_In|]. by apply bool_decide_eq_true.
Qed.

Lemma map_append_fmap d v m :
  NoDup m.*1 →
  map_append d v m
  = (λ e, if bool_decide (e.1 = d) then (e.1, e.2 ++ [v]) else e) <$> m.
Proof.
  induction m as [|[k vs] m IH]; [done|]. intros [Hk Hm]%NoDup_cons. simpl.
  case_bool_decide as Hkd.
  - subst k. f_equal. rewrite <- (list_fmap_id m) at 1.
    apply Forall_fmap_ext, Forall_forall.
    intros [k' vs'] Hin. simpl. case_bool_decide; [|done]. subst k'.
    destruct Hk. apply list_elem_of_fmap. by exists (d, vs').
  - by rewrite IH.
Qed.

Lemma map_append_keys d v m : (map_append d v m).*1 = m.*1.
Proof.
  induction m as [|[k vs] m IH]; [done|]. simpl.
  case_bool_decide; rewrite !fmap_cons; simpl; by rewrite ?IH.
Qed.

Lemma add_line_keys m l :
  (add_line m l).*1
  = if map_has (date_string_of l.1) m then m.*1 else m.*1 ++ [date_string_of l.1].
Proof.
  unfold add_line. rewrite map_append_keys.
  destruct (map_has _ m); simpl; [done|]. by rewrite fmap_app.
Qed.

Lemma group_lines_snoc lines l :
  group_lines (lines ++ [l]) = add_line (group_lines lines) l.
Proof. unfold group_lines. by rewrite fold_left_app. Qed.

Lemma lines_of_date_snoc d lines l :
  lines_of_date d (lines ++ [l])
  = lines_of_date d lines ++ (if decide (date_string_of l.1 = d) then [l] else []).
Proof.
  unfold lines_of_date. rewrite filter_app, filter_cons, filter_nil.
  by destruct (decide _).
Qed.

Lemma lines_of_date_nil d lines :
  (∀ l, l ∈ lines → date_string_of l.1 ≠ d) → lines_of_date d lines = [].
Proof.
  intros H. unfold lines_of_date. induction lines as [|l lines IH]; [done|].
  rewrite filter_cons. destruct (decide _) as [Hd|_].
  - destruct (H l); [left|done].
  - apply IH. intros l' Hl'. apply H. by right.
Qed.

(** The keys are the dates of the batch, each once; the entry of a date
    holds the lines of that date, rewritten, in the order received. *)
Lemma group_lines_inv lines :
  NoDup (group_lines lines).*1 ∧
  (∀ d, d ∈ (group_lines lines).*1 ↔ ∃ l, l ∈ lines ∧ date_string_of l.1 = d) ∧
  (∀ d part, (d, part) ∈ group_lines lines →
     part = stored_line <$> lines_of_date d lines).
Proof.
  induction lines as [|l lines (Hnd & Hkeys & Hparts)] using rev_ind.
  - split; [constructor|]. split.
    + intros d. split; [by intros ?%elem_of_nil|]. by intros (? & ?%elem_of_nil & _).
    + by intros d part ?%elem_of_nil.
  - rewrite group_lines_snoc. set (m := group_lines lines) in *.
    assert (NoDup (add_line m l).*1) as Hnd'.
    { rewrite add_line_keys. destruct (map_has (date_string_of l.1) m) eqn:Hhas; [done|].
      apply NoDup_app. split; [done|]. split; [|apply NoDup_singleton].
      intros d Hd ->%list_elem_of_singleton.
      apply map_has_elem_of in Hd. congruence. }
    split; [done|]. split.
    + intros d. rewrite add_line_keys.
      setoid_rewrite elem_of_app. setoid_rewrite list_elem_of_singleton.
      destruct (map_has (date_string_of l.1) m) eqn:Hhas.
      * rewrite Hkeys. split.
        -- intros (l' & Hl' & Hd). eauto.
        -- intros (l' & [Hl'| ->] & Hd); [eauto|].
           apply Hkeys, map_has_elem_of. by subst d.
      * rewrite elem_of_app, Hkeys, list_elem_of_singleton. split.
        -- intros [(l' & Hl' & Hd)| ->]; eauto.
        -- intros (l' & [Hl'| ->] & Hd); eauto.
    + intros d part. unfold add_line.
      set (m1 := if negb (map_has (date_string_of l.1) m) then m ++ [((date_string_of l.1), [])] else m).
      assert (NoDup m1.*1) as Hnd1.
      { subst m1. destruct (map_has (date_string_of l.1) m) eqn:Hhas; simpl; [done|].
        rewrite fmap_app. apply NoDup_app. split; [done|].
        split; [|apply NoDup_singleton].
        intros k Hk ->%list_elem_of_singleton.
        apply map_has_elem_of in Hk. simpl in Hk. congruence. }
      assert (∀ k vs, (k, vs) ∈ m1 → vs = stored_line <$> lines_of_date k lines) as Hm1.
      { intros k vs. subst m1. destruct (map_has (date_string_of l.1) m) eqn:Hhas; simpl; [by apply Hparts|].
        intros [Hin|Hin%list_elem_of_singleton]%elem_of_app; [by apply Hparts|].
        injection Hin as -> ->. rewrite lines_of_date_nil; [done|].
        intros l' Hl' Hd.
        assert (map_has (date_string_of l.1) m = true); [|congruence].
        apply map_has_elem_of, Hkeys. eauto. }
      rewrite map_append_fmap by done.
      intros ([k vs] & Heq & Hin)%list_elem_of_fmap. simpl in Heq.
      rewrite (lines_of_date_snoc d lines l).
      specialize (Hm1 _ _ Hin). case_bool_decide as Hk.
      * injection Heq as -> ->. subst k. rewrite decide_True by done.
        by rewrite fmap_app, <- Hm1.
      * injection Heq as -> ->. rewrite decide_False by done.
        by rewrite app_nil_r.
Qed.

Lemma group_lines_NoDup lines : NoDup (group_lines lines).*1.
Proof. apply group_lines_inv. Qed.

Lemma group_lines_keys lines d :
  d ∈ (group_lines lines).*1 ↔ ∃ l, l ∈ lines ∧ date_string_of l.1 = d.
Proof. apply group_lines_inv. Qed.

Lemma group_lines_part lines d part :
  (d, part) ∈ group_lines lines → part = stored_line <$> lines_of_date d lines.
Proof. apply group_lines_inv. Qed.

Lemma group_lines_lookup lines l :
  l ∈ lines →
  (date_string_of l.1, stored_line <$> lines_of_date (date_string_of l.1) lines)
    ∈ group_lines lines.
Proof.
  intros Hl.
  assert (date_string_of l.1 ∈ (group_lines lines).*1) as Hk
    by (apply group_lines_keys; eauto).
  apply list_elem_of_fmap in Hk as ([d part] & Hd & Hin). simpl in Hd. subst d.
  by rewrite <- (group_lines_part _ _ _ Hin).
Qed.

End group_facts.

(** ** Paths *)

Section path_facts.

Context (self : crawler) (hotkey : string).

Lemma log_file_path_relative d :
  relative_date d →
  log_file_path self hotkey d = folder_prefix self hotkey +:+ d +:+ ".log".
Proof.
  unfold relative_date, log_file_path, folder_prefix. intros Hrel.
  set (folder := os_path_join (store_path self) hotkey).
  unfold os_path_join at 1. rewrite Hrel.
  destruct (Str.is_empty folder || Str.endswith_char "/" folder); [done|].
  by rewrite sapp_assoc.
Qed.

Lemma log_file_path_inj d1 d2 :
  relative_date d1 → relative_date d2 →
  log_file_path self hotkey d1 = log_file_path self hotkey d2 → d1 = d2.
Proof.
  intros H1 H2. rewrite !log_file_path_relative by done.
  intros H%(inj (String.app _)). by apply sapp_inv_tail in H.
Qed.

Lemma folder_prefix_length :
  String.length (os_path_join (store_path self) hotkey)
  ≤ String.length (folder_prefix self hotkey).
Proof.
  unfold folder_prefix.
  destruct (_ || _); [done|]. rewrite sapp_length. lia.
Qed.

Lemma log_file_path_ne_folder d :
  relative_date d →
  log_file_path self hotkey d ≠ os_path_join (store_path self) hotkey.
Proof.
  intros Hrel Heq. rewrite log_file_path_relative in Heq by done.
  apply (f_equal String.length) in Heq. rewrite !sapp_length in Heq.
  pose proof folder_prefix_length. simpl in Heq. lia.
Qed.

Lemma relative_date_digit d c t :
  d = String c t → Str.is_digit c = true → relative_date d.
Proof.
  intros -> Hc. unfold relative_date. rewrite sapp_cons. cbn [Str.startswith].
  destruct (Str.eqb_ascii "/" c) eqn:E; [|done].
  apply eqb_ascii_true in E as <-. vm_compute in Hc. discriminate.
Qed.

Lemma relative_date_valid ts d :
  strptime ts = Ok d → relative_date (date_string_of ts).
Proof.
  intros (c & t & Hd & Hc)%strptime_shape%date_string_first_digit.
  by eapply relative_date_digit.
Qed.

End path_facts.

(** ** One pass of the second loop *)

Section store_date_facts.

Context (self : crawler) (hotkey : string).

Local Abbreviation folder := (os_path_join (store_path self) hotkey).
Local Abbreviation path := (log_file_path self hotkey).

Lemma ensure_fs_lookup date f q :
  ensure_fs self hotkey date f !! q
  = match f !! q with
    | Some x => Some x
    | None =>
        if decide (q = folder) then Some Dir
        else if decide (q = path date) then Some (File EmptyString)
        else None
    end.
Proof.
  unfold ensure_fs.
  destruct (f !! folder) as [x|] eqn:Hfolder.
  - destruct (f !! path date) as [y|] eqn:Hp.
    + destruct (f !! q) eqn:Hq; [done|]. repeat case_decide; congruence.
    + rewrite lookup_insert. case_decide as Hqp.
      * subst q. rewrite Hp. rewrite decide_False by congruence.
        by rewrite decide_True.
      * destruct (f !! q) eqn:Hq; [done|].
        rewrite decide_False by congruence. by rewrite decide_False.
  - destruct (<[folder:=Dir]> f !! path date) as [y|] eqn:Hp.
    + rewrite lookup_insert. case_decide as Hqf.
      * subst q. rewrite Hfolder. by rewrite decide_True.
      * destruct (f !! q) eqn:Hq; [done|]. rewrite decide_False by done.
        case_decide as Hqp; [|done]. subst q.
        rewrite lookup_insert_ne in Hp by done. congruence.
    + rewrite lookup_insert in Hp. case_decide as Hfp; [done|].
      rewrite !lookup_insert. case_decide as Hqp.
      * subst q. rewrite Hp. rewrite decide_False by done. by rewrite decide_True.
      * case_decide as Hqf.
        -- subst q. rewrite Hfolder. by rewrite decide_True.
        -- destruct (f !! q); [done|]. by rewrite !decide_False.
Qed.

Lemma ensure_fs_text date f q :
  file_text (ensure_fs self hotkey date f) q = file_text f q.
Proof.
  unfold file_text. rewrite ensure_fs_lookup.
  destruct (f !! q); [done|]. by repeat case_decide.
Qed.

Lemma ensure_fs_idem date f :
  ensure_fs self hotkey date (ensure_fs self hotkey date f)
  = ensure_fs self hotkey date f.
Proof.
  apply map_eq. intros q. rewrite ensure_fs_lookup.
  destruct (ensure_fs self hotkey date f !! q) eqn:E; [done|].
  rewrite ensure_fs_lookup in E. destruct (f !! q); [done|].
  by repeat case_decide.
Qed.

Lemma store_date_fs_eq item f :
  (store_date_fs self hotkey item f).1
  = match ensure_fs self hotkey item.1 f !! path item.1 with
    | Some (File c) =>
        <[path item.1 := File (c +:+ lines_text (written self hotkey item f))]>
          (ensure_fs self hotkey item.1 f)
    | _ => ensure_fs self hotkey item.1 f
    end.
Proof.
  unfold store_date_fs, written.
  destruct (ensure_fs self hotkey item.1 f !! path item.1) as [[|c]|] eqn:Hp; try done.
  destruct (high_water_mark c); [done|]. simpl.
  by rewrite sapp_nil_r, insert_id.
Qed.

Lemma store_date_fs_lookup_ne item f q :
  q ≠ path item.1 →
  (store_date_fs self hotkey item f).1 !! q = ensure_fs self hotkey item.1 f !! q.
Proof.
  intros Hq. rewrite store_date_fs_eq.
  destruct (ensure_fs self hotkey item.1 f !! path item.1) as [[|c]|]; try done.
  by rewrite lookup_insert_ne.
Qed.

Lemma store_date_fs_lookup item f :
  (store_date_fs self hotkey item f).1 !! path item.1
  = match ensure_fs self hotkey item.1 f !! path item.1 with
    | Some (File c) => Some (File (c +:+ lines_text (written self hotkey item f)))
    | o => o
    end.
Proof.
  rewrite store_date_fs_eq.
  destruct (ensure_fs self hotkey item.1 f !! path item.1) as [[|c]|] eqn:E; try done.
  by rewrite lookup_insert_eq.
Qed.

(** The text of every file after the pass. *)
Lemma store_date_fs_text item f q :
  file_text (store_date_fs self hotkey item f).1 q
  = file_text f q +:+
    (if decide (q = path item.1) then lines_text (written self hotkey item f)
     else EmptyString).
Proof.
  case_decide as Hq.
  - subst q. unfold file_text at 1. rewrite store_date_fs_lookup.
    rewrite <- (ensure_fs_text item.1 f). unfold file_text.
    destruct (ensure_fs self hotkey item.1 f !! path item.1) as [[|c]|] eqn:E; try done.
    + unfold written. by rewrite E.
    + unfold written. by rewrite E.
  - unfold file_text at 1. rewrite store_date_fs_lookup_ne by done.
    fold (file_text (ensure_fs self hotkey item.1 f) q).
    by rewrite ensure_fs_text, sapp_nil_r.
Qed.

Lemma extends_refl f : extends f f.
Proof.
  intros q. destruct (f !! q) as [[|c]|]; [done| |done].
  exists EmptyString. by rewrite sapp_nil_r.
Qed.

Lemma extends_trans f1 f2 f3 : extends f1 f2 → extends f2 f3 → extends f1 f3.
Proof.
  intros H12 H23 q. specialize (H12 q). specialize (H23 q).
  destruct (f1 !! q) as [[|c]|]; [| |done].
  - by rewrite H12 in H23.
  - destruct H12 as [s1 H12]. rewrite H12 in H23. destruct H23 as [s2 H23].
    exists (s1 +:+ s2). by rewrite <- sapp_assoc.
Qed.

Lemma ensure_fs_extends date f : extends f (ensure_fs self hotkey date f).
Proof.
  intros q. rewrite ensure_fs_lookup. destruct (f !! q) as [[|c]|]; [done| |done].
  exists EmptyString. by rewrite sapp_nil_r.
Qed.

Lemma store_date_fs_extends item f :
  extends f (store_date_fs self hotkey item f).1.
Proof.
  eapply extends_trans; [apply (ensure_fs_extends item.1)|].
  intros q. destruct (decide (q = path item.1)) as [->|Hq].
  - rewrite store_date_fs_lookup.
    destruct (ensure_fs self hotkey item.1 f !! path item.1) as [[|c]|]; eauto.
  - rewrite store_date_fs_lookup_ne by done.
    destruct (ensure_fs self hotkey item.1 f !! q) as [[|c]|]; [done| |done].
    exists EmptyString. by rewrite sapp_nil_r.
Qed.

End store_date_facts.

(** ** The second loop *)

Section store_all_facts.

Context (self : crawler) (hotkey : string).

Local Abbreviation folder := (os_path_join (store_path self) hotkey).
Local Abbreviation path := (log_file_path self hotkey).

Lemma for_each_store_date items st :
  fs (for_each (store_date self hotkey) items st).1
    = (store_all_fs self hotkey items (fs st)).1 ∧
  (for_each (store_date self hotkey) items st).2
    = (store_all_fs self hotkey items (fs st)).2.
Proof.
  revert st. induction items as [|item rest IH]; intros st; [done|].
  cbn [for_each store_all_fs]. unfold bind. rewrite store_date_spec.
  destruct (store_date_fs self hotkey item (fs st)) as [f' [n|e]]; [|done].
  cbn [fst snd]. apply IH.
Qed.

Lemma store_lines_fs lines st :
  fs (store_lines self hotkey lines st).1
    = (store_all_fs self hotkey (group_lines lines) (fs st)).1 ∧
  (store_lines self hotkey lines st).2
    = (store_all_fs self hotkey (group_lines lines) (fs st)).2.
Proof. apply for_each_store_date. Qed.

Lemma store_date_fs_frame item f q :
  q ≠ path item.1 → q ≠ folder →
  (store_date_fs self hotkey item f).1 !! q = f !! q.
Proof.
  intros Hp Hf. rewrite store_date_fs_lookup_ne, ensure_fs_lookup by done.
  destruct (f !! q); [done|]. by rewrite !decide_False.
Qed.

Lemma store_all_fs_cons item rest f :
  store_all_fs self hotkey (item :: rest) f
  = match (store_date_fs self hotkey item f).2 with
    | Ok _ => store_all_fs self hotkey rest (store_date_fs self hotkey item f).1
    | Raise e => ((store_date_fs self hotkey item f).1, Raise e)
    end.
Proof. cbn [store_all_fs]. by destruct (store_date_fs _ _ _ _) as [f' [n|e]]. Qed.

Lemma store_all_fs_extends items f :
  extends f (store_all_fs self hotkey items f).1.
Proof.
  revert f. induction items as [|item rest IH]; intros f; [apply extends_refl|].
  rewrite store_all_fs_cons.
  destruct (store_date_fs self hotkey item f).2;
    eauto using extends_trans, store_date_fs_extends.
Qed.

Lemma store_all_fs_frame items f q :
  (∀ item, item ∈ items → q ≠ path item.1) → q ≠ folder →
  (store_all_fs self hotkey items f).1 !! q = f !! q.
Proof.
  revert f. induction items as [|item rest IH]; intros f Hq Hf; [done|].
  rewrite store_all_fs_cons.
  assert ((store_date_fs self hotkey item f).1 !! q = f !! q) as Hstep.
  { apply store_date_fs_frame; [|done]. apply Hq. by left. }
  destruct (store_date_fs self hotkey item f).2; [|done].
  rewrite IH; [done| |done]. intros item' Hin. apply Hq. by right.
Qed.

Lemma store_date_fs_ok item f n :
  (store_date_fs self hotkey item f).2 = Ok n →
  forallb valid_ts item.2 = true ∧
  ∃ last,
    ensure_fs self hotkey item.1 f !! path item.1
      = Some (File (file_text f (path item.1))) ∧
    high_water_mark (file_text f (path item.1)) = Ok last ∧
    written self hotkey item f = new_lines last item.2 ∧
    n = length (new_lines last item.2).
Proof.
  unfold store_date_fs, written.
  pose proof (ensure_fs_text self hotkey item.1 f (path item.1)) as Htext.
  unfold file_text at 1 in Htext.
  destruct (ensure_fs self hotkey item.1 f !! path item.1) as [[|c]|]; try done.
  subst c. destruct (high_water_mark _) as [last|]; [|done]. cbn [snd].
  destruct (forallb valid_ts item.2) eqn:Hv; [|done].
  assert (valid_prefix item.2 = item.2) as ->.
  { clear -Hv. induction item.2 as [|l ls IH]; [done|]. simpl in *.
    apply andb_true_iff in Hv as [-> Hv]. by rewrite IH. }
  intros [= <-]. split; [done|]. by exists last.
Qed.

Lemma store_all_fs_ok_valid items f f' :
  store_all_fs self hotkey items f = (f', Ok tt) →
  ∀ item, item ∈ items → forallb valid_ts item.2 = true.
Proof.
  revert f. induction items as [|item rest IH]; intros f Hrun item' Hin.
  { by apply elem_of_nil in Hin. }
  rewrite store_all_fs_cons in Hrun.
  destruct (store_date_fs self hotkey item f).2 as [n|e] eqn:Hstep; [|done].
  apply elem_of_cons in Hin as [->|Hin]; [|by eapply IH].
  by apply store_date_fs_ok in Hstep as [? _].
Qed.

(** When the loop completes, each file holds its old text followed by the
    lines of its partition that are later than its high-water mark. *)
Lemma store_all_fs_ok items f f' :
  NoDup items.*1 → (∀ item, item ∈ items → relative_date item.1) →
  store_all_fs self hotkey items f = (f', Ok tt) →
  ∀ item, item ∈ items →
    ∃ last,
      high_water_mark (file_text f (path item.1)) = Ok last ∧
      f' !! path item.1
        = Some (File (file_text f (path item.1) +:+ lines_text (new_lines last item.2))).
Proof.
  revert f. induction items as [|item rest IH]; intros f Hnd Hrel Hrun item' Hin.
  { by apply elem_of_nil in Hin. }
  rewrite fmap_cons in Hnd. apply NoDup_cons in Hnd as [Hnotin Hnd].
  rewrite store_all_fs_cons in Hrun.
  destruct (store_date_fs self hotkey item f).2 as [n|e] eqn:Hstep; [|done].
  assert (∀ it, it ∈ rest → path item.1 ≠ path it.1) as Hne.
  { intros it Hit Heq. apply log_file_path_inj in Heq.
    - apply Hnotin. rewrite Heq. apply list_elem_of_fmap. eauto.
    - apply Hrel. by left.
    - apply Hrel. by right. }
  apply elem_of_cons in Hin as [->|Hin].
  - apply store_date_fs_ok in Hstep as (_ & last & Hfile & Hhwm & Hw & _).
    exists last. split; [done|].
    apply (f_equal fst) in Hrun. cbn [fst] in Hrun. rewrite <- Hrun.
    rewrite store_all_fs_frame.
    + by rewrite store_date_fs_lookup, Hfile, Hw.
    + done.
    + apply log_file_path_ne_folder, Hrel. by left.
  - destruct (IH _ Hnd (λ it Hit, Hrel it (list_elem_of_further _ _ _ Hit)) Hrun _ Hin)
      as (last & Hhwm & Hfile).
    rewrite store_date_fs_text in Hhwm, Hfile.
    rewrite decide_False, sapp_nil_r in Hhwm, Hfile
      by (intros Heq; by apply (Hne _ Hin)).
    eauto.
Qed.

(** Whatever way the loop ends, a file that was there either has its text
    unchanged or is the file of a partition and was extended by the lines of
    that partition the inner loop reached and found later than its
    high-water mark. *)
Lemma store_all_fs_any items f q c :
  NoDup items.*1 → (∀ item, item ∈ items → relative_date item.1) →
  f !! q = Some (File c) →
  (store_all_fs self hotkey items f).1 !! q = Some (File c) ∨
  ∃ item last,
    item ∈ items ∧ q = path item.1 ∧ high_water_mark c = Ok last ∧
    (store_all_fs self hotkey items f).1 !! q
      = Some (File (c +:+ lines_text (new_lines last (valid_prefix item.2)))).
Proof.
  revert f. induction items as [|item rest IH]; intros f Hnd Hrel Hq; [by left|].
  rewrite fmap_cons in Hnd. apply NoDup_cons in Hnd as [Hnotin Hnd].
  assert (∀ it, it ∈ rest → path item.1 ≠ path it.1) as Hne.
  { intros it Hit Heq. apply log_file_path_inj in Heq.
    - apply Hnotin. rewrite Heq. apply list_elem_of_fmap. eauto.
    - apply Hrel. by left.
    - apply Hrel. by right. }
  assert (ensure_fs self hotkey item.1 f !! q = Some (File c)) as Hq2
    by (by rewrite ensure_fs_lookup, Hq).
  rewrite store_all_fs_cons.
  destruct (decide (q = path item.1)) as [->|Hqp].
  - assert ((store_date_fs self hotkey item f).1 !! path item.1
            = Some (File (c +:+ lines_text (written self hotkey item f)))) as Hstep
      by (by rewrite store_date_fs_lookup, Hq2).
    assert (written self hotkey item f = []
            ∨ ∃ last, high_water_mark c = Ok last
                ∧ written self hotkey item f = new_lines last (valid_prefix item.2))
      as [Hw|(last & Hhwm & Hw)].
    { unfold written. rewrite Hq2. destruct (high_water_mark c); eauto. }
    + rewrite Hw, sapp_nil_r in Hstep. left.
      destruct (store_date_fs self hotkey item f).2; [|done].
      rewrite store_all_fs_frame; [done|done|].
      apply log_file_path_ne_folder, Hrel. by left.
    + rewrite Hw in Hstep. right. exists item, last.
      split; [by left|]. split; [done|]. split; [done|].
      destruct (store_date_fs self hotkey item f).2; [|done].
      rewrite store_all_fs_frame; [done|done|].
      apply log_file_path_ne_folder, Hrel. by left.
  - assert ((store_date_fs self hotkey item f).1 !! q = Some (File c)) as Hstep
      by (by rewrite store_date_fs_lookup_ne).
    destruct (store_date_fs self hotkey item f).2; [|by left].
    destruct (IH _ Hnd (λ it Hit, Hrel it (list_elem_of_further _ _ _ Hit)) Hstep)
      as [?|(it & last & Hit & ? & ? & ?)]; [by left|].
    right. exists it, last. split; [by right|]. done.
Qed.

End store_all_facts.

(** ** [store_lines] *)

Section store_lines_facts.

Context (self : crawler) (hotkey : string).

Local Abbreviation folder := (os_path_join (store_path self) hotkey).
Local Abbreviation path := (log_file_path self hotkey).

Lemma store_lines_run lines st st' r :
  store_lines self hotkey lines st = (st', r) →
  store_all_fs self hotkey (group_lines lines) (fs st) = (fs st', r).
Proof.
  intros Hrun. destruct (store_lines_fs self hotkey lines st) as [H1 H2].
  rewrite Hrun in H1, H2. cbn [fst snd] in *. rewrite H1, H2.
  by destruct (store_all_fs _ _ _ _).
Qed.

Lemma valid_ts_stored_line l : valid_ts (stored_line l) = valid_ts l.
Proof. done. Qed.

Lemma elem_of_lines_of_date l lines :
  l ∈ lines → l ∈ lines_of_date (date_string_of l.1) lines.
Proof. intros Hl. by apply list_elem_of_filter. Qed.

(** A call that returns has parsed every timestamp of the batch. *)
Lemma store_lines_ok_valid lines st st' :
  store_lines self hotkey lines st = (st', Ok tt) →
  ∀ l, l ∈ lines → valid_ts l = true.
Proof.
  intros Hrun%store_lines_run l Hl.
  pose proof (store_all_fs_ok_valid _ _ _ _ _ Hrun _ (group_lines_lookup _ _ Hl)) as Hv.
  cbn [snd] in Hv. rewrite forallb_forall in Hv.
  rewrite <- valid_ts_stored_line. apply Hv, list_elem_of_In, list_elem_of_fmap.
  eauto using elem_of_lines_of_date.
Qed.

Lemma group_lines_relative lines :
  (∀ l, l ∈ lines → valid_ts l = true) →
  ∀ item, item ∈ group_lines lines → relative_date item.1.
Proof.
  intros Hv [d part] Hin.
  assert (d ∈ (group_lines lines).*1) as (l & Hl & <-)%group_lines_keys
    by (apply list_elem_of_fmap; by exists (d, part)).
  specialize (Hv _ Hl). unfold valid_ts in Hv.
  destruct (strptime l.1) eqn:E; [|done]. by eapply relative_date_valid.
Qed.

(** After a call that returns, the file of every date of the batch holds
    its old text followed by the lines of that date, rewritten, that are
    later than its high-water mark. *)
Lemma store_lines_ok lines st st' d :
  store_lines self hotkey lines st = (st', Ok tt) →
  (∃ l, l ∈ lines ∧ date_string_of l.1 = d) →
  ∃ last,
    high_water_mark (file_text (fs st) (path d)) = Ok last ∧
    fs st' !! path d
      = Some (File (file_text (fs st) (path d)
                    +:+ lines_text (new_lines last (stored_line <$> lines_of_date d lines)))).
Proof.
  intros Hrun (l & Hl & <-).
  pose proof (store_lines_ok_valid _ _ _ Hrun) as Hv.
  apply store_lines_run in Hrun.
  apply (store_all_fs_ok _ _ _ _ _ (group_lines_NoDup _)
           (group_lines_relative _ Hv) Hrun _ (group_lines_lookup _ _ Hl)).
Qed.

Lemma new_lines_later T part :
  new_lines (Some T) part = List.filter (later_than T) part.
Proof.
  unfold new_lines. apply filter_ext. intros l. unfold is_new, later_than.
  destruct (strptime l.1); [|done]. simpl. by rewrite datetime_lt_not_le.
Qed.

Lemma new_lines_none part :
  forallb valid_ts part = true → new_lines None part = part.
Proof.
  induction part as [|l ls IH]; [done|]. simpl.
  intros [Hl Hls]%andb_true_iff. unfold is_new, valid_ts in *.
  destruct (strptime l.1); [|done]. simpl. by rewrite IH.
Qed.

Lemma file_lines_nil c : file_lines c = [] → c = EmptyString.
Proof. by intros ?%split_lines_nil%universal_newlines_nil. Qed.

Lemma get_last_some date st T :
  get_last_store_line_datetime self date hotkey st = (st, Ok (Some T)) →
  ∃ c, fs st !! path date = Some (File c) ∧ high_water_mark c = Ok (Some T).
Proof.
  rewrite get_last_store_line_datetime_spec.
  destruct (fs st !! path date) as [[|c]|]; try done.
  intros [= H]. eauto.
Qed.

End store_lines_facts.

(** * The claims *)

(** C3, as stated.  Against [sample_state], whose file ends with a line of
    10:00:05, the batch of 10:00:09, a timestamp that is not accepted, and
    10:00:10: the call raises at the second line, and the line of 10:00:10,
    later than the mark, is not appended. *)
Lemma appends_after_mark_as_stated_counterexample :
  ¬ appends_after_mark_as_stated sample_crawler "hk" sample_batch_bad_timestamp
      sample_state.
Proof.
  intros H.
  specialize (H "2024-01-01" (mk_datetime 2024 1 1 10 0 5 0)).
  assert (∃ l, l ∈ sample_batch_bad_timestamp ∧ date_string_of l.1 = "2024-01-01")
    as Hd.
  { exists ("2024-01-01T10:00:09.000000", "b"). split; [|reflexivity].
    apply list_elem_of_In. simpl. auto. }
  specialize (H Hd eq_refl). vm_compute in H. discriminate H.
Qed.


(** C3, amended.  When [store_lines] returns, and the target file of a date
    of the batch existed with a last line of timestamp [T], the file holds
    its old text followed by exactly the lines of that date's partition whose
    timestamp is strictly later than [T], in the order received; no line
    whose timestamp is [T] or earlier is among them. *)
Theorem store_lines_appends_lines_after_high_water_mark
    (self : crawler) (hotkey : string) (lines : list (string * string))
    (st st' : state) (d : string) (T : datetime) :
  store_lines self hotkey lines st = (st', Ok tt) →
  (∃ l, l ∈ lines ∧ date_string_of l.1 = d) →
  get_last_store_line_datetime self d hotkey st = (st, Ok (Some T)) →
  let partition := stored_line <$> lines_of_date d lines in
  let appended := List.filter (later_than T) partition in
  fs st' !! log_file_path self hotkey d
    = Some (File (file_text (fs st) (log_file_path self hotkey d)
                  +:+ lines_text appended)) ∧
  (∀ l, l ∈ partition → at_or_before T l = true → l ∉ appended) ∧
  (∀ l, l ∈ partition → at_or_before T l = false → l ∈ appended).
Proof.
  intros Hrun Hd (c & Hfile & Hhwm)%get_last_some partition appended.
  destruct (store_lines_ok _ _ _ _ _ _ Hrun Hd) as (last & Hlast & Hnew).
  assert (file_text (fs st) (log_file_path self hotkey d) = c) as Htext
    by (unfold file_text; by rewrite Hfile).
  rewrite Htext in *. rewrite Hhwm in Hlast. injection Hlast as <-.
  rewrite new_lines_later in Hnew. split; [done|].
  pose proof (store_lines_ok_valid _ _ _ _ _ Hrun) as Hv.
  assert (∀ l, l ∈ partition → later_than T l = negb (at_or_before T l)) as Hlater.
  { intros l (l0 & -> & Hl0%list_elem_of_filter)%list_elem_of_fmap.
    destruct Hl0 as [_ Hl0]. specialize (Hv _ Hl0).
    unfold later_than, at_or_before, valid_ts in *. cbn [stored_line fst] in *.
    destruct (strptime l0.1); [|done]. apply datetime_lt_not_le. }
  split; intros l Hl Hb; subst appended;
    rewrite list_elem_of_In, filter_In, (Hlater _ Hl), Hb; simpl.
  - by intros [_ ?].
  - split; [by apply list_elem_of_In|done].
Qed.

(** [sample_batch] against [sample_state]: only the line of 10:00:09 is
    appended. *)
Lemma store_lines_appends_lines_after_high_water_mark_witness :
  fs (store_lines sample_crawler "hk" sample_batch sample_state).1
    !! "wandb_logs/hk/2024-01-01.log"
  = Some (File (format_line "2024-01-01T10:00:05.000000" "old"
                +:+ format_line "2024-01-01T10:00:09.000000" "b")).
Proof.
  destruct (store_lines_appends_lines_after_high_water_mark sample_crawler "hk"
    sample_batch sample_state
    (store_lines sample_crawler "hk" sample_batch sample_state).1 "2024-01-01"
    (mk_datetime 2024 1 1 10 0 5 0)) as (H & _ & _).
  - vm_compute. reflexivity.
  - exists ("2024-01-01T10:00:01.000000", "a"). split; [|reflexivity].
    apply list_elem_of_In. simpl. auto.
  - vm_compute. reflexivity.
  - etrans; [exact H|]. vm_compute. reflexivity.
Defined.

(** C7, as stated.  Against [sample_state_empty_file] the batch of a
    timestamp that is not accepted and 10:00:10: the call raises at the
    first line and appends nothing, not even the line of 10:00:10. *)
Lemma empty_file_appends_all_as_stated_counterexample :
  ¬ empty_file_appends_all_as_stated sample_crawler "hk"
      [("2024-01-01Tbad", "x"); ("2024-01-01T10:00:10.000000", "c")]
      sample_state_empty_file.
Proof.
  intros H.
  destruct (H "2024-01-01" EmptyString) as [_ Hfile].
  - reflexivity.
  - reflexivity.
  - exists ("2024-01-01Tbad", "x"). split; [|reflexivity].
    apply list_elem_of_In. simpl. auto.
  - vm_compute in Hfile. discriminate Hfile.
Qed.

(** C7, amended.  A target file that exists and contains no lines gives no
    high-water mark, and a call of [store_lines] that returns has then
    appended every line of that date's partition, whatever its timestamp. *)
Theorem store_lines_empty_file_appends_all
    (self : crawler) (hotkey : string) (st : state) (d : string) (c : string) :
  fs st !! log_file_path self hotkey d = Some (File c) →
  file_lines c = [] →
  get_last_store_line_datetime self d hotkey st = (st, Ok None) ∧
  ∀ lines st',
    store_lines self hotkey lines st = (st', Ok tt) →
    (∃ l, l ∈ lines ∧ date_string_of l.1 = d) →
    fs st' !! log_file_path self hotkey d
      = Some (File (lines_text (stored_line <$> lines_of_date d lines))).
Proof.
  intros Hfile ->%file_lines_nil. split.
  - by rewrite get_last_store_line_datetime_spec, Hfile.
  - intros lines st' Hrun Hd.
    destruct (store_lines_ok _ _ _ _ _ _ Hrun Hd) as (last & Hlast & Hnew).
    unfold file_text in Hlast, Hnew. rewrite Hfile in Hlast, Hnew.
    injection Hlast as <-. rewrite Hnew, sapp_nil_l, new_lines_none; [done|].
    pose proof (store_lines_ok_valid _ _ _ _ _ Hrun) as Hv.
    apply forallb_forall. intros l Hl%list_elem_of_In.
    apply list_elem_of_fmap in Hl as (l0 & -> & Hl0%list_elem_of_filter).
    rewrite valid_ts_stored_line. apply Hv, Hl0.
Qed.

(** [sample_batch] against a store whose file of the date is empty: the
    three lines are appended in the order received. *)
Lemma store_lines_empty_file_appends_all_witness :
  get_last_store_line_datetime sample_crawler "2024-01-01" "hk" sample_state_empty_file
    = (sample_state_empty_file, Ok None) ∧
  fs (store_lines sample_crawler "hk" sample_batch sample_state_empty_file).1
    !! "wandb_logs/hk/2024-01-01.log"
  = Some (File (format_line "2024-01-01T10:00:01.000000" "a"
                +:+ format_line "2024-01-01T10:00:09.000000" "b"
                +:+ format_line "2024-01-01T10:00:05.000000" "c")).
Proof.
  destruct (store_lines_empty_file_appends_all sample_crawler "hk"
    sample_state_empty_file "2024-01-01" EmptyString) as [H1 H2].
  - vm_compute. reflexivity.
  - reflexivity.
  - split; [exact H1|].
    etrans; [apply (H2 sample_batch
      (store_lines sample_crawler "hk" sample_batch sample_state_empty_file).1)|].
    + vm_compute. reflexivity.
    + exists ("2024-01-01T10:00:01.000000", "a"). split; [|reflexivity].
      apply list_elem_of_In. simpl. auto.
    + vm_compute. reflexivity.
Defined.

(** C8. Neither [ensure_file_exist] nor [store_lines] changes or removes what
    a store file holds: [ensure_file_exist] leaves every entry of the disk as
    it is, adds nothing but the owner's directory and the empty target file,
    each only where there was no entry, and does nothing when called again;
    [store_lines], however it ends, leaves in every file its old text
    followed by what it appended. *)
Theorem store_is_append_only
    (self : crawler) (hotkey : string) (st : state) (q : string) (c : string) :
  fs st !! q = Some (File c) →
  (∀ date,
     let st1 := (ensure_file_exist self hotkey date st).1 in
     fs st1 !! q = Some (File c) ∧
     (∀ p x, fs st !! p = Some x → fs st1 !! p = Some x) ∧
     (∀ p, fs st !! p = None →
        fs st1 !! p = None
        ∨ p = os_path_join (store_path self) hotkey ∧ fs st1 !! p = Some Dir
        ∨ p = log_file_path self hotkey date ∧ fs st1 !! p = Some (File EmptyString)) ∧
     ensure_file_exist self hotkey date st1 = (st1, Ok tt)) ∧
  (∀ lines,
     ∃ suffix,
       fs (store_lines self hotkey lines st).1 !! q = Some (File (c +:+ suffix))).
Proof.
  intros Hq. split.
  - intros date st1. subst st1. rewrite ensure_file_exist_spec. cbn [fst fs].
    split; [by rewrite ensure_fs_lookup, Hq|].
    split; [intros p x Hp; by rewrite ensure_fs_lookup, Hp|].
    split.
    + intros p Hp. rewrite ensure_fs_lookup, Hp.
      repeat case_decide; auto.
    + rewrite ensure_file_exist_spec. cbn [fs log]. by rewrite ensure_fs_idem.
  - intros lines. destruct (store_lines_fs self hotkey lines st) as [-> _].
    pose proof (store_all_fs_extends self hotkey (group_lines lines) (fs st) q) as H.
    by rewrite Hq in H.
Qed.

(** [sample_batch] against [sample_state]: the old line is still the head
    of the file. *)
Lemma store_is_append_only_witness :
  ∃ suffix,
    fs (store_lines sample_crawler "hk" sample_batch sample_state).1
      !! "wandb_logs/hk/2024-01-01.log"
    = Some (File (format_line "2024-01-01T10:00:05.000000" "old" +:+ suffix)).
Proof.
  destruct (store_is_append_only sample_crawler "hk" sample_state
    "wandb_logs/hk/2024-01-01.log"
    (format_line "2024-01-01T10:00:05.000000" "old")) as [_ H].
  - vm_compute. reflexivity.
  - exact (H sample_batch).
Defined.

(** ** The rewriting of a line's content *)

Section strip_level_facts.

Implicit Types (s t a b : string) (c : ascii).

Lemma startswith_spec t s : Str.startswith t s = true ↔ ∃ b, s = t +:+ b.
Proof.
  revert s. induction t as [|x t IH]; intros s.
  - split; [by exists s|done].
  - destruct s as [|y s]; simpl.
    + split; [done|]. by intros [b ?].
    + rewrite andb_true_iff, eqb_ascii_true, IH. split.
      * intros [-> [b ->]]. by exists b.
      * intros [b Hb]. rewrite sapp_cons in Hb. injection Hb as -> ->. eauto.
Qed.

Lemma contains_spec t s : Str.contains t s = true ↔ ∃ a b, s = a +:+ t +:+ b.
Proof.
  induction s as [|y s IH].
  - simpl. rewrite orb_false_r, startswith_spec. split.
    + intros [b Hb]. by exists EmptyString, b.
    + intros (a & b & H). symmetry in H.
      apply sapp_eq_nil in H as [-> [-> ->]%sapp_eq_nil]. by exists EmptyString.
  - cbn [Str.contains]. rewrite orb_true_iff, startswith_spec, IH. split.
    + intros [[b Hb]|(a & b & ->)].
      * by exists EmptyString, b.
      * by exists (String y a), b.
    + intros ([|x a] & b & H).
      * left. by exists b.
      * right. rewrite sapp_cons in H. injection H as -> ->. eauto.
Qed.

Lemma has_level_spec content :
  existsb (λ level, Str.contains level content) levels = true ↔ has_level content.
Proof.
  rewrite existsb_exists. unfold has_level. split.
  - intros (level & Hin%list_elem_of_In & (a & b & ->)%contains_spec). eauto 6.
  - intros (level & a & b & Hin%list_elem_of_In & ->).
    exists level. split; [done|]. apply contains_spec. eauto.
Qed.

Lemma join_split sep s : Str.join_empty (Str.split sep s) = drop_char sep s.
Proof.
  induction s as [|c s IH]; [done|]. simpl.
  destruct (Str.eqb_ascii c sep); [done|].
  pose proof (split_not_nil sep s).
  destruct (Str.split sep s) as [|h l]; [done|]. simpl in *.
  by rewrite sapp_cons, IH.
Qed.

Lemma join_tail_split sep s :
  Str.join_empty (tail (Str.split sep s)) = drop_char sep (after_first sep s).
Proof.
  induction s as [|c s IH]; [done|]. simpl.
  destruct (Str.eqb_ascii c sep); [apply join_split|].
  pose proof (split_not_nil sep s).
  by destruct (Str.split sep s) as [|h l].
Qed.

Lemma after_first_none sep s : Str.mem sep s = false → after_first sep s = EmptyString.
Proof.
  induction s as [|c s IH]; [done|]. simpl.
  intros [-> Hs]%orb_false_iff. auto.
Qed.

Lemma after_first_app sep a b :
  Str.mem sep a = false → after_first sep (a +:+ String sep b) = b.
Proof.
  induction a as [|c a IH]; simpl.
  - by rewrite eqb_ascii_refl.
  - intros [-> Ha]%orb_false_iff. auto.
Qed.

Lemma drop_char_none sep s : Str.mem sep s = false → drop_char sep s = s.
Proof.
  induction s as [|c s IH]; [done|]. simpl.
  intros [-> Hs]%orb_false_iff. by rewrite IH.
Qed.

Lemma strip_level_has content :
  has_level content →
  strip_level content = drop_char "|" (after_first "|" content).
Proof.
  intros H%has_level_spec. unfold strip_level. rewrite H. apply join_tail_split.
Qed.

Lemma strip_level_hasnt content : ¬ has_level content → strip_level content = content.
Proof.
  intros H. unfold strip_level.
  destruct (existsb _ levels) eqn:E; [|done]. by apply has_level_spec in E.
Qed.

Lemma lstrip_suffix s : ∃ a, s = a +:+ Str.lstrip s.
Proof.
  induction s as [|c s [a IH]]; [by exists EmptyString|]. simpl.
  destruct (Str.is_space c).
  - exists (String c a). by rewrite sapp_cons, <- IH.
  - by exists EmptyString.
Qed.

Lemma rstrip_prefix s : ∃ b, s = Str.rstrip s +:+ b.
Proof.
  induction s as [|c s [b IH]]; [by exists EmptyString|]. simpl.
  destruct (Str.is_space c && Str.is_empty (Str.rstrip s)).
  - by exists (String c s).
  - exists b. by rewrite sapp_cons, <- IH.
Qed.

Lemma strip_infix s : ∃ a b, s = a +:+ Str.strip s +:+ b.
Proof.
  unfold Str.strip. destruct (lstrip_suffix s) as [a Ha].
  destruct (rstrip_prefix (Str.lstrip s)) as [b Hb].
  exists a, b. by rewrite <- Hb.
Qed.

Lemma marker_prefix_has_level content rest :
  marker_prefix content rest → has_level content.
Proof.
  intros (marker & level & -> & _ & Hlevel & Hstrip).
  destruct (strip_infix marker) as (a & b & Hm). rewrite Hstrip in Hm.
  exists level, a, (b +:+ String "|" rest). split; [done|].
  rewrite Hm at 1. by rewrite !sapp_assoc.
Qed.

Lemma strip_level_marker_prefix content rest :
  marker_prefix content rest → Str.mem "|" rest = false →
  strip_level content = rest.
Proof.
  intros Hm Hrest. rewrite strip_level_has by by eapply marker_prefix_has_level.
  destruct Hm as (marker & level & -> & Hmarker & _).
  by rewrite after_first_app, drop_char_none.
Qed.

Lemma mem_drop_char x sep s : Str.mem x (drop_char sep s) = true → Str.mem x s = true.
Proof.
  induction s as [|c s IH]; [done|]. simpl.
  destruct (Str.eqb_ascii c sep); simpl.
  - intros H. rewrite (IH H). apply orb_true_r.
  - intros [->|H]%orb_true_iff; [done|]. rewrite (IH H). apply orb_true_r.
Qed.

Lemma mem_after_first x sep s : Str.mem x (after_first sep s) = true → Str.mem x s = true.
Proof.
  induction s as [|c s IH]; [done|]. simpl.
  destruct (Str.eqb_ascii c sep); intros H; [by rewrite H, orb_true_r|].
  rewrite (IH H). apply orb_true_r.
Qed.

(** The rewriting only removes characters. *)
Lemma mem_strip_level x content :
  Str.mem x (strip_level content) = true → Str.mem x content = true.
Proof.
  unfold strip_level. destruct (existsb _ levels); [|done].
  rewrite join_tail_split. by intros ?%mem_drop_char%mem_after_first.
Qed.

End strip_level_facts.

(** A line of the batch that passes the test of line 136 is in its date's
    file, with its content rewritten, after a call that returns. *)
Lemma store_lines_persists (self : crawler) (hotkey : string)
    (lines : list (string * string)) (st st' : state)
    (l : string * string) (last : option datetime) :
  store_lines self hotkey lines st = (st', Ok tt) →
  l ∈ lines →
  high_water_mark (file_text (fs st) (log_file_path self hotkey (date_string_of l.1)))
    = Ok last →
  is_new last l = true →
  ∃ before after,
    fs st' !! log_file_path self hotkey (date_string_of l.1)
      = Some (File (before +:+ format_line l.1 (strip_level l.2) +:+ after)).
Proof.
  intros Hrun Hl Hlast Hnew.
  destruct (store_lines_ok _ _ _ _ _ (date_string_of l.1) Hrun) as (last' & Hlast' & Hfile);
    [eauto|].
  rewrite Hlast in Hlast'. injection Hlast' as <-.
  assert (stored_line l ∈ new_lines last
            (stored_line <$> lines_of_date (date_string_of l.1) lines)) as Hin.
  { apply list_elem_of_In, filter_In. split; [|done].
    apply list_elem_of_In, list_elem_of_fmap. eauto using elem_of_lines_of_date. }
  apply list_elem_of_split in Hin as (A & B & HAB).
  rewrite HAB, lines_text_app, lines_text_cons in Hfile. cbn [stored_line fst snd] in Hfile.
  eexists _, _. by rewrite Hfile, <- sapp_assoc.
Qed.

(** C5. When the content of an incoming line contains one of the level
    names anywhere, the content stored for it is the text after its first
    ['|'] with every further ['|'] removed, which is the concatenation of the
    segments after the first; without any ['|'] in the content that is the
    empty string.  The line appended to the file carries that content. *)
Theorem store_lines_level_content_replaced
    (self : crawler) (hotkey : string) (lines : list (string * string))
    (st st' : state) (ts content : string) (last : option datetime) :
  store_lines self hotkey lines st = (st', Ok tt) →
  (ts, content) ∈ lines →
  has_level content →
  high_water_mark (file_text (fs st) (log_file_path self hotkey (date_string_of ts)))
    = Ok last →
  is_new last (ts, content) = true →
  let new_content := drop_char "|" (after_first "|" content) in
  strip_level content = new_content ∧
  new_content = Str.join_empty (tail (Str.split "|" content)) ∧
  (Str.mem "|" content = false → new_content = EmptyString) ∧
  ∃ before after,
    fs st' !! log_file_path self hotkey (date_string_of ts)
      = Some (File (before +:+ format_line ts new_content +:+ after)).
Proof.
  intros Hrun Hl Hlevel Hlast Hnew new_content.
  split; [by apply strip_level_has|].
  split; [by rewrite join_tail_split|].
  split.
  - intros Hpipe. subst new_content. by rewrite after_first_none.
  - destruct (store_lines_persists _ _ _ _ _ _ _ Hrun Hl Hlast Hnew) as (b & a & H).
    cbn [fst snd] in H. rewrite strip_level_has in H by done. eauto.
Qed.

(** A line whose content contains [INFO] but no ['|'], against the empty
    store: the content stored is empty. *)
Lemma store_lines_level_content_replaced_witness :
  fs (store_lines sample_crawler "hk"
        [("2024-01-01T10:00:00.000000", "an INFORMATION")] empty_state).1
    !! "wandb_logs/hk/2024-01-01.log"
  = Some (File (format_line "2024-01-01T10:00:00.000000" EmptyString)).
Proof.
  destruct (store_lines_level_content_replaced sample_crawler "hk"
    [("2024-01-01T10:00:00.000000", "an INFORMATION")] empty_state
    (store_lines sample_crawler "hk"
       [("2024-01-01T10:00:00.000000", "an INFORMATION")] empty_state).1
    "2024-01-01T10:00:00.000000" "an INFORMATION" None)
    as (_ & _ & _ & before & after & H).
  - vm_compute. reflexivity.
  - apply list_elem_of_In. simpl. auto.
  - exists "INFO", "an ", "RMATION". split; [|reflexivity].
    apply list_elem_of_In. simpl. auto 10.
  - vm_compute. reflexivity.
  - vm_compute. reflexivity.
  - vm_compute. reflexivity.
Defined.

(** C4, as stated, fails: for the content [INFO | a | b] the specification
    has [ a | b] stored, the code stores [ a  b]. *)
Lemma marker_prefix_stored_as_stated_counterexample :
  ¬ marker_prefix_stored_as_stated sample_crawler "hk"
      "2024-01-01T10:00:00.000000" "INFO | a | b" empty_state.
Proof.
  intros H.
  specialize (H " a | b"
    (store_lines sample_crawler "hk"
       [("2024-01-01T10:00:00.000000", "INFO | a | b")] empty_state).1).
  assert (marker_prefix "INFO | a | b" " a | b") as Hm.
  { exists "INFO ", "INFO". repeat split; try reflexivity.
    apply list_elem_of_In. simpl. auto 10. }
  specialize (H Hm eq_refl). vm_compute in H. discriminate H.
Qed.

(** C4, amended.  When the content of an incoming line is a level name,
    then ['|'], then a rest without any further ['|'], the content stored
    is that rest; when the content contains none of the level names, it is
    stored unchanged.  The line appended to the file carries the stored
    content. *)
Theorem store_lines_marker_prefix_stripped
    (self : crawler) (hotkey : string) (lines : list (string * string))
    (st st' : state) (ts content : string) (last : option datetime) :
  store_lines self hotkey lines st = (st', Ok tt) →
  (ts, content) ∈ lines →
  high_water_mark (file_text (fs st) (log_file_path self hotkey (date_string_of ts)))
    = Ok last →
  is_new last (ts, content) = true →
  (∀ rest,
     marker_prefix content rest → Str.mem "|" rest = false →
     strip_level content = rest ∧
     ∃ before after,
       fs st' !! log_file_path self hotkey (date_string_of ts)
         = Some (File (before +:+ format_line ts rest +:+ after))) ∧
  (¬ has_level content →
     strip_level content = content ∧
     ∃ before after,
       fs st' !! log_file_path self hotkey (date_string_of ts)
         = Some (File (before +:+ format_line ts content +:+ after))).
Proof.
  intros Hrun Hl Hlast Hnew.
  destruct (store_lines_persists _ _ _ _ _ _ _ Hrun Hl Hlast Hnew) as (b & a & H).
  cbn [fst snd] in H. split.
  - intros rest Hm Hrest.
    rewrite (strip_level_marker_prefix _ _ Hm Hrest) in *. eauto.
  - intros Hno. rewrite (strip_level_hasnt _ Hno) in *. eauto.
Qed.

(** The example of the specification: [INFO | hello] is stored as
    [ hello]. *)
Lemma store_lines_marker_prefix_stripped_witness :
  fs (store_lines sample_crawler "hk"
        [("2024-01-01T10:00:00.000000", "INFO | hello");
         ("2024-01-01T10:00:01.000000", "world")] empty_state).1
    !! "wandb_logs/hk/2024-01-01.log"
  = Some (File (format_line "2024-01-01T10:00:00.000000" " hello"
                +:+ format_line "2024-01-01T10:00:01.000000" "world")).
Proof.
  destruct (store_lines_marker_prefix_stripped sample_crawler "hk"
    [("2024-01-01T10:00:00.000000", "INFO | hello");
     ("2024-01-01T10:00:01.000000", "world")] empty_state
    (store_lines sample_crawler "hk"
       [("2024-01-01T10:00:00.000000", "INFO | hello");
        ("2024-01-01T10:00:01.000000", "world")] empty_state).1
    "2024-01-01T10:00:00.000000" "INFO | hello" None) as [H _].
  - vm_compute. reflexivity.
  - apply list_elem_of_In. simpl. auto.
  - vm_compute. reflexivity.
  - vm_compute. reflexivity.
  - destruct (H " hello") as (_ & before & after & _).
    + exists "INFO ", "INFO". repeat split; try reflexivity.
      apply list_elem_of_In. simpl. auto 10.
    + reflexivity.
    + vm_compute. reflexivity.
Defined.

(** ** Where the lines go *)

Section placement_facts.

Context (self : crawler) (hotkey : string).

Local Abbreviation folder := (os_path_join (store_path self) hotkey).
Local Abbreviation path := (log_file_path self hotkey).

Lemma elem_of_valid_prefix l part : l ∈ valid_prefix part → l ∈ part ∧ valid_ts l = true.
Proof.
  induction part as [|x part IH]; simpl; [by intros ?%elem_of_nil|].
  destruct (valid_ts x) eqn:Hx; [|by intros ?%elem_of_nil].
  intros [->|Hl]%elem_of_cons; [split; [by left|done]|].
  destruct (IH Hl). split; [by right|done].
Qed.

Lemma elem_of_written item f l :
  l ∈ written self hotkey item f → l ∈ item.2 ∧ valid_ts l = true.
Proof.
  unfold written.
  destruct (ensure_fs self hotkey item.1 f !! path item.1) as [[|c]|];
    try by intros ?%elem_of_nil.
  destruct (high_water_mark c); [|by intros ?%elem_of_nil].
  intros [Hl%list_elem_of_In _]%list_elem_of_In%filter_In.
  by apply elem_of_valid_prefix.
Qed.

(** However the loop ends, what it added to the text of a file are lines of
    the partition whose file it is. *)
Lemma store_all_fs_text items f q :
  ∃ W,
    file_text (store_all_fs self hotkey items f).1 q = file_text f q +:+ lines_text W ∧
    ∀ l, l ∈ W →
      ∃ item, item ∈ items ∧ q = path item.1 ∧ l ∈ item.2 ∧ valid_ts l = true.
Proof.
  revert f. induction items as [|item rest IH]; intros f.
  { exists []. split; [by rewrite sapp_nil_r|]. by intros l ?%elem_of_nil. }
  rewrite store_all_fs_cons.
  pose proof (store_date_fs_text self hotkey item f q) as Hstep.
  assert (∃ W1, file_text (store_date_fs self hotkey item f).1 q
                  = file_text f q +:+ lines_text W1 ∧
                ∀ l, l ∈ W1 → q = path item.1 ∧ l ∈ item.2 ∧ valid_ts l = true)
    as (W1 & HW1 & Hin1).
  { case_decide as Hq.
    - exists (written self hotkey item f). split; [done|].
      intros l Hl. split; [done|]. by apply elem_of_written in Hl.
    - exists []. split; [done|]. by intros l ?%elem_of_nil. }
  destruct (store_date_fs self hotkey item f).2.
  - destruct (IH (store_date_fs self hotkey item f).1) as (W2 & HW2 & Hin2).
    exists (W1 ++ W2). split.
    + by rewrite HW2, HW1, lines_text_app, sapp_assoc.
    + intros l [Hl|Hl]%elem_of_app.
      * exists item. split; [by left|]. by apply Hin1.
      * destruct (Hin2 _ Hl) as (it & Hit & ?). exists it. split; [by right|done].
  - exists W1. split; [done|]. intros l Hl.
    exists item. split; [by left|]. by apply Hin1.
Qed.

Lemma os_path_join_plain a b :
  a ≠ EmptyString → Str.endswith_char "/" a = false →
  Str.startswith (String "/" EmptyString) b = false →
  os_path_join a b = a +:+ "/" +:+ b.
Proof.
  intros Ha Hend Hb. unfold os_path_join. rewrite Hb, Hend.
  by destruct a.
Qed.

Lemma log_file_path_layout d :
  store_path self ≠ EmptyString → Str.endswith_char "/" (store_path self) = false →
  hotkey ≠ EmptyString → Str.startswith (String "/" EmptyString) hotkey = false →
  Str.endswith_char "/" hotkey = false →
  relative_date d →
  path d = store_path self +:+ "/" +:+ hotkey +:+ "/" +:+ d +:+ ".log".
Proof.
  intros Hs1 Hs2 Hh1 Hh2 Hh3 Hd. unfold log_file_path.
  rewrite (os_path_join_plain (store_path self) hotkey) by done.
  rewrite os_path_join_plain; [by rewrite !sapp_assoc| | |done].
  - by destruct (store_path self).
  - by rewrite !endswith_char_app.
Qed.

End placement_facts.

(** C9, as stated, fails: an owner key that begins with ['/'] is taken as
    an absolute path, and the lines go to a file outside the store root. *)
Lemma persisted_at_layout_as_stated_counterexample :
  ¬ persisted_at_layout_as_stated sample_crawler "/abs"
      [("2024-01-01T10:00:00.000000", "a")] empty_state.
Proof.
  intros H. destruct (H "/abs/2024-01-01.log") as (W & Htext & Hq).
  destruct W as [|l W].
  - vm_compute in Htext. discriminate Htext.
  - specialize (Hq l (list_elem_of_here _ _)). discriminate Hq.
Qed.

(** C9, amended.  However [store_lines] ends, what it added to a file is a
    sequence of lines, each the timestamp, [" | "], the stored content and a
    line terminator, for lines of the batch with the content rewritten by
    lines 116-117; and the file is the one at
    [os.path.join(store_root, owner_key, date + ".log")], the date being the
    timestamp up to its first ['T'].  That path is
    [<store_root>/<owner_key>/<date>.log] when the store root is not empty
    and does not end with ['/'] and the owner key is not empty and neither
    begins nor ends with ['/']. *)
Theorem store_lines_line_format_and_path
    (self : crawler) (hotkey : string) (lines : list (string * string))
    (st : state) (q : string) :
  ∃ W,
    file_text (fs (store_lines self hotkey lines st).1) q
      = file_text (fs st) q
        +:+ Str.join_empty (map (λ l, l.1 +:+ " | " +:+ l.2 +:+ nl) W) ∧
    ∀ ts content, (ts, content) ∈ W →
      (∃ content0, (ts, content0) ∈ lines ∧ content = strip_level content0) ∧
      q = os_path_join (os_path_join (store_path self) hotkey)
            (date_string_of ts +:+ ".log") ∧
      (store_path self ≠ EmptyString →
       Str.endswith_char "/" (store_path self) = false →
       hotkey ≠ EmptyString →
       Str.startswith (String "/" EmptyString) hotkey = false →
       Str.endswith_char "/" hotkey = false →
       q = store_path self +:+ "/" +:+ hotkey +:+ "/" +:+ date_string_of ts +:+ ".log").
Proof.
  destruct (store_lines_fs self hotkey lines st) as [-> _].
  destruct (store_all_fs_text self hotkey (group_lines lines) (fs st) q)
    as (W & Htext & HW).
  exists W. split; [done|]. intros ts content Hl.
  destruct (HW _ Hl) as ([d part] & Hitem & -> & Hpart & Hv). cbn [fst snd] in *.
  rewrite (group_lines_part _ _ _ Hitem) in Hpart.
  apply list_elem_of_fmap in Hpart as ([ts0 content0] & [= -> ->] & [Hd Hl0]%list_elem_of_filter).
  cbn [fst] in Hd. subst d. split; [eauto|]. split; [done|].
  intros. apply log_file_path_layout; try done.
  unfold valid_ts in Hv. cbn [fst] in Hv.
  destruct (strptime ts0) eqn:E; [|done]. by eapply relative_date_valid.
Qed.

(** [sample_batch] against [sample_state]: the text added to the file of
    2024-01-01 under [wandb_logs/hk]. *)
Lemma store_lines_line_format_and_path_witness :
  ∃ W,
    file_text (fs (store_lines sample_crawler "hk" sample_batch sample_state).1)
      "wandb_logs/hk/2024-01-01.log"
    = file_text (fs sample_state) "wandb_logs/hk/2024-01-01.log"
      +:+ Str.join_empty (map (λ l, l.1 +:+ " | " +:+ l.2 +:+ nl) W) ∧
    ∀ ts content, (ts, content) ∈ W →
      "wandb_logs/hk/2024-01-01.log"
      = "wandb_logs" +:+ "/" +:+ "hk" +:+ "/" +:+ date_string_of ts +:+ ".log".
Proof.
  destruct (store_lines_line_format_and_path sample_crawler "hk" sample_batch
    sample_state "wandb_logs/hk/2024-01-01.log") as (W & Htext & HW).
  exists W. split; [exact Htext|]. intros ts content Hl.
  destruct (HW ts content Hl) as (_ & _ & Hlayout).
  apply Hlayout; [discriminate|reflexivity|discriminate|reflexivity|reflexivity].
Defined.




(** ** One cycle *)

Section execute_facts.

Context (self : crawler) (w : remote).

Lemma process_run_unfold r :
  process_run self w r
  = (logging (InfoProcessing (run_id r)) ;;
     try_except (try_body self w r) (λ e, logging (ErrorProcess (run_id r) e))).
Proof. done. Qed.


(** The loop body never raises. *)
Lemma process_run_returns r s : (process_run self w r s).2 = Ok tt.
Proof.
  unfold process_run, bind, logging, try_except.
  match goal with |- context [match ?m with _ => _ end] => destruct m as [s' [[]|e]] end; done.
Qed.

Lemma for_each_process_run_returns runs s :
  (for_each (process_run self w) runs s).2 = Ok tt.
Proof.
  revert s. induction runs as [|r runs IH]; intros s; [done|].
  cbn [for_each]. unfold bind.
  pose proof (process_run_returns r s) as Hr.
  destruct (process_run self w r s) as [s' [[]|e]]; [apply IH|done].
Qed.


(** *** The log *)














(** *** Independence of the log *)








Lemma disk_only_store_lines hotkey lines : disk_only (store_lines self hotkey lines).
Proof.
  intros s1 s2 Hfs.
  destruct (store_lines_fs self hotkey lines s1) as [-> ->].
  destruct (store_lines_fs self hotkey lines s2) as [-> ->].
  by rewrite Hfs.
Qed.






Lemma execute_unfold st runs :
  api_runs w = Ok runs →
  execute self w st
  = (for_each (process_run self w) runs ;; logging InfoFinished)
      (mk_state (fs st) (log st ++ [InfoRunIds (run_id <$> runs)])).
Proof. intros Hruns. unfold execute, get_runs, bind, lift. by rewrite Hruns. Qed.

Lemma execute_fs st runs :
  api_runs w = Ok runs →
  fs (execute self w st).1
  = fs (for_each (process_run self w) runs
          (mk_state (fs st) (log st ++ [InfoRunIds (run_id <$> runs)]))).1.
Proof.
  intros Hruns. rewrite (execute_unfold _ _ Hruns). unfold bind.
  pose proof (for_each_process_run_returns runs
    (mk_state (fs st) (log st ++ [InfoRunIds (run_id <$> runs)]))) as Hr.
  by destruct (for_each (process_run self w) runs _) as [s' [[]|e']].
Qed.

End execute_facts.



(** ** Order *)

Section order_facts.

Lemma sorted_by_Sorted {A} (leb : A → A → bool) l :
  sorted_by leb l = true ↔ Sorted (λ a b, leb a b = true) l.
Proof.
  induction l as [|a l IH]; [by split; [constructor|]|].
  destruct l as [|b l].
  - split; [repeat constructor|done].
  - cbn [sorted_by]. rewrite andb_true_iff, IH. split.
    + intros [Hab Hs]. constructor; [done|]. by constructor.
    + intros Hs. inv Hs. split; [|done].
      match goal with H : HdRel _ _ _ |- _ => by inv H end.
Qed.

Global Instance line_le_trans : Transitive line_le.
Proof.
  intros a b c. unfold line_le, line_leb.
  destruct (strptime a.1) as [x|]; [|done].
  destruct (strptime b.1) as [y|]; [|done].
  destruct (strptime c.1) as [z|]; [|done].
  apply (dt_le_trans x y z).
Qed.

Global Instance text_le_trans : Transitive text_le.
Proof.
  intros a b c. unfold text_le, text_leb.
  destruct (DatatimeHandler.get_datetime_from_log a) as [x|]; [|done].
  destruct (DatatimeHandler.get_datetime_from_log b) as [y|]; [|done].
  destruct (DatatimeHandler.get_datetime_from_log c) as [z|]; [|done].
  apply (dt_le_trans x y z).
Qed.

Lemma time_ordered_spec part :
  time_ordered part = true ↔
  forallb valid_ts part = true ∧ StronglySorted line_le part.
Proof.
  unfold time_ordered. rewrite andb_true_iff, sorted_by_Sorted. split.
  - intros [Hv Hs]. split; [done|]. by apply (Sorted_StronglySorted line_le).
  - intros [Hv Hs]. split; [done|]. by apply (StronglySorted_Sorted (R:=line_le)).
Qed.

Lemma file_sorted_spec c :
  file_sorted c = true ↔
  forallb (λ l, is_ok (DatatimeHandler.get_datetime_from_log l)) (file_lines c) = true ∧
  StronglySorted text_le (file_lines c).
Proof.
  unfold file_sorted. rewrite andb_true_iff, sorted_by_Sorted. split.
  - intros [Hv Hs]. split; [done|]. by apply (Sorted_StronglySorted text_le).
  - intros [Hv Hs]. split; [done|]. by apply (StronglySorted_Sorted (R:=text_le)).
Qed.

Lemma StronglySorted_list_filter {A} (R : relation A) (P : A → bool) l :
  StronglySorted R l → StronglySorted R (List.filter P l).
Proof.
  induction 1 as [|a l Hl IH Ha]; [constructor|]. simpl.
  destruct (P a); [|done]. constructor; [done|].
  apply Forall_forall. intros x [Hx _]%list_elem_of_In%filter_In.
  rewrite Forall_forall in Ha. by apply Ha, list_elem_of_In.
Qed.

Lemma list_filter_snoc_split {A} (P : A → bool) l W x :
  List.filter P l = W ++ [x] →
  ∃ l1 l2, l = l1 ++ x :: l2 ∧ List.filter P l2 = [] ∧ P x = true.
Proof.
  revert W. induction l as [|a l IH] using rev_ind; intros W.
  { simpl. by destruct W. }
  rewrite List.filter_app. simpl. destruct (P a) eqn:Ha.
  - intros [_ [= ->]]%app_inj_tail. exists l, []. by rewrite Ha.
  - rewrite app_nil_r. intros (l1 & l2 & -> & Hl2 & Hx)%IH.
    exists l1, (l2 ++ [a]). rewrite <- app_assoc. split; [done|].
    rewrite List.filter_app, Hl2. simpl. by rewrite Ha.
Qed.

Lemma list_filter_nil {A} (P : A → bool) l :
  (∀ x, x ∈ l → P x = false) → List.filter P l = [].
Proof.
  induction l as [|a l IH]; [done|]. intros H. simpl.
  rewrite H by by left. apply IH. intros x Hx. apply H. by right.
Qed.

Lemma is_new_false_iff T l d :
  strptime l.1 = Ok d → is_new (Some T) l = false ↔ dt_le d T.
Proof.
  intros Hd. unfold is_new, dt_le. rewrite Hd. simpl.
  by rewrite negb_false_iff.
Qed.

Lemma line_le_inv a b :
  line_le a b →
  ∃ x y, strptime a.1 = Ok x ∧ strptime b.1 = Ok y ∧ dt_le x y.
Proof.
  unfold line_le, line_leb.
  destruct (strptime a.1) as [x|]; [|done].
  destruct (strptime b.1) as [y|]; [|done]. eauto.
Qed.

(** In an ordered partition no line is later than the last line that
    passes the test of line 136. *)
Lemma new_lines_last_bound last part W x d :
  time_ordered part = true →
  new_lines last part = W ++ [x] →
  strptime x.1 = Ok d →
  new_lines (Some d) part = [].
Proof.
  intros [Hv Hs]%time_ordered_spec (l1 & l2 & -> & Hl2 & Hx)%list_filter_snoc_split Hd.
  assert (∀ l, l ∈ l1 ++ x :: l2 → is_new (Some d) l = false) as Hall.
  { intros l Hl.
    assert (valid_ts l = true) as Hl_valid.
    { rewrite forallb_forall in Hv. by apply Hv, list_elem_of_In. }
    unfold valid_ts in Hl_valid. destruct (strptime l.1) as [dl|] eqn:Hdl; [|done].
    apply (is_new_false_iff _ _ _ Hdl).
    apply elem_of_app in Hl as [Hl|Hl].
    - assert (line_le l x) as (x1 & y1 & Hx1 & Hy1 & Hle)%line_le_inv
        by (eapply StronglySorted_app_1_elem_of; [done|done|by left]).
      rewrite Hdl in Hx1. rewrite Hd in Hy1. by simplify_eq.
    - apply elem_of_cons in Hl as [->|Hl].
      { rewrite Hd in Hdl. simplify_eq. reflexivity. }
      assert (is_new last l = false) as Hold.
      { destruct (is_new last l) eqn:E; [|done].
        assert (l ∈ List.filter (is_new last) l2) as Hin
          by (apply list_elem_of_In, filter_In; split; [by apply list_elem_of_In|done]).
        rewrite Hl2 in Hin. by apply elem_of_nil in Hin. }
      destruct last as [T|].
      + apply (is_new_false_iff _ _ _ Hdl) in Hold.
        etrans; [exact Hold|]. apply datetime_lt_le.
        rewrite datetime_lt_not_le. unfold is_new in Hx. by rewrite Hd in Hx.
      + unfold is_new in Hold. by rewrite Hdl in Hold. }
  by apply list_filter_nil.
Qed.

End order_facts.

(** ** The file after lines were appended *)

Section appended_text_facts.

Lemma format_line_shape ts content :
  format_line ts content = (ts +:+ " | " +:+ content) +:+ nl.
Proof. unfold format_line. by rewrite !sapp_assoc. Qed.

Lemma terminated_app_text c W :
  terminated c = true → terminated (c +:+ lines_text W) = true.
Proof.
  revert c. induction W as [|x W IH]; intros c Hc.
  - by rewrite sapp_nil_r.
  - rewrite lines_text_cons, <- sapp_assoc. apply IH.
    rewrite format_line_shape. apply terminated_app_nl.
Qed.

Lemma no_linebreak_app s t :
  no_linebreak (s +:+ t) = no_linebreak s && no_linebreak t.
Proof.
  unfold no_linebreak. rewrite !mem_app.
  destruct (Str.mem "010" s), (Str.mem "013" s), (Str.mem "010" t),
    (Str.mem "013" t); done.
Qed.

Lemma no_linebreak_ts ts : ts_shape ts → no_linebreak ts = true.
Proof. intros [_ Hlf Hcr _ _]. unfold no_linebreak. by rewrite Hlf, Hcr. Qed.

Lemma valid_ts_shape l : valid_ts l = true → ts_shape l.1.
Proof.
  unfold valid_ts. destruct (strptime l.1) eqn:E; [|done].
  intros _. by eapply strptime_shape.
Qed.

Lemma no_linebreak_line l :
  valid_ts l = true → no_linebreak l.2 = true →
  no_linebreak (l.1 +:+ " | " +:+ l.2) = true.
Proof.
  intros Hv%valid_ts_shape%no_linebreak_ts Hc.
  by rewrite !no_linebreak_app, Hv, Hc.
Qed.

(** Appending well-formed lines to a terminated text adds exactly those
    lines to the lines of the file. *)
Lemma file_lines_app_text c W :
  terminated c = true →
  (∀ l, l ∈ W → valid_ts l = true ∧ no_linebreak l.2 = true) →
  file_lines (c +:+ lines_text W)
  = file_lines c ++ ((λ l, format_line l.1 l.2) <$> W).
Proof.
  revert c. induction W as [|x W IH]; intros c Hc HW.
  - by rewrite sapp_nil_r, app_nil_r.
  - rewrite lines_text_cons, <- sapp_assoc, fmap_cons.
    destruct (HW x) as [Hv Hx]; [by left|].
    rewrite IH.
    + rewrite format_line_shape, file_lines_app_line, <- app_assoc;
        auto using no_linebreak_line.
    + rewrite format_line_shape. apply terminated_app_nl.
    + intros l Hl. apply HW. by right.
Qed.

Lemma get_datetime_from_log_line l :
  valid_ts l = true →
  DatatimeHandler.get_datetime_from_log (format_line l.1 l.2) = strptime l.1.
Proof.
  intros Hv%valid_ts_shape. unfold format_line.
  by apply get_datetime_from_log_format.
Qed.

Lemma format_line_not_empty ts content : Str.is_empty (format_line ts content) = false.
Proof. unfold format_line. by destruct ts. Qed.

Lemma elem_of_new_lines last part l :
  l ∈ new_lines last part → l ∈ part ∧ is_new last l = true.
Proof. intros [? ?]%list_elem_of_In%filter_In. by rewrite list_elem_of_In. Qed.

Lemma is_new_valid last l : is_new last l = true → valid_ts l = true.
Proof. unfold is_new, valid_ts. by destruct (strptime l.1). Qed.

(** After the lines later than its high-water mark were appended to a
    file, no line of the partition is later than its new high-water mark. *)
Lemma high_water_mark_after c last part :
  terminated c = true →
  high_water_mark c = Ok last →
  time_ordered part = true →
  (∀ l, l ∈ part → no_linebreak l.2 = true) →
  ∃ last',
    high_water_mark (c +:+ lines_text (new_lines last part)) = Ok last' ∧
    new_lines last' part = [].
Proof.
  intros Hc Hlast Hord Hclean.
  remember (new_lines last part) as W eqn:HW. symmetry in HW.
  destruct W as [|x W0 _] using rev_ind.
  { exists last. by rewrite sapp_nil_r. }
  assert (∀ l, l ∈ W0 ++ [x] → valid_ts l = true ∧ no_linebreak l.2 = true) as Hgood.
  { intros l Hl. rewrite <- HW in Hl. apply elem_of_new_lines in Hl as [Hl Hn].
    split; [by eapply is_new_valid|by apply Hclean]. }
  destruct (Hgood x) as [Hx _]; [apply elem_of_app; right; by left|].
  unfold valid_ts in Hx. destruct (strptime x.1) as [d|] eqn:Hd; [|done].
  exists (Some d). split.
  - unfold high_water_mark. rewrite file_lines_app_text by done.
    rewrite fmap_app, list_fmap_singleton, app_assoc, last_snoc,
      format_line_not_empty.
    cbn [negb]. rewrite get_datetime_from_log_line, Hd; [done|].
    unfold valid_ts. by rewrite Hd.
  - by eapply new_lines_last_bound.
Qed.

End appended_text_facts.

(** ** A second pass over the same partitions *)

Section second_pass_facts.

Context (self : crawler) (hotkey : string).

Local Abbreviation folder := (os_path_join (store_path self) hotkey).
Local Abbreviation path := (log_file_path self hotkey).

Lemma ensure_fs_noop date g :
  is_Some (g !! folder) → is_Some (g !! path date) →
  ensure_fs self hotkey date g = g.
Proof.
  intros [x Hx] [y Hy]. apply map_eq. intros q. rewrite ensure_fs_lookup.
  destruct (g !! q) eqn:Hq; [done|]. repeat case_decide; congruence.
Qed.

Lemma valid_prefix_all part : forallb valid_ts part = true → valid_prefix part = part.
Proof.
  induction part as [|l ls IH]; [done|]. simpl.
  intros [-> Hv]%andb_true_iff. by rewrite IH.
Qed.

Lemma ensure_fs_folder date f : is_Some (ensure_fs self hotkey date f !! folder).
Proof.
  rewrite ensure_fs_lookup. destruct (f !! folder); [done|].
  by rewrite decide_True.
Qed.

Lemma store_date_fs_folder item f :
  is_Some ((store_date_fs self hotkey item f).1 !! folder).
Proof.
  pose proof (store_date_fs_extends self hotkey item f) as He.
  pose proof (ensure_fs_folder item.1 f) as [x Hx].
  destruct (decide (folder = path item.1)) as [Heq|Hne].
  - rewrite Heq at 1. rewrite store_date_fs_lookup.
    rewrite Heq in Hx at 1. rewrite Hx. by destruct x.
  - by rewrite store_date_fs_lookup_ne, Hx.
Qed.

(** A second pass over a partition, on a disk that has the folder and the
    file the first pass left, changes nothing and ends as the first. *)
Lemma store_date_fs_again item f g :
  item_good self hotkey f item →
  is_Some (g !! folder) →
  g !! path item.1 = (store_date_fs self hotkey item f).1 !! path item.1 →
  (store_date_fs self hotkey item g).1 = g ∧
  is_ok (store_date_fs self hotkey item g).2 = is_ok (store_date_fs self hotkey item f).2.
Proof.
  intros (Hrel & Hord & Hclean & Hterm) Hfolder Hg.
  rewrite store_date_fs_lookup in Hg.
  pose proof (ensure_fs_text self hotkey item.1 f (path item.1)) as Htext.
  unfold file_text at 1 in Htext.
  assert (is_Some (g !! path item.1)) as Hsome.
  { rewrite Hg. destruct (ensure_fs_file self hotkey item.1 f) as [[|c] ->]; done. }
  pose proof (ensure_fs_noop _ _ Hfolder Hsome) as Hnoop.
  unfold store_date_fs, written in *. rewrite !Hnoop.
  destruct (ensure_fs self hotkey item.1 f !! path item.1) as [[|c]|] eqn:Hf2.
  - by rewrite Hg.
  - subst c. rewrite Hg.
    destruct (high_water_mark (file_text f (path item.1))) as [last|e] eqn:Hlast.
    + pose proof Hord as [Hv _]%time_ordered_spec.
      rewrite (valid_prefix_all _ Hv) in Hg. rewrite (valid_prefix_all _ Hv), Hv.
      destruct (high_water_mark_after _ _ _ Hterm Hlast Hord Hclean)
        as (last' & -> & ->).
      cbn [fst snd lines_text Str.join_empty map is_ok].
      split; [|done]. rewrite sapp_nil_r. by apply insert_id.
    + by rewrite sapp_nil_r, Hlast.
  - by destruct (ensure_fs_file self hotkey item.1 f) as [? Hx]; rewrite Hf2 in Hx.
Qed.

Lemma store_all_fs_again items f g :
  NoDup items.*1 →
  (∀ item, item ∈ items → item_good self hotkey f item) →
  is_Some (g !! folder) →
  (∀ item, item ∈ items →
     g !! path item.1 = (store_all_fs self hotkey items f).1 !! path item.1) →
  (store_all_fs self hotkey items g).1 = g.
Proof.
  revert f. induction items as [|item rest IH]; intros f Hnd Hgood Hfolder Hg; [done|].
  rewrite fmap_cons in Hnd. apply NoDup_cons in Hnd as [Hnotin Hnd].
  assert (∀ it, it ∈ rest → path item.1 ≠ path it.1) as Hne.
  { intros it Hit Heq. apply log_file_path_inj in Heq.
    - apply Hnotin. rewrite Heq. apply list_elem_of_fmap. eauto.
    - apply Hgood. by left.
    - apply Hgood. by right. }
  assert (g !! path item.1 = (store_date_fs self hotkey item f).1 !! path item.1) as Hhead.
  { rewrite (Hg item) by by left. rewrite store_all_fs_cons.
    destruct (store_date_fs self hotkey item f).2; [|done].
    apply store_all_fs_frame; [done|].
    apply log_file_path_ne_folder, Hgood. by left. }
  destruct (store_date_fs_again item f g) as [Hsame Hok]; [apply Hgood; by left|done|done|].
  rewrite store_all_fs_cons, Hsame.
  destruct (store_date_fs self hotkey item g).2 as [n|e] eqn:Hsecond; [|done].
  destruct (store_date_fs self hotkey item f).2 as [n'|e'] eqn:Hfirst; [|done].
  apply (IH (store_date_fs self hotkey item f).1); [done| |done|].
  - intros it Hit. destruct (Hgood it) as (? & ? & ? & Hterm); [by right|].
    repeat split; try done.
    rewrite store_date_fs_text, decide_False, sapp_nil_r; [done|].
    intros Heq. by apply (Hne _ Hit).
  - intros it Hit. rewrite (Hg it) by by right.
    by rewrite store_all_fs_cons, Hfirst.
Qed.

End second_pass_facts.

(** ** Hypotheses on a batch, partition by partition *)

Section batch_facts.

Context (self : crawler) (hotkey : string).

Lemma batch_ordered_valid lines :
  batch_ordered lines = true → ∀ l, l ∈ lines → valid_ts l = true.
Proof.
  intros Hord l Hl. unfold batch_ordered in Hord. rewrite forallb_forall in Hord.
  pose proof (Hord _ (proj1 (list_elem_of_In _ _) (group_lines_lookup _ _ Hl))) as Hitem.
  cbn [snd] in Hitem. apply time_ordered_spec in Hitem as [Hv _].
  rewrite forallb_forall in Hv. rewrite <- valid_ts_stored_line.
  apply Hv, list_elem_of_In, list_elem_of_fmap. eauto using elem_of_lines_of_date.
Qed.

Lemma batch_clean_item lines item l :
  batch_clean lines = true → item ∈ group_lines lines → l ∈ item.2 →
  no_linebreak l.2 = true.
Proof.
  intros Hclean Hitem Hl. destruct item as [d part]. cbn [snd] in Hl.
  rewrite (group_lines_part _ _ _ Hitem) in Hl.
  apply list_elem_of_fmap in Hl as (l0 & -> & [_ Hl0]%list_elem_of_filter).
  unfold batch_clean in Hclean. rewrite forallb_forall in Hclean.
  specialize (Hclean _ (proj1 (list_elem_of_In _ _) Hl0)).
  unfold no_linebreak in *. cbn [stored_line snd].
  apply andb_true_iff in Hclean as [Hlf Hcr]. apply negb_true_iff in Hlf, Hcr.
  apply andb_true_iff. split; apply negb_true_iff.
  - destruct (Str.mem "010" (strip_level l0.2)) eqn:E; [|done].
    apply mem_strip_level in E. congruence.
  - destruct (Str.mem "013" (strip_level l0.2)) eqn:E; [|done].
    apply mem_strip_level in E. congruence.
Qed.

Lemma batch_items_good lines st :
  batch_ordered lines = true → batch_clean lines = true →
  files_terminated self hotkey lines st = true →
  ∀ item, item ∈ group_lines lines → item_good self hotkey (fs st) item.
Proof.
  intros Hord Hclean Hterm item Hitem.
  pose proof (batch_ordered_valid _ Hord) as Hv.
  split; [by apply (group_lines_relative _ Hv)|]. split; [|split].
  - unfold batch_ordered in Hord. rewrite forallb_forall in Hord.
    by apply Hord, list_elem_of_In.
  - intros l Hl. by eapply batch_clean_item.
  - unfold files_terminated in Hterm. rewrite forallb_forall in Hterm.
    by apply Hterm, list_elem_of_In.
Qed.

Lemma extends_is_Some f f' q : extends f f' → is_Some (f !! q) → is_Some (f' !! q).
Proof.
  intros He [x Hx]. specialize (He q). rewrite Hx in He.
  destruct x; [by rewrite He|]. destruct He as [s ->]. done.
Qed.

Lemma store_all_fs_folder items f :
  items ≠ [] →
  is_Some ((store_all_fs self hotkey items f).1 !! os_path_join (store_path self) hotkey).
Proof.
  destruct items as [|item rest]; [done|]. intros _.
  rewrite store_all_fs_cons.
  pose proof (store_date_fs_folder self hotkey item f) as Hfolder.
  destruct (store_date_fs self hotkey item f).2; [|done].
  eapply extends_is_Some; [apply store_all_fs_extends|done].
Qed.

(** The lines of a sorted, terminated file stay sorted when the lines of an
    ordered partition that are later than its high-water mark are
    appended. *)
Lemma file_sorted_app c mark part :
  terminated c = true → file_sorted c = true →
  high_water_mark c = Ok mark →
  time_ordered part = true →
  (∀ l, l ∈ part → no_linebreak l.2 = true) →
  file_sorted (c +:+ lines_text (new_lines mark part)) = true.
Proof.
  intros Hterm [Hok Hss]%file_sorted_spec Hlast [Hv Hpart]%time_ordered_spec Hclean.
  apply file_sorted_spec.
  assert (∀ l, l ∈ new_lines mark part → valid_ts l = true ∧ no_linebreak l.2 = true) as Hgood.
  { intros l [Hl Hn]%elem_of_new_lines. split; [by eapply is_new_valid|by apply Hclean]. }
  rewrite file_lines_app_text by done.
  rewrite forallb_forall in Hok.
  assert (∀ s, s ∈ file_lines c → ∃ d, DatatimeHandler.get_datetime_from_log s = Ok d) as Hparse.
  { intros s Hs%list_elem_of_In%Hok.
    destruct (DatatimeHandler.get_datetime_from_log s); [eauto|done]. }
  split.
  - rewrite forallb_app. apply andb_true_iff. split; [by apply forallb_forall|].
    apply forallb_forall. intros t (l & -> & Hl)%list_elem_of_In%list_elem_of_fmap.
    destruct (Hgood _ Hl) as [Hvl _]. rewrite get_datetime_from_log_line by done.
    exact Hvl.
  - apply StronglySorted_app_2; [|done|].
    + intros s t Hs (l & -> & Hl)%list_elem_of_fmap.
      destruct (Hgood _ Hl) as [Hvl _].
      apply elem_of_new_lines in Hl as [_ Hnew].
      unfold text_le, text_leb. rewrite get_datetime_from_log_line by done.
      destruct (Hparse _ Hs) as [ds Hds]. rewrite Hds.
      unfold valid_ts in Hvl. destruct (strptime l.1) as [dl|] eqn:Hdl; [|done].
      assert (is_Some (last (file_lines c))) as [s_last Hs_last].
      { apply last_is_Some. intros Hnil. rewrite Hnil in Hs. by apply elem_of_nil in Hs. }
      pose proof Hs_last as [L' HL']%last_Some.
      destruct (Hparse s_last) as [T HT].
      { rewrite HL'. apply elem_of_app. right. by left. }
      unfold high_water_mark in Hlast. rewrite Hs_last, HT in Hlast.
      destruct (Str.is_empty s_last) eqn:Hempty.
      { destruct s_last; [|done]. vm_compute in HT. discriminate HT. }
      cbn [negb] in Hlast. injection Hlast as <-.
      assert (dt_le ds T) as HdsT.
      { rewrite HL' in Hs, Hss. apply elem_of_app in Hs as [Hs|Hs%list_elem_of_singleton].
        - pose proof (StronglySorted_app_1_elem_of _ _ _ s s_last Hss Hs
                        (list_elem_of_here _ _)) as Hle.
          unfold text_le, text_leb in Hle. by rewrite Hds, HT in Hle.
        - subst s. rewrite Hds in HT. injection HT as ->. reflexivity. }
      change (dt_le ds dl). etrans; [exact HdsT|].
      apply datetime_lt_le. rewrite datetime_lt_not_le.
      unfold is_new in Hnew. by rewrite Hdl in Hnew.
    + apply (StronglySorted_fmap _ line_le).
      * intros x y Hxy. pose proof Hxy as (dx & dy & Hx & Hy & _)%line_le_inv.
        unfold text_le, text_leb.
        rewrite !get_datetime_from_log_line by (unfold valid_ts; by rewrite ?Hx, ?Hy).
        exact Hxy.
      * by apply StronglySorted_list_filter.
Qed.

End batch_facts.

(** [store_lines] returns when every timestamp of the batch parses and no
    file of a date of the batch stands in the way. *)
Lemma store_all_fs_returns (self : crawler) (hotkey : string) items f :
  NoDup items.*1 →
  (∀ item, item ∈ items →
     relative_date item.1 ∧ forallb valid_ts item.2 = true ∧
     file_ready f (log_file_path self hotkey item.1)) →
  (store_all_fs self hotkey items f).2 = Ok tt.
Proof.
  revert f. induction items as [|item rest IH]; intros f Hnd Hitems; [done|].
  rewrite fmap_cons in Hnd. apply NoDup_cons in Hnd as [Hnotin Hnd].
  destruct (Hitems item) as (Hrel & Hv & Hready); [by left|].
  rewrite store_all_fs_cons.
  assert (∃ n, (store_date_fs self hotkey item f).2 = Ok n) as [n ->].
  { unfold store_date_fs, file_ready in *. rewrite ensure_fs_lookup.
    destruct (f !! log_file_path self hotkey item.1) as [[|c]|]; [done| |].
    - destruct (high_water_mark c); [|done]. rewrite Hv. eauto.
    - rewrite decide_False by by apply log_file_path_ne_folder.
      rewrite decide_True by done. cbn [snd]. rewrite Hv. eauto. }
  apply IH; [done|]. intros it Hit.
  destruct (Hitems it) as (Hrel' & Hv' & Hready'); [by right|].
  split; [done|]. split; [done|].
  unfold file_ready. rewrite store_date_fs_frame; [done| |].
  - intros Heq. apply log_file_path_inj in Heq; [|done..].
    apply Hnotin. rewrite <- Heq. apply list_elem_of_fmap. eauto.
  - by apply log_file_path_ne_folder.
Qed.

Lemma store_lines_returns (self : crawler) (hotkey : string)
    (lines : list (string * string)) (st : state) :
  (∀ l, l ∈ lines → valid_ts l = true) →
  (∀ l, l ∈ lines →
     file_ready (fs st) (log_file_path self hotkey (date_string_of l.1))) →
  (store_lines self hotkey lines st).2 = Ok tt.
Proof.
  intros Hv Hready. destruct (store_lines_fs self hotkey lines st) as [_ ->].
  apply store_all_fs_returns; [apply group_lines_NoDup|].
  intros [d part] Hitem. cbn [fst snd].
  split; [by apply (group_lines_relative _ Hv (d, part))|].
  assert (d ∈ (group_lines lines).*1) as (l & Hl & Hd)%group_lines_keys
    by (apply list_elem_of_fmap; by exists (d, part)).
  split.
  - rewrite (group_lines_part _ _ _ Hitem). apply forallb_forall.
    intros l' (l0 & -> & [_ Hl0]%list_elem_of_filter)%list_elem_of_In%list_elem_of_fmap.
    rewrite valid_ts_stored_line. by apply Hv.
  - rewrite <- Hd. by apply Hready.
Qed.

(** C1, as stated, fails: after [sample_batch], whose second line is later
    than its third, the last line of the file is the third, and a second
    run appends the second line again. *)
Lemma second_run_appends_nothing_as_stated_counterexample :
  ¬ second_run_appends_nothing_as_stated sample_crawler "hk" sample_batch empty_state.
Proof.
  unfold second_run_appends_nothing_as_stated. intros H.
  apply (f_equal (λ f, f !! "wandb_logs/hk/2024-01-01.log")) in H.
  vm_compute in H. discriminate H.
Qed.

(** C1, amended.  When the timestamps of the batch are in the fixed format
    and, within each date, in non-decreasing order, no content of the batch
    has a line break, and the files of the dates of the batch are empty or
    end with a line terminator, running [store_lines] a second time with the
    same batch against the store the first run left appends nothing: the
    disk is the one the first run left, however the first run ended. *)
Theorem store_lines_second_run_appends_nothing
    (self : crawler) (hotkey : string) (lines : list (string * string))
    (st : state) :
  batch_ordered lines = true →
  batch_clean lines = true →
  files_terminated self hotkey lines st = true →
  fs (store_lines self hotkey lines (store_lines self hotkey lines st).1).1
  = fs (store_lines self hotkey lines st).1.
Proof.
  intros Hord Hclean Hterm.
  destruct (store_lines_fs self hotkey lines (store_lines self hotkey lines st).1)
    as [-> _].
  destruct (store_lines_fs self hotkey lines st) as [-> _].
  destruct (decide (group_lines lines = [])) as [Hnil|Hne]; [by rewrite Hnil|].
  eapply store_all_fs_again.
  - apply group_lines_NoDup.
  - by apply batch_items_good.
  - by apply store_all_fs_folder.
  - done.
Qed.

(** The example of the specification: the batch of two lines against the
    empty store, run twice. *)
Lemma store_lines_second_run_appends_nothing_witness :
  fs (store_lines sample_crawler "hk"
        [("2024-01-01T10:00:00.000000", "INFO | hello");
         ("2024-01-01T10:00:01.000000", "world")]
        (store_lines sample_crawler "hk"
           [("2024-01-01T10:00:00.000000", "INFO | hello");
            ("2024-01-01T10:00:01.000000", "world")] empty_state).1).1
  = fs (store_lines sample_crawler "hk"
          [("2024-01-01T10:00:00.000000", "INFO | hello");
           ("2024-01-01T10:00:01.000000", "world")] empty_state).1.
Proof.
  apply (store_lines_second_run_appends_nothing sample_crawler "hk"
    [("2024-01-01T10:00:00.000000", "INFO | hello");
     ("2024-01-01T10:00:01.000000", "world")] empty_state);
    vm_compute; reflexivity.
Defined.

(** C2, as stated, fails: [sample_batch], whose second line is later than
    its third, is appended whole to an empty file. *)
Lemma order_preserved_as_stated_counterexample :
  ¬ order_preserved_as_stated sample_crawler "hk" sample_batch sample_state_empty_file.
Proof.
  intros H.
  destruct (H "wandb_logs/hk/2024-01-01.log" EmptyString) as (c' & Hfile & Hsorted).
  - vm_compute. reflexivity.
  - vm_compute. reflexivity.
  - vm_compute in Hfile. injection Hfile as <-.
    vm_compute in Hsorted. discriminate Hsorted.
Qed.

(** C2, amended.  When the timestamps of the batch are in the fixed format
    and, within each date, in non-decreasing order, and no content of the
    batch has a line break, a file whose lines are in non-decreasing
    timestamp order and whose text is empty or ends with a line terminator
    still has its lines in non-decreasing timestamp order after a call of
    [store_lines], however the call ends; and every line appended to it is
    strictly later than the last line it had. *)
Theorem store_lines_preserves_order
    (self : crawler) (hotkey : string) (lines : list (string * string))
    (st : state) (q c : string) :
  batch_ordered lines = true →
  batch_clean lines = true →
  fs st !! q = Some (File c) →
  file_sorted c = true →
  terminated c = true →
  ∃ appended,
    fs (store_lines self hotkey lines st).1 !! q
      = Some (File (c +:+ lines_text appended)) ∧
    file_sorted (c +:+ lines_text appended) = true ∧
    (∀ T l, high_water_mark c = Ok (Some T) → l ∈ appended → later_than T l = true).
Proof.
  intros Hord Hclean Hq Hsorted Hterm.
  destruct (store_lines_fs self hotkey lines st) as [-> _].
  pose proof (batch_ordered_valid _ Hord) as Hv.
  destruct (store_all_fs_any self hotkey (group_lines lines) (fs st) q c
              (group_lines_NoDup _) (group_lines_relative _ Hv) Hq)
    as [Hsame|(item & last & Hitem & -> & Hlast & Hfile)].
  - exists []. rewrite sapp_nil_r. split; [done|]. split; [done|].
    by intros T l _ ?%elem_of_nil.
  - assert (time_ordered item.2 = true) as Hitem_ord.
    { unfold batch_ordered in Hord. rewrite forallb_forall in Hord.
      by apply Hord, list_elem_of_In. }
    pose proof Hitem_ord as [Hitem_v _]%time_ordered_spec.
    rewrite (valid_prefix_all _ Hitem_v) in Hfile.
    exists (new_lines last item.2). split; [done|]. split.
    + apply file_sorted_app; try done.
      intros l Hl. by eapply batch_clean_item.
    + intros T l HT Hl. rewrite HT in Hlast. injection Hlast as <-.
      rewrite new_lines_later in Hl.
      by apply list_elem_of_In, filter_In in Hl as [_ ?].
Qed.

(** Two lines in order against [sample_state], whose file ends with a line
    of 10:00:05: the line of 10:00:07 is appended and the file stays in
    order. *)
Lemma store_lines_preserves_order_witness :
  ∃ appended,
    fs (store_lines sample_crawler "hk"
          [("2024-01-01T10:00:03.000000", "a");
           ("2024-01-01T10:00:07.000000", "b")] sample_state).1
      !! "wandb_logs/hk/2024-01-01.log"
    = Some (File (format_line "2024-01-01T10:00:05.000000" "old"
                  +:+ lines_text appended)) ∧
    file_sorted (format_line "2024-01-01T10:00:05.000000" "old"
                 +:+ lines_text appended) = true.
Proof.
  destruct (store_lines_preserves_order sample_crawler "hk"
    [("2024-01-01T10:00:03.000000", "a");
     ("2024-01-01T10:00:07.000000", "b")] sample_state
    "wandb_logs/hk/2024-01-01.log"
    (format_line "2024-01-01T10:00:05.000000" "old"))
    as (appended & Hfile & Hsorted & _).
  - vm_compute. reflexivity.
  - vm_compute. reflexivity.
  - vm_compute. reflexivity.
  - vm_compute. reflexivity.
  - vm_compute. reflexivity.
  - exists appended. split; [exact Hfile|exact Hsorted].
Defined.

(** ** Why the amended statements ask what they ask *)

(** A content with a line break: what follows the break is read back as
    the last line of the file, here with an older timestamp, and the second
    run appends the line again. *)
Example second_run_line_break :
  ¬ second_run_appends_nothing_as_stated sample_crawler "hk"
      sample_batch_line_break empty_state.
Proof.
  unfold second_run_appends_nothing_as_stated. intros H.
  apply (f_equal (λ f, f !! "wandb_logs/hk/2024-01-01.log")) in H.
  vm_compute in H. discriminate H.
Qed.

(** A file whose last line has no terminator: the first appended line is
    glued to it, so the file still reads as ending with the old line, and
    the second run appends the line again. *)
Example second_run_unterminated_file :
  ¬ second_run_appends_nothing_as_stated sample_crawler "hk"
      [("2024-01-01T10:00:00.000000", "a")]
      (mk_state {[ "wandb_logs/hk/2024-01-01.log" := File "2020-01-01T00:00:00.0 | x" ]} []).
Proof.
  unfold second_run_appends_nothing_as_stated. intros H.
  apply (f_equal (λ f, f !! "wandb_logs/hk/2024-01-01.log")) in H.
  vm_compute in H. discriminate H.
Qed.

(** The same two inputs leave a file that is not in timestamp order. *)
Example order_line_break :
  ¬ order_preserved_as_stated sample_crawler "hk" sample_batch_line_break
      sample_state_empty_file.
Proof.
  intros H.
  destruct (H "wandb_logs/hk/2024-01-01.log" EmptyString) as (c' & Hfile & Hsorted).
  - vm_compute. reflexivity.
  - vm_compute. reflexivity.
  - vm_compute in Hfile. injection Hfile as <-.
    vm_compute in Hsorted. discriminate Hsorted.
Qed.

Example order_unterminated_file :
  ¬ order_preserved_as_stated sample_crawler "hk"
      [("2024-01-01T10:00:00.000000", "a")] sample_state_unterminated.
Proof.
  intros H.
  destruct (H "wandb_logs/hk/2024-01-01.log" "2020-01-01T00:00:00.0")
    as (c' & Hfile & Hsorted).
  - vm_compute. reflexivity.
  - vm_compute. reflexivity.
  - vm_compute in Hfile. injection Hfile as <-.
    vm_compute in Hsorted. discriminate Hsorted.
Qed.

(** ** The example of the specification *)

Example spec_example_first_run :
  store_lines sample_crawler "hk" spec_example_batch empty_state
  = (mk_state
       {[ "wandb_logs/hk" := Dir;
          "wandb_logs/hk/2024-01-01.log" :=
            File (format_line "2024-01-01T10:00:00.000000" " hello"
                  +:+ format_line "2024-01-01T10:00:01.000000" "world") ]}
       [InfoStored 2 "hk" "2024-01-01"],
     Ok tt).
Proof. vm_compute. reflexivity. Qed.

Example spec_example_second_run :
  let st1 := (store_lines sample_crawler "hk" spec_example_batch empty_state).1 in
  store_lines sample_crawler "hk" spec_example_batch st1
  = (mk_state (fs st1) (log st1 ++ [InfoStored 0 "hk" "2024-01-01"]), Ok tt).
Proof. vm_compute. reflexivity. Qed.
(** ** Timestamps at full width *)

Section canonical_facts.

Lemma mod_10_lt n : (n mod 10 < 10)%N.
Proof. apply N.mod_upper_bound. discriminate. Qed.

Lemma N_of_digit_char n : N_of_ascii (digit_char n) = (48 + n mod 10)%N.
Proof.
  unfold digit_char. pose proof (mod_10_lt n) as H. revert H.
  generalize (n mod 10)%N. intros k Hk. apply N_ascii_embedding. lia.
Qed.

Lemma digit_char_is_digit n : Str.is_digit (digit_char n) = true.
Proof.
  unfold Str.is_digit. rewrite N_of_digit_char.
  pose proof (mod_10_lt n) as H. revert H.
  generalize (n mod 10)%N. intros k Hk.
  rewrite andb_true_iff, !N.leb_le. lia.
Qed.

Lemma digit_char_value n : Str.digit_value (digit_char n) = (n mod 10)%N.
Proof.
  unfold Str.digit_value. rewrite N_of_digit_char.
  generalize (n mod 10)%N. intros k. lia.
Qed.

Lemma zfill_S w n :
  zfill (S w) n = zfill w (n / 10) +:+ String (digit_char n) EmptyString.
Proof. done. Qed.

Lemma zfill_digits w n : all_chars Str.is_digit (zfill w n) = true.
Proof.
  revert n. induction w as [|w IH]; intros n; [done|].
  rewrite zfill_S, all_chars_app, IH. simpl. by rewrite digit_char_is_digit.
Qed.

Lemma zfill_length w n : String.length (zfill w n) = w.
Proof.
  revert n. induction w as [|w IH]; intros n; [done|].
  rewrite zfill_S, sapp_length, IH. simpl. lia.
Qed.

Lemma int_digits_app acc a b :
  Str.int_digits acc (a +:+ b) = Str.int_digits (Str.int_digits acc a) b.
Proof.
  revert acc. induction a as [|c a IH]; intros acc; [done|].
  rewrite sapp_cons. simpl. apply IH.
Qed.

Lemma int_digits_zfill w n acc :
  Str.int_digits acc (zfill w n) = (acc * 10 ^ N.of_nat w + n mod 10 ^ N.of_nat w)%N.
Proof.
  revert n acc. induction w as [|w IH]; intros n acc.
  - simpl. rewrite N.mod_1_r. lia.
  - rewrite zfill_S, int_digits_app, IH. cbn [Str.int_digits].
    rewrite digit_char_value, Nat2N.inj_succ, N.pow_succ_r'.
    rewrite (N.Div0.mod_mul_r n 10).
    generalize ((n / 10) mod 10 ^ N.of_nat w)%N (n mod 10)%N (10 ^ N.of_nat w)%N.
    intros a b p. lia.
Qed.

Lemma digits_trimmed s :
  s ≠ EmptyString → all_chars Str.is_digit s = true → trimmed s.
Proof.
  intros Hne Hd. split.
  - destruct s as [|c t]; [done|]. exists c, t. split; [done|].
    simpl in Hd. apply andb_true_iff in Hd as [Hc _]. by apply digit_not_space.
  - destruct (all_chars_last _ _ Hd Hne) as (t & c & -> & Hc).
    exists t, c. split; [done|]. by apply digit_not_space.
Qed.

Lemma zfill_ne w n : zfill (S w) n ≠ EmptyString.
Proof.
  intros H. apply (f_equal String.length) in H. by rewrite zfill_length in H.
Qed.

Lemma int_zfill w n : (n < 10 ^ N.of_nat (S w))%N → Str.int (zfill (S w) n) = n.
Proof.
  intros Hn. unfold Str.int.
  rewrite strip_trimmed by (apply digits_trimmed; [apply zfill_ne|apply zfill_digits]).
  rewrite int_digits_zfill, N.mod_small by done. lia.
Qed.

Lemma zfill_inj w n m :
  (n < 10 ^ N.of_nat (S w))%N → (m < 10 ^ N.of_nat (S w))%N →
  zfill (S w) n = zfill (S w) m → n = m.
Proof.
  intros Hn Hm H. apply (f_equal Str.int) in H. by rewrite !int_zfill in H.
Qed.

Lemma mem_zfill c w n : Str.is_digit c = false → Str.mem c (zfill w n) = false.
Proof.
  intros Hc. apply (all_chars_not_mem Str.is_digit); [apply zfill_digits|done].
Qed.

End canonical_facts.

(** ** What the pattern finds first in a timestamp at full width *)

Section starts_facts.

Lemma starts_bind {A B} (l : list A) (k : A → list B) x y :
  starts l x → starts (k x) y → starts (l ≫= k) y.
Proof.
  intros [t ->] [t' Hk]. exists (t' ++ (t ≫= k)).
  change ((x :: t) ≫= k) with (k x ++ (t ≫= k)). by rewrite Hk.
Qed.

Lemma starts_seq a b s x r y r' :
  starts (a s) (x, r) → starts (b r) (y, r') → starts (Re.seq a b s) (x +:+ y, r').
Proof.
  intros Ha Hb. unfold Re.seq.
  eapply starts_bind; [exact Ha|]. cbn beta iota.
  eapply starts_bind; [exact Hb|]. by exists [].
Qed.

Lemma starts_alt_l a b s z : starts (a s) z → starts (Re.alt a b s) z.
Proof. intros [t Ht]. exists (t ++ b s). unfold Re.alt. by rewrite Ht. Qed.

Lemma starts_cls p c r :
  p c = true → starts (Re.cls p (String c r)) (String c EmptyString, r).
Proof. intros Hc. exists []. simpl. by rewrite Hc. Qed.

Lemma starts_digit n r :
  starts (Re.digit (String (digit_char n) r)) (String (digit_char n) EmptyString, r).
Proof. apply starts_cls, digit_char_is_digit. Qed.

Lemma starts_range_digit n r :
  starts (Re.range "0" "9" (String (digit_char n) r))
    (String (digit_char n) EmptyString, r).
Proof. apply starts_cls. exact (digit_char_is_digit n). Qed.

Lemma starts_chr c r : starts (Re.chr c (String c r)) (String c EmptyString, r).
Proof. apply starts_cls, eqb_ascii_refl. Qed.

Lemma starts_re_Y n r : starts (Re.re_Y (zfill 4 n +:+ r)) (zfill 4 n, r).
Proof.
  change (zfill 4 n +:+ r)
    with (String (digit_char (n / 10 / 10 / 10)) (String (digit_char (n / 10 / 10))
            (String (digit_char (n / 10)) (String (digit_char n) r)))).
  change (zfill 4 n)
    with (String (digit_char (n / 10 / 10 / 10)) EmptyString
          +:+ (String (digit_char (n / 10 / 10)) EmptyString
          +:+ (String (digit_char (n / 10)) EmptyString
          +:+ String (digit_char n) EmptyString))).
  unfold Re.re_Y. repeat (eapply starts_seq; [apply starts_digit|]). apply starts_digit.
Qed.

Lemma starts_re_f n : starts (Re.re_f (zfill 6 n)) (zfill 6 n, EmptyString).
Proof.
  change (zfill 6 n)
    with (String (digit_char (n / 10 / 10 / 10 / 10 / 10)) EmptyString
          +:+ (String (digit_char (n / 10 / 10 / 10 / 10)) EmptyString
          +:+ (String (digit_char (n / 10 / 10 / 10)) EmptyString
          +:+ (String (digit_char (n / 10 / 10)) EmptyString
          +:+ (String (digit_char (n / 10)) EmptyString
          +:+ (String (digit_char n) EmptyString +:+ EmptyString)))))) at 2.
  change (zfill 6 n)
    with (String (digit_char (n / 10 / 10 / 10 / 10 / 10))
            (String (digit_char (n / 10 / 10 / 10 / 10))
            (String (digit_char (n / 10 / 10 / 10)) (String (digit_char (n / 10 / 10))
            (String (digit_char (n / 10)) (String (digit_char n) EmptyString)))))).
  unfold Re.re_f. eapply starts_seq; [apply starts_range_digit|].
  do 5 (cbn [Re.upto]; apply starts_alt_l; eapply starts_seq; [apply starts_range_digit|]).
  by exists [].
Qed.

(** A property of the numbers below [k], by cases. *)
Lemma N_below (P : N → Prop) (k : nat) :
  (∀ i, i < k → P (N.of_nat i)) → ∀ n, (n < N.of_nat k)%N → P n.
Proof.
  intros H n Hn. rewrite <- (N2Nat.id n). apply H. lia.
Qed.

End starts_facts.

Local Ltac by_cases_below k :=
  lazymatch goal with
  | |- ∀ n : N, (n < _)%N → @?P n => refine (N_below P k _)
  end;
  let i := fresh "i" in let Hi := fresh "Hi" in
  intros i Hi;
  repeat (assert_fails lia; destruct i as [|i];
        [intros ?; vm_compute; first [discriminate | intros _; eexists; reflexivity]|]);
  lia.

Lemma starts_re_m n :
  (n < 13)%N → ∀ r, (1 <=? n)%N = true →
  starts (Re.re_m (zfill 2 n +:+ r)) (zfill 2 n, r).
Proof. revert n. by_cases_below 13. Qed.

Lemma starts_re_d n :
  (n < 32)%N → ∀ r, (1 <=? n)%N = true →
  starts (Re.re_d (zfill 2 n +:+ r)) (zfill 2 n, r).
Proof. revert n. by_cases_below 32. Qed.

Lemma starts_re_H n :
  (n < 24)%N → ∀ r, (0 <=? n)%N = true →
  starts (Re.re_H (zfill 2 n +:+ r)) (zfill 2 n, r).
Proof. revert n. by_cases_below 24. Qed.

Lemma starts_re_M n :
  (n < 60)%N → ∀ r, (0 <=? n)%N = true →
  starts (Re.re_M (zfill 2 n +:+ r)) (zfill 2 n, r).
Proof. revert n. by_cases_below 60. Qed.

Lemma starts_re_S n :
  (n < 60)%N → ∀ r, (0 <=? n)%N = true →
  starts (Re.re_S (zfill 2 n +:+ r)) (zfill 2 n, r).
Proof. revert n. by_cases_below 60. Qed.

Section timestamp_text_facts.

Lemma days_in_month_le y m : (days_in_month y m ≤ 31)%N.
Proof.
  unfold days_in_month.
  destruct (m =? 2)%N; [destruct (is_leap y); lia|].
  destruct ((m =? 4) || (m =? 6) || (m =? 9) || (m =? 11))%N; lia.
Qed.

Lemma valid_datetime_bounds d :
  valid_datetime d = true →
  (1 ≤ year d ≤ 9999 ∧ 1 ≤ month d ≤ 12 ∧ 1 ≤ day d ≤ 31 ∧ hour d ≤ 23
   ∧ minute d ≤ 59 ∧ second d ≤ 59 ∧ microsecond d ≤ 999999)%N.
Proof.
  unfold valid_datetime, check_date_fields, check_time_fields.
  rewrite !andb_true_iff, !N.leb_le.
  pose proof (days_in_month_le (year d) (month d)). lia.
Qed.

Lemma pattern_timestamp_text d :
  valid_datetime d = true →
  starts (Re.pattern (timestamp_text d))
    (Re.mk_groups (zfill 4 (year d)) (zfill 2 (month d)) (zfill 2 (day d))
       (zfill 2 (hour d)) (zfill 2 (minute d)) (zfill 2 (second d))
       (zfill 6 (microsecond d)), EmptyString).
Proof.
  intros Hb%valid_datetime_bounds.
  destruct Hb as ([Hy1 Hy2] & [Hm1 Hm2] & [Hd1 Hd2] & HH & HM & HS & Hf).
  unfold timestamp_text, date_text. rewrite !sapp_assoc, !sapp_cons, !sapp_nil_l.
  unfold Re.pattern.
  eapply starts_bind; [apply starts_re_Y|]. cbn beta iota.
  eapply starts_bind; [apply starts_chr|]. cbn beta iota.
  eapply starts_bind; [apply starts_re_m; [lia|apply N.leb_le; lia]|]. cbn beta iota.
  eapply starts_bind; [apply starts_chr|]. cbn beta iota.
  eapply starts_bind; [apply starts_re_d; [lia|apply N.leb_le; lia]|]. cbn beta iota.
  eapply starts_bind; [apply starts_cls; reflexivity|]. cbn beta iota.
  eapply starts_bind; [apply starts_re_H; [lia|apply N.leb_le; lia]|]. cbn beta iota.
  eapply starts_bind; [apply starts_chr|]. cbn beta iota.
  eapply starts_bind; [apply starts_re_M; [lia|apply N.leb_le; lia]|]. cbn beta iota.
  eapply starts_bind; [apply starts_chr|]. cbn beta iota.
  eapply starts_bind; [apply starts_re_S; [lia|apply N.leb_le; lia]|]. cbn beta iota.
  eapply starts_bind; [apply starts_chr|]. cbn beta iota.
  eapply starts_bind; [apply starts_re_f|]. cbn beta iota.
  by exists [].
Qed.

Lemma strptime_timestamp_text d :
  valid_datetime d = true → strptime (timestamp_text d) = Ok d.
Proof.
  intros Hv. destruct (pattern_timestamp_text d Hv) as [t Ht].
  pose proof (valid_datetime_bounds d Hv)
    as ([Hy1 Hy2] & [Hm1 Hm2] & [Hd1 Hd2] & HH & HM & HS & Hf).
  unfold strptime, Re.match_. rewrite Ht. cbn [head negb Str.is_empty].
  cbn [Re.g_Y Re.g_m Re.g_d Re.g_H Re.g_M Re.g_S Re.g_f].
  rewrite zfill_length. cbn [Nat.sub Str.pad_zeros].
  rewrite !int_zfill by (simpl; lia).
  unfold valid_datetime in Hv. rewrite Hv. by destruct d.
Qed.

Lemma date_string_of_timestamp_text d :
  date_string_of (timestamp_text d) = date_text d.
Proof.
  unfold date_string_of, timestamp_text. rewrite sapp_cons, sapp_nil_l.
  apply split_first_app. unfold date_text.
  rewrite !mem_app, !mem_zfill by done. done.
Qed.

Lemma sapp_inv_length a a' x y :
  String.length a = String.length a' → a +:+ x = a' +:+ y → a = a' ∧ x = y.
Proof.
  revert a'. induction a as [|c a IH]; intros [|c' a'] Hl E; try discriminate.
  - by rewrite !sapp_nil_l in E.
  - rewrite !sapp_cons in E. injection E as -> E. simpl in Hl.
    destruct (IH a') as [-> ->]; [lia|done|done].
Qed.

Lemma String_tail_inj c (s t : string) : String c s = String c t → s = t.
Proof. by intros [= ->]. Qed.

Lemma date_text_inj d1 d2 :
  valid_datetime d1 = true → valid_datetime d2 = true →
  date_text d1 = date_text d2 →
  year d1 = year d2 ∧ month d1 = month d2 ∧ day d1 = day d2.
Proof.
  intros H1%valid_datetime_bounds H2%valid_datetime_bounds H.
  unfold date_text in H.
  apply sapp_inv_length in H as [Hy H]; [|by rewrite !zfill_length].
  apply String_tail_inj in H.
  apply sapp_inv_length in H as [Hm H]; [|by rewrite !zfill_length].
  apply String_tail_inj in H as Hd.
  apply zfill_inj in Hy, Hm, Hd; try (simpl; lia).
Qed.

End timestamp_text_facts.

(** ** White space around a timestamp *)

Section strip_facts.

Lemma lstrip_spaces a s :
  all_chars Str.is_space a = true → Str.lstrip (a +:+ s) = Str.lstrip s.
Proof.
  induction a as [|c a IH]; [done|]. cbn [all_chars].
  intros [Hc Ha]%andb_true_iff. rewrite sapp_cons. cbn [Str.lstrip].
  rewrite Hc. by apply IH.
Qed.

Lemma rstrip_spaces s b :
  all_chars Str.is_space b = true → Str.rstrip (s +:+ b) = Str.rstrip s.
Proof.
  revert s. induction b as [|c b IH]; intros s; [by rewrite sapp_nil_r|]. cbn [all_chars].
  intros [Hc Hb]%andb_true_iff.
  change (String c b) with (String c EmptyString +:+ b).
  rewrite <- sapp_assoc, IH by done. by apply rstrip_snoc_space.
Qed.

Lemma strip_spaces a s b :
  trimmed s → all_chars Str.is_space a = true → all_chars Str.is_space b = true →
  Str.strip (a +:+ s +:+ b) = s.
Proof.
  intros Hs Ha Hb. pose proof (strip_trimmed s Hs) as Hstrip.
  unfold Str.strip in *. rewrite lstrip_spaces by done.
  destruct Hs as [(c & t & -> & Hc) _]. rewrite sapp_cons.
  cbn [Str.lstrip] in *. rewrite Hc in *. rewrite <- sapp_cons.
  by rewrite rstrip_spaces.
Qed.

Lemma spaces_no_pipe a : all_chars Str.is_space a = true → Str.mem "|" a = false.
Proof. intros Ha. by apply (all_chars_not_mem Str.is_space). Qed.

Lemma get_datetime_from_log_spaces ts a b :
  ts_shape ts → all_chars Str.is_space a = true → all_chars Str.is_space b = true →
  DatatimeHandler.get_datetime_from_log (a +:+ ts +:+ b) = strptime ts.
Proof.
  intros Hs Ha Hb. unfold DatatimeHandler.get_datetime_from_log.
  rewrite split_no_sep.
  - cbn [Str.first]. by rewrite strip_spaces by (try apply ts_shape_trimmed; done).
  - by rewrite !mem_app, (ts_no_pipe _ Hs), !spaces_no_pipe.
Qed.

Lemma get_datetime_from_log_spaces_pipe ts a b rest :
  ts_shape ts → all_chars Str.is_space a = true → all_chars Str.is_space b = true →
  DatatimeHandler.get_datetime_from_log (a +:+ ts +:+ b +:+ String "|" rest) = strptime ts.
Proof.
  intros Hs Ha Hb. unfold DatatimeHandler.get_datetime_from_log.
  rewrite <- !sapp_assoc, split_first_app.
  - rewrite sapp_assoc. by rewrite strip_spaces by (try apply ts_shape_trimmed; done).
  - by rewrite !mem_app, (ts_no_pipe _ Hs), !spaces_no_pipe.
Qed.

End strip_facts.

(** ** The high-water mark of a file *)

Section high_water_mark_facts.



Lemma high_water_mark_raise c e : high_water_mark c = Raise e → e = ValueError.
Proof.
  unfold high_water_mark. destruct (last (file_lines c)) as [l|]; [|done].
  destruct (negb (Str.is_empty l)); [|done].
  unfold DatatimeHandler.get_datetime_from_log.
  destruct (strptime _) as [d|e'] eqn:Hd; [done|].
  intros [= <-]. by eapply strptime_raise.
Qed.

Lemma high_water_mark_app c W x :
  terminated c = true →
  (∀ l, l ∈ W ++ [x] → valid_ts l = true ∧ no_linebreak l.2 = true) →
  ∃ t, strptime x.1 = Ok t ∧
       high_water_mark (c +:+ lines_text (W ++ [x])) = Ok (Some t).
Proof.
  intros Hc Hgood.
  destruct (Hgood x) as [Hx _]; [apply elem_of_app; right; by left|].
  pose proof Hx as Hx'. unfold valid_ts in Hx'.
  destruct (strptime x.1) as [t|] eqn:Ht; [|done].
  exists t. split; [done|].
  unfold high_water_mark. rewrite file_lines_app_text by done.
  rewrite fmap_app, list_fmap_singleton, app_assoc, last_snoc, format_line_not_empty.
  cbn [negb]. by rewrite get_datetime_from_log_line, Ht.
Qed.

End high_water_mark_facts.

(** ** The second loop, partition by partition *)

Section second_loop_facts.

Context (self : crawler) (hotkey : string).

Local Abbreviation folder := (os_path_join (store_path self) hotkey).
Local Abbreviation path := (log_file_path self hotkey).

Lemma written_local item f g :
  path item.1 ≠ folder → f !! path item.1 = g !! path item.1 →
  written self hotkey item f = written self hotkey item g.
Proof.
  intros Hne Heq. unfold written. rewrite !ensure_fs_lookup, Heq. done.
Qed.

Lemma store_date_fs_result_local item f g :
  path item.1 ≠ folder → f !! path item.1 = g !! path item.1 →
  (store_date_fs self hotkey item f).2 = (store_date_fs self hotkey item g).2.
Proof.
  intros Hne Heq. unfold store_date_fs. rewrite !ensure_fs_lookup, Heq.
  destruct (g !! path item.1) as [[|c]|]; [done| |].
  - by destruct (high_water_mark c).
  - rewrite decide_False by done. rewrite decide_True by done.
    by destruct (high_water_mark EmptyString).
Qed.

Lemma file_text_local (f g : gmap string node) q :
  f !! q = g !! q → file_text f q = file_text g q.
Proof. unfold file_text. by intros ->. Qed.

Lemma paths_apart (items : lines_map) item it :
  NoDup (item :: items).*1 →
  (∀ x, x ∈ item :: items → relative_date x.1) →
  it ∈ items → path it.1 ≠ path item.1 ∧ path it.1 ≠ folder.
Proof.
  intros Hnd Hrel Hit. split.
  - intros Heq. apply log_file_path_inj in Heq; [|apply Hrel; by right|apply Hrel; by left].
    rewrite fmap_cons in Hnd. apply NoDup_cons in Hnd as [Hnotin _].
    apply Hnotin. rewrite <- Heq. apply list_elem_of_fmap. by exists it.
  - apply log_file_path_ne_folder, Hrel. by right.
Qed.

Lemma for_each_store_date_split items st :
  NoDup items.*1 → (∀ item, item ∈ items → relative_date item.1) →
  ∃ pre rest,
    items = pre ++ rest ∧
    log (for_each (store_date self hotkey) items st).1
      = log st ++ (stored_record self hotkey (fs st) <$> pre) ∧
    (∀ it, it ∈ pre →
       file_text (fs (for_each (store_date self hotkey) items st).1) (path it.1)
       = file_text (fs st) (path it.1)
         +:+ lines_text (written self hotkey it (fs st))) ∧
    match (for_each (store_date self hotkey) items st).2 with
    | Ok _ => rest = []
    | Raise e =>
        ∃ item post,
          rest = item :: post ∧
          (store_date_fs self hotkey item (fs st)).2 = Raise e ∧
          file_text (fs (for_each (store_date self hotkey) items st).1) (path item.1)
          = file_text (fs st) (path item.1)
            +:+ lines_text (written self hotkey item (fs st)) ∧
          ∀ it, it ∈ post →
            fs (for_each (store_date self hotkey) items st).1 !! path it.1
            = fs st !! path it.1
    end.
Proof.
  revert st. induction items as [|item items IH]; intros st Hnd Hrel.
  { exists [], []. cbn [for_each ret fst snd]. split; [done|].
    split; [by rewrite fmap_nil, app_nil_r|]. split; [by intros ? ?%elem_of_nil|done]. }
  cbn [for_each]. unfold bind at 1 2 3 4 5. rewrite store_date_spec.
  destruct (store_date_fs self hotkey item (fs st)) as [f1 [n|e]] eqn:Hitem;
    cbn [fst snd].
  - set (st1 := mk_state f1 (log st ++ [InfoStored n hotkey item.1])).
    assert (f1 = (store_date_fs self hotkey item (fs st)).1) as Hf1 by by rewrite Hitem.
    pose proof (paths_apart items item) as Hapart.
    specialize (λ it, Hapart it Hnd Hrel).
    assert (∀ it, it ∈ items → f1 !! path it.1 = fs st !! path it.1) as Hframe.
    { intros it Hit. destruct (paths_apart items item it Hnd Hrel Hit) as [H1 H2].
      rewrite Hf1. by apply store_date_fs_frame. }
    assert (∀ it, it ∈ items →
              written self hotkey it f1 = written self hotkey it (fs st)) as Hwritten.
    { intros it Hit. apply written_local; [|by apply Hframe].
      by apply (paths_apart items item it Hnd Hrel Hit). }
    rewrite fmap_cons in Hnd. apply NoDup_cons in Hnd as [Hnotin Hnd'].
    destruct (IH st1 Hnd') as (pre & rest & -> & Hlog & Hfiles & Hend).
    { intros x Hx. apply Hrel. by right. }
    exists (item :: pre), rest. split; [done|]. split; [|split].
    + rewrite Hlog. cbn [log st1 fs]. rewrite fmap_cons, <- app_assoc. cbn [app].
      f_equal. f_equal.
      * unfold stored_record. do 2 f_equal.
        assert ((store_date_fs self hotkey item (fs st)).2 = Ok n) as Hn by by rewrite Hitem.
        apply store_date_fs_ok in Hn as (_ & last & _ & _ & -> & ->). done.
      * apply list_fmap_ext. intros i it Hit. unfold stored_record.
        rewrite Hwritten; [done|]. apply elem_of_app. left.
        by eapply list_elem_of_lookup_2.
    + intros it [->|Hit]%elem_of_cons.
      * destruct (for_each_store_date self hotkey (pre ++ rest) st1) as [-> _].
        erewrite file_text_local.
        2:{ apply store_all_fs_frame.
            - intros x Hx Heq. apply log_file_path_inj in Heq;
                [|apply Hrel; by left|apply Hrel; by right].
              apply Hnotin. rewrite Heq. apply list_elem_of_fmap. by exists x.
            - apply log_file_path_ne_folder, Hrel. by left. }
        cbn [fs st1]. rewrite Hf1, store_date_fs_text. by rewrite decide_True.
      * rewrite Hfiles by done. cbn [fs st1].
        rewrite Hwritten by (apply elem_of_app; by left).
        f_equal. apply file_text_local, Hframe. apply elem_of_app. by left.
    + destruct (for_each (store_date self hotkey) (pre ++ rest) st1).2 as [u|e];
        [done|].
      destruct Hend as (item0 & post & -> & Hraise & Hfile0 & Hpost).
      assert (item0 ∈ pre ++ item0 :: post) as Hin0
        by (apply elem_of_app; right; by left).
      exists item0, post. split; [done|]. split; [|split].
      * cbn [fs st1] in Hraise. rewrite <- Hraise. symmetry.
        apply store_date_fs_result_local; [|by apply Hframe].
        by apply Hapart.
      * rewrite Hfile0. cbn [fs st1]. rewrite Hwritten by done.
        f_equal. by apply file_text_local, Hframe.
      * intros it Hit. rewrite Hpost by done. cbn [fs st1]. apply Hframe.
        apply elem_of_app. right. by right.
  - exists [], (item :: items). split; [done|]. split; [|split].
    + cbn [fmap list_fmap]. by rewrite !app_nil_r.
    + by intros it ?%elem_of_nil.
    + exists item, items. rewrite Hitem. cbn [fst snd]. split; [done|]. split; [done|].
      assert (f1 = (store_date_fs self hotkey item (fs st)).1) as Hf1 by by rewrite Hitem.
      cbn [fs]. split.
      * rewrite Hf1, store_date_fs_text. by rewrite decide_True.
      * intros it Hit. destruct (paths_apart items item it Hnd Hrel Hit) as [H1 H2].
        rewrite Hf1. by apply store_date_fs_frame.
Qed.

End second_loop_facts.

(** ** The first loop as a function of the batch *)

Section partition_facts.

Lemma elem_of_nub x l : x ∈ nub l ↔ x ∈ l.
Proof.
  induction l as [|y l IH]; [done|]. cbn [nub].
  rewrite !elem_of_cons, list_elem_of_filter, IH.
  destruct (decide (x = y)) as [->|Hne]; [by split; auto|].
  split; [intros [?|[_ ?]]; auto|intros [?|?]; auto].
Qed.

Lemma nub_snoc l x :
  nub (l ++ [x]) = if decide (x ∈ l) then nub l else nub l ++ [x].
Proof.
  induction l as [|y l IH].
  - rewrite decide_False by by intros ?%elem_of_nil. done.
  - rewrite <- app_comm_cons. cbn [nub]. rewrite IH.
    destruct (decide (x = y)) as [->|Hne].
    + rewrite (decide_True (P := y ∈ y :: l)) by by left.
      destruct (decide (y ∈ l)); [done|].
      rewrite filter_app, filter_cons, decide_False by (intros H; by apply H).
      by rewrite filter_nil, app_nil_r.
    + destruct (decide (x ∈ l)) as [Hin|Hout].
      * rewrite decide_True by by right. done.
      * rewrite decide_False by (intros [?|?]%elem_of_cons; done).
        rewrite filter_app, filter_cons, decide_True by done.
        by rewrite filter_nil, app_comm_cons.
Qed.

Lemma group_lines_dates lines : (group_lines lines).*1 = nub (dates_of lines).
Proof.
  induction lines as [|l lines IH] using rev_ind; [done|].
  rewrite group_lines_snoc, add_line_keys. unfold dates_of in *.
  rewrite fmap_app, list_fmap_singleton, nub_snoc, <- IH.
  destruct (map_has _ _) eqn:Hhas.
  - rewrite decide_True; [done|]. apply elem_of_nub. rewrite <- IH.
    by apply map_has_elem_of.
  - rewrite decide_False; [done|]. intros Hin%elem_of_nub. rewrite <- IH in Hin.
    apply map_has_elem_of in Hin. congruence.
Qed.

Lemma group_lines_eq lines :
  group_lines lines
  = (λ d, (d, stored_line <$> lines_of_date d lines)) <$> nub (dates_of lines).
Proof.
  rewrite <- group_lines_dates, <- list_fmap_compose.
  rewrite <- (list_fmap_id (group_lines lines)) at 1.
  apply Forall_fmap_ext, Forall_forall. intros [d part] Hin. cbn.
  by rewrite <- (group_lines_part _ _ _ Hin).
Qed.

Lemma map_append_concat d v (m : lines_map) :
  d ∈ m.*1 → concat (map_append d v m).*2 ≡ₚ concat m.*2 ++ [v].
Proof.
  induction m as [|[k vs] m IH]; [by intros ?%elem_of_nil|].
  rewrite fmap_cons. cbn [fst map_append]. intros Hin.
  case_bool_decide as Hk.
  - rewrite !fmap_cons. cbn [snd concat]. rewrite <- !app_assoc.
    apply Permutation_app_head, Permutation_app_comm.
  - apply elem_of_cons in Hin as [->|Hin]; [done|].
    rewrite !fmap_cons. cbn [snd concat]. rewrite <- app_assoc.
    by apply Permutation_app_head, IH.
Qed.

Lemma add_line_concat (m : lines_map) l :
  concat (add_line m l).*2 ≡ₚ concat m.*2 ++ [stored_line l].
Proof.
  unfold add_line. destruct (map_has (date_string_of l.1) m) eqn:Hhas; cbn [negb].
  - rewrite map_append_concat; [done|]. by apply map_has_elem_of.
  - rewrite map_append_concat.
    + by rewrite fmap_app, concat_app, list_fmap_singleton, app_nil_r.
    + rewrite fmap_app. apply elem_of_app. right. by left.
Qed.

Lemma group_lines_concat lines :
  concat (group_lines lines).*2 ≡ₚ stored_line <$> lines.
Proof.
  induction lines as [|l lines IH] using rev_ind; [done|].
  by rewrite group_lines_snoc, add_line_concat, IH, fmap_app.
Qed.

Lemma group_lines_not_nil lines item : item ∈ group_lines lines → item.2 ≠ [].
Proof.
  destruct item as [d part]. intros Hin. cbn [snd].
  assert (d ∈ (group_lines lines).*1) as (l & Hl & Hd)%group_lines_keys
    by (apply list_elem_of_fmap; by exists (d, part)).
  rewrite (group_lines_part _ _ _ Hin). intros Hnil%fmap_nil_inv.
  assert (l ∈ lines_of_date d lines) as Hl'
    by (apply list_elem_of_filter; by split).
  rewrite Hnil in Hl'. by apply elem_of_nil in Hl'.
Qed.

End partition_facts.

(** ** [store_logs] *)

Section store_logs_facts.

Lemma getitem_raise {V} (d : gmap string V) k e :
  getitem d k = Raise e → e = KeyError k ∧ d !! k = None.
Proof. unfold getitem. destruct (d !! k); [done|]. by intros [= <-]. Qed.

Lemma get_log_ts_and_content_raise log e :
  get_log_ts_and_content log = Raise e →
  ∃ k, k ∈ ["node"; "timestamp"; "line"] ∧ e = KeyError k.
Proof.
  unfold get_log_ts_and_content.
  destruct (getitem log "node") as [node|e1] eqn:H1.
  - destruct (getitem node "timestamp") as [ts|e2] eqn:H2.
    + destruct (getitem node "line") as [line|e3] eqn:H3; [done|].
      intros [= <-]. apply getitem_raise in H3 as [-> _].
      exists "line". split; [|done]. do 2 right. by left.
    + intros [= <-]. apply getitem_raise in H2 as [-> _].
      exists "timestamp". split; [|done]. right. by left.
  - intros [= <-]. apply getitem_raise in H1 as [-> _].
    exists "node". split; [|done]. by left.
Qed.

Lemma get_log_ts_and_content_ok log node ts line :
  log !! "node" = Some node → node !! "timestamp" = Some ts →
  node !! "line" = Some line →
  get_log_ts_and_content log = Ok (ts, line).
Proof.
  intros H1 H2 H3. unfold get_log_ts_and_content, getitem. by rewrite H1, H2, H3.
Qed.

Lemma list_comprehension_ok {A B} (f : A → result B) l ys :
  Forall2 (λ x y, f x = Ok y) l ys → list_comprehension f l = Ok ys.
Proof.
  induction 1 as [|x y l ys Hx _ IH]; [done|]. cbn [list_comprehension].
  by rewrite Hx, IH.
Qed.

Lemma list_comprehension_raise {A B} (f : A → result B) l x e :
  x ∈ l → f x = Raise e →
  ∃ x' e', x' ∈ l ∧ f x' = Raise e' ∧ list_comprehension f l = Raise e'.
Proof.
  induction l as [|y l IH]; [by intros ?%elem_of_nil|].
  intros Hin Hx. cbn [list_comprehension].
  destruct (f y) as [b|e1] eqn:Hy.
  - apply elem_of_cons in Hin as [->|Hin]; [congruence|].
    destruct (IH Hin Hx) as (x' & e' & Hx' & Hfx' & ->).
    exists x', e'. split; [by right|done].
  - exists y, e1. split; [by left|done].
Qed.

End store_logs_facts.

(** ** What a cycle changes on the disk *)

Section cycle_facts.

Context (self : crawler) (w : remote).

Lemma store_lines_frame hotkey lines st q :
  q ≠ os_path_join (store_path self) hotkey →
  (∀ l, l ∈ lines → q ≠ log_file_path self hotkey (date_string_of l.1)) →
  fs (store_lines self hotkey lines st).1 !! q = fs st !! q.
Proof.
  intros Hfolder Hfiles. destruct (store_lines_fs self hotkey lines st) as [-> _].
  apply store_all_fs_frame; [|done].
  intros [d part] Hitem. cbn [fst].
  assert (d ∈ (group_lines lines).*1) as (l & Hl & <-)%group_lines_keys
    by (apply list_elem_of_fmap; by exists (d, part)).
  by apply Hfiles.
Qed.

Lemma store_lines_extends hotkey lines st :
  extends (fs st) (fs (store_lines self hotkey lines st).1).
Proof.
  destruct (store_lines_fs self hotkey lines st) as [-> _].
  apply store_all_fs_extends.
Qed.

Lemma get_logs_fs id s : fs (get_logs self w id s).1 = fs s.
Proof.
  unfold get_logs, bind, lift, logging, raise.
  destruct (graphql_post w id) as [resp|e]; [|done]. cbn.
  by destruct (negb (status_code resp =? 200)%N).
Qed.

Lemma store_logs_cases_eq hotkey logs lines s :
  Forall2 (λ entry line,
             ∃ node, entry !! "node" = Some node ∧
                     node !! "timestamp" = Some line.1 ∧
                     node !! "line" = Some line.2) logs lines →
  store_logs self hotkey logs s = store_lines self hotkey lines s.
Proof.
  intros H. unfold store_logs, bind, lift.
  rewrite (list_comprehension_ok _ logs lines); [done|].
  eapply Forall2_impl; [exact H|].
  intros entry [ts line] (node & H1 & H2 & H3). by eapply get_log_ts_and_content_ok.
Qed.

Lemma store_lines_untouched hotkey lines st q :
  ¬ touched self hotkey lines q →
  fs (store_lines self hotkey lines st).1 !! q = fs st !! q.
Proof.
  intros Hq. apply store_lines_frame.
  - intros ->. apply Hq. by left.
  - intros l Hl ->. apply Hq. right. eauto.
Qed.

Lemma try_body_cases r s :
  fs (try_body self w r s).1 = fs s ∨
  try_body self w r s = store_lines self (hotkey_of r) (fetched_lines w r) s.
Proof.
  unfold try_body, get_logs, fetched_lines, bind, lift, logging, raise.
  destruct (graphql_post w (run_id r)) as [resp|e]; [|by left].
  destruct (status_code resp =? 200)%N; cbn [negb]; [|by left].
  destruct (edges resp) as [logs|e]; [|by left].
  unfold store_logs, bind, lift.
  destruct (list_comprehension get_log_ts_and_content logs) as [lines|e]; [|by left].
  by right.
Qed.

Lemma process_run_fs r s :
  fs (process_run self w r s).1
  = fs (try_body self w r (logging (InfoProcessing (run_id r)) s).1).1.
Proof.
  rewrite process_run_unfold. unfold bind, try_except. cbn [logging fst].
  by destruct (try_body self w r _) as [s2 [u|e]].
Qed.

Lemma process_run_cases r s :
  fs (process_run self w r s).1 = fs s ∨
  ∃ s1, fs s1 = fs s ∧
    fs (process_run self w r s).1
    = fs (store_lines self (hotkey_of r) (fetched_lines w r) s1).1.
Proof.
  rewrite process_run_fs.
  destruct (try_body_cases r (logging (InfoProcessing (run_id r)) s).1) as [H|H].
  - by left.
  - right. exists (logging (InfoProcessing (run_id r)) s).1. split; [done|]. by rewrite H.
Qed.

Lemma process_run_extends r s : extends (fs s) (fs (process_run self w r s).1).
Proof.
  destruct (process_run_cases r s) as [->|(s1 & <- & ->)].
  - apply extends_refl.
  - apply store_lines_extends.
Qed.


Lemma for_each_process_run_extends runs s :
  extends (fs s) (fs (for_each (process_run self w) runs s).1).
Proof.
  revert s. induction runs as [|r runs IH]; intros s; [apply extends_refl|].
  cbn [for_each]. unfold bind.
  pose proof (process_run_extends r s) as H1.
  pose proof (process_run_returns self w r s) as Hr.
  destruct (process_run self w r s) as [s1 [[]|e]]; [|done].
  eapply extends_trans; [exact H1|apply IH].
Qed.


End cycle_facts.

(** ** How the second loop ends *)

Section outcome_facts.

Context (self : crawler) (hotkey : string).

Local Abbreviation folder := (os_path_join (store_path self) hotkey).
Local Abbreviation path := (log_file_path self hotkey).

Lemma store_date_fs_raise item f e :
  (store_date_fs self hotkey item f).2 = Raise e →
  e = ValueError ∨ e = IsADirectoryError (path item.1).
Proof.
  unfold store_date_fs.
  pose proof (ensure_fs_file self hotkey item.1 f) as [x Hx]. rewrite Hx.
  destruct x as [|c]; cbn [snd]; [intros [= <-]; by right|].
  destruct (high_water_mark c) as [mark|e'] eqn:Hmark; cbn [snd].
  - destruct (forallb valid_ts item.2); [done|]. intros [= <-]. by left.
  - intros [= <-]. left. by eapply high_water_mark_raise.
Qed.

Lemma store_all_fs_raise items f e :
  (store_all_fs self hotkey items f).2 = Raise e →
  e = ValueError ∨ ∃ item, item ∈ items ∧ e = IsADirectoryError (path item.1).
Proof.
  revert f. induction items as [|item items IH]; intros f; [done|].
  rewrite store_all_fs_cons.
  destruct (store_date_fs self hotkey item f).2 as [n|e'] eqn:Hitem.
  - intros [->|(it & Hit & ->)]%IH; [by left|]. right. exists it. split; [by right|done].
  - cbn [snd]. intros [= <-]. apply store_date_fs_raise in Hitem as [->| ->]; [by left|].
    right. exists item. split; [by left|done].
Qed.

Lemma plain_dates_relative lines l :
  plain_dates lines = true → l ∈ lines → relative_date (date_string_of l.1).
Proof.
  unfold plain_dates. intros Hall Hl.
  rewrite forallb_forall in Hall. specialize (Hall l).
  rewrite <- list_elem_of_In in Hall. specialize (Hall Hl).
  apply andb_true_iff in Hall as [Hall _].
  apply negb_true_iff in Hall. unfold relative_date.
  destruct (date_string_of l.1) as [|c d]; [done|].
  rewrite sapp_cons. cbn [Str.startswith Str.mem] in *.
  apply orb_false_iff in Hall as [Hc _].
  unfold Str.eqb_ascii in *. rewrite Ascii.eqb_sym, Hc. done.
Qed.

End outcome_facts.

(** ** What the parser accepts *)

Section accepted_facts.

Lemma strptime_chars ts d : strptime ts = Ok d → all_chars ts_char ts = true.
Proof.
  unfold strptime, Re.match_. destruct (head (Re.pattern ts)) as [[g r]|] eqn:Hh; [|done].
  destruct r; [|done]. intros _.
  apply head_Some_elem_of in Hh.
  apply pattern_shape in Hh as (y & mid & f & -> & [Hy Hyd] & Hmid & [Hf Hfd]).
  rewrite sapp_nil_r. unfold chars in *. rewrite !all_chars_app, Hmid.
  rewrite (all_chars_impl _ _ _ digit_ts_char Hyd).
  by rewrite (all_chars_impl _ _ _ digit_ts_char Hfd).
Qed.

Lemma strptime_valid ts d : strptime ts = Ok d → valid_datetime d = true.
Proof.
  unfold strptime. destruct (Re.match_ ts) as [[g r]|]; [|done].
  destruct (negb (Str.is_empty r)); [done|].
  match goal with |- context [if ?b then _ else _] => destruct b eqn:Hb end; [|done].
  by intros [= <-].
Qed.

End accepted_facts.

(** ** Two owners *)

Section pointwise_facts.

Context (self : crawler) (hotkey : string).

Local Abbreviation folder := (os_path_join (store_path self) hotkey).
Local Abbreviation path := (log_file_path self hotkey).

Lemma written_pointwise item f g :
  f !! path item.1 = g !! path item.1 →
  written self hotkey item f = written self hotkey item g.
Proof. intros Heq. unfold written. by rewrite !ensure_fs_lookup, Heq. Qed.

Lemma store_date_fs_pointwise item f g q :
  f !! q = g !! q →
  (store_date_fs self hotkey item f).1 !! q = (store_date_fs self hotkey item g).1 !! q.
Proof.
  intros Heq. destruct (decide (q = path item.1)) as [->|Hne].
  - rewrite !store_date_fs_lookup, !ensure_fs_lookup, Heq.
    by rewrite (written_pointwise item f g Heq).
  - rewrite !store_date_fs_lookup_ne by done. by rewrite !ensure_fs_lookup, Heq.
Qed.

Lemma store_date_fs_result_pointwise item f g :
  f !! path item.1 = g !! path item.1 →
  (store_date_fs self hotkey item f).2 = (store_date_fs self hotkey item g).2.
Proof.
  intros Heq. unfold store_date_fs. rewrite !ensure_fs_lookup, Heq. 
  destruct (g !! path item.1) as [[|c]|]; [done| |].
  - by destruct (high_water_mark c).
  - destruct (decide (path item.1 = folder)); [done|].
    rewrite decide_True by done. by destruct (high_water_mark EmptyString).
Qed.

Lemma store_all_fs_pointwise items f g :
  (∀ item, item ∈ items → f !! path item.1 = g !! path item.1) →
  (store_all_fs self hotkey items f).2 = (store_all_fs self hotkey items g).2 ∧
  ∀ q, f !! q = g !! q →
       (store_all_fs self hotkey items f).1 !! q
       = (store_all_fs self hotkey items g).1 !! q.
Proof.
  revert f g. induction items as [|item items IH]; intros f g Hagree; [done|].
  rewrite !store_all_fs_cons.
  rewrite (store_date_fs_result_pointwise item f g) by (apply Hagree; by left).
  destruct (store_date_fs self hotkey item g).2 as [n|e].
  - destruct (IH (store_date_fs self hotkey item f).1 (store_date_fs self hotkey item g).1)
      as [Hres Hq].
    { intros it Hit. apply store_date_fs_pointwise, Hagree. by right. }
    split; [done|]. intros q Hfg. by apply Hq, store_date_fs_pointwise.
  - split; [done|]. intros q Hq. by apply store_date_fs_pointwise.
Qed.

End pointwise_facts.

Section two_owners_facts.

Context (self : crawler).

Lemma touched_dec hotkey lines q :
  touched self hotkey lines q ∨ ¬ touched self hotkey lines q.
Proof.
  unfold touched.
  destruct (decide (q = os_path_join (store_path self) hotkey)) as [?|Hf]; [by left; left|].
  destruct (decide (Exists (λ l, q = log_file_path self hotkey (date_string_of l.1)) lines))
    as [He|He].
  - left. right. apply Exists_exists in He as (l & ? & ?). eauto.
  - right. intros [?|(l & ? & ?)]; [done|]. apply He, Exists_exists. eauto.
Qed.

Lemma store_lines_pointwise hotkey lines s1 s2 :
  (∀ q, touched self hotkey lines q → fs s1 !! q = fs s2 !! q) →
  (store_lines self hotkey lines s1).2 = (store_lines self hotkey lines s2).2 ∧
  ∀ q, fs s1 !! q = fs s2 !! q →
       fs (store_lines self hotkey lines s1).1 !! q
       = fs (store_lines self hotkey lines s2).1 !! q.
Proof.
  intros Hagree.
  destruct (store_lines_fs self hotkey lines s1) as [-> ->].
  destruct (store_lines_fs self hotkey lines s2) as [-> ->].
  apply store_all_fs_pointwise. intros [d part] Hitem. cbn [fst].
  assert (d ∈ (group_lines lines).*1) as (l & Hl & <-)%group_lines_keys
    by (apply list_elem_of_fmap; by exists (d, part)).
  apply Hagree. right. eauto.
Qed.

Lemma sapp_sep_inj c a b x y :
  Str.mem c a = false → Str.mem c b = false →
  a +:+ String c x = b +:+ String c y → a = b.
Proof.
  revert b. induction a as [|u a IH]; intros [|v b] Ha Hb E; [done| | |].
  - rewrite sapp_nil_l, sapp_cons in E. injection E as <- _.
    cbn [Str.mem] in Hb. by rewrite eqb_ascii_refl in Hb.
  - rewrite sapp_nil_l, sapp_cons in E. injection E as -> _.
    cbn [Str.mem] in Ha. by rewrite eqb_ascii_refl in Ha.
  - rewrite !sapp_cons in E. injection E as -> E.
    cbn [Str.mem] in Ha, Hb.
    apply orb_false_iff in Ha as [_ Ha]. apply orb_false_iff in Hb as [_ Hb].
    f_equal. by apply IH.
Qed.

Lemma plain_name_spec k :
  plain_name k = true → k ≠ EmptyString ∧ Str.mem "/" k = false.
Proof.
  unfold plain_name. rewrite !andb_true_iff, !negb_true_iff.
  intros ((((Hne & Hslash) & _) & _) & _). split; [by destruct k|done].
Qed.

Lemma plain_name_startswith k :
  plain_name k = true → Str.startswith (String "/" EmptyString) k = false.
Proof.
  intros [Hne Hslash]%plain_name_spec. destruct k as [|c k]; [done|].
  cbn [Str.startswith Str.mem] in *. apply orb_false_iff in Hslash as [Hc _].
  unfold Str.eqb_ascii in *. by rewrite Ascii.eqb_sym, Hc.
Qed.

Lemma plain_name_endswith k :
  plain_name k = true → Str.endswith_char "/" k = false.
Proof.
  intros [Hne Hslash]%plain_name_spec.
  induction k as [|c k IH]; [done|]. cbn [Str.mem] in Hslash.
  apply orb_false_iff in Hslash as [Hc Hk]. destruct k as [|c' k]; [done|].
  rewrite endswith_char_cons by done. by apply IH.
Qed.

Lemma folder_plain hotkey :
  plain_name hotkey = true →
  os_path_join (store_path self) hotkey = root_prefix self +:+ hotkey.
Proof.
  intros Hk. unfold os_path_join, root_prefix. rewrite (plain_name_startswith _ Hk).
  destruct (_ || _); [done|]. by rewrite sapp_assoc.
Qed.

Lemma file_plain hotkey d :
  plain_name hotkey = true → relative_date d →
  log_file_path self hotkey d
  = root_prefix self +:+ hotkey +:+ String "/" (d +:+ ".log").
Proof.
  intros Hk Hd. rewrite (log_file_path_relative self hotkey d Hd).
  unfold folder_prefix. rewrite (folder_plain _ Hk).
  destruct (plain_name_spec _ Hk) as [Hne _].
  assert (Str.is_empty (root_prefix self +:+ hotkey) = false) as ->.
  { destruct (root_prefix self +:+ hotkey) eqn:E; [|done].
    by apply sapp_eq_nil in E as [_ ?]. }
  rewrite endswith_char_app, (plain_name_endswith _ Hk) by done.
  cbn [orb]. by rewrite !sapp_assoc.
Qed.

Lemma touched_apart hotkey1 hotkey2 lines1 lines2 q :
  plain_name hotkey1 = true → plain_name hotkey2 = true → hotkey1 ≠ hotkey2 →
  plain_dates lines1 = true → plain_dates lines2 = true →
  touched self hotkey1 lines1 q → ¬ touched self hotkey2 lines2 q.
Proof.
  intros Hk1 Hk2 Hne Hd1 Hd2.
  destruct (plain_name_spec _ Hk1) as [_ Hs1].
  destruct (plain_name_spec _ Hk2) as [_ Hs2].
  intros [->|(l1 & Hl1 & ->)] [H|(l2 & Hl2 & H)]; revert H;
    rewrite ?(folder_plain _ Hk1), ?(folder_plain _ Hk2);
    try rewrite (file_plain _ _ Hk1 (plain_dates_relative _ _ Hd1 Hl1));
    try rewrite (file_plain _ _ Hk2 (plain_dates_relative _ _ Hd2 Hl2));
    intros H%(inj (String.app _)).
  - done.
  - assert (Str.mem "/" hotkey1 = true) as Hm; [|congruence].
    rewrite H, mem_app. cbn [Str.mem]. rewrite eqb_ascii_refl. apply orb_true_r.
  - assert (Str.mem "/" hotkey2 = true) as Hm; [|congruence].
    rewrite <- H, mem_app. cbn [Str.mem]. rewrite eqb_ascii_refl. apply orb_true_r.
  - by apply sapp_sep_inj in H.
Qed.

End two_owners_facts.

(** * Further properties of the code *)

(** ** [DatatimeHandler] *)

(** X1. A timestamp [get_datetime_from_ts_str] accepts is read back by
    [get_datetime_from_log] with the same value from any text that has it
    first: alone or followed by a ['|'] and anything, with any white space
    around it; so from the line [store_lines] writes for it, whatever the
    content. *)
Theorem get_datetime_from_log_reads_timestamp
    (ts a b rest : string) (d : datetime) :
  DatatimeHandler.get_datetime_from_ts_str ts = Ok d →
  all_chars Str.is_space a = true →
  all_chars Str.is_space b = true →
  DatatimeHandler.get_datetime_from_log (a +:+ ts +:+ b) = Ok d ∧
  DatatimeHandler.get_datetime_from_log (a +:+ ts +:+ b +:+ String "|" rest) = Ok d ∧
  ∀ content, DatatimeHandler.get_datetime_from_log (format_line ts content) = Ok d.
Proof.
  unfold DatatimeHandler.get_datetime_from_ts_str. intros Hd Ha Hb.
  pose proof (strptime_shape _ _ Hd) as Hs.
  split; [by rewrite get_datetime_from_log_spaces|].
  split; [by rewrite get_datetime_from_log_spaces_pipe|].
  intros content. unfold format_line. by rewrite get_datetime_from_log_format.
Qed.

(** A timestamp between two blanks and a tab, before a ['|']. *)
Lemma get_datetime_from_log_reads_timestamp_witness :
  DatatimeHandler.get_datetime_from_log
    ("  " +:+ "2024-01-01T10:00:00.5" +:+ String "009" EmptyString +:+ String "|" "x|y")
  = Ok (mk_datetime 2024 1 1 10 0 0 500000).
Proof.
  destruct (get_datetime_from_log_reads_timestamp "2024-01-01T10:00:00.5" "  "
    (String "009" EmptyString) "x|y" (mk_datetime 2024 1 1 10 0 0 500000))
    as (_ & H & _).
  - vm_compute. reflexivity.
  - reflexivity.
  - reflexivity.
  - exact H.
Defined.

(** X2. The timestamp of a valid date and time written at full width, four
    digits of year, two of month, day, hour, minute and second and six of
    microsecond, is accepted by [get_datetime_from_ts_str], which returns
    that date and time. *)
Theorem get_datetime_from_ts_str_full_width (d : datetime) :
  valid_datetime d = true →
  DatatimeHandler.get_datetime_from_ts_str (timestamp_text d) = Ok d.
Proof. apply strptime_timestamp_text. Qed.

(** The last microsecond of a leap day. *)
Lemma get_datetime_from_ts_str_full_width_witness :
  DatatimeHandler.get_datetime_from_ts_str "2024-02-29T23:59:59.999999"
  = Ok (mk_datetime 2024 2 29 23 59 59 999999).
Proof.
  apply (get_datetime_from_ts_str_full_width (mk_datetime 2024 2 29 23 59 59 999999)).
  vm_compute. reflexivity.
Defined.

(** X3. A line whose timestamp is written at full width is filed under
    [YYYY-MM-DD], the calendar date of its timestamp, and two such lines of
    one owner go to the same file exactly when their timestamps have the
    same year, month and day. *)
Theorem full_width_timestamps_filed_by_date
    (self : crawler) (hotkey : string) (d1 d2 : datetime) :
  valid_datetime d1 = true →
  valid_datetime d2 = true →
  date_string_of (timestamp_text d1) = date_text d1 ∧
  (log_file_path self hotkey (date_string_of (timestamp_text d1))
   = log_file_path self hotkey (date_string_of (timestamp_text d2))
   ↔ year d1 = year d2 ∧ month d1 = month d2 ∧ day d1 = day d2).
Proof.
  intros H1 H2. split; [apply date_string_of_timestamp_text|]. split.
  - intros Heq. apply log_file_path_inj in Heq.
    + rewrite !date_string_of_timestamp_text in Heq. by apply date_text_inj.
    + by apply (relative_date_valid _ d1), strptime_timestamp_text.
    + by apply (relative_date_valid _ d2), strptime_timestamp_text.
  - intros (Hy & Hm & Hd). rewrite !date_string_of_timestamp_text.
    unfold date_text. by rewrite Hy, Hm, Hd.
Qed.

(** Two lines of 2024-03-05, at different times of the day. *)
Lemma full_width_timestamps_filed_by_date_witness :
  date_string_of "2024-03-05T01:02:03.000004" = "2024-03-05" ∧
  log_file_path sample_crawler "hk" (date_string_of "2024-03-05T01:02:03.000004")
  = log_file_path sample_crawler "hk" (date_string_of "2024-03-05T23:00:00.000000").
Proof.
  destruct (full_width_timestamps_filed_by_date sample_crawler "hk"
    (mk_datetime 2024 3 5 1 2 3 4) (mk_datetime 2024 3 5 23 0 0 0)) as [H1 H2].
  - vm_compute. reflexivity.
  - vm_compute. reflexivity.
  - split; [exact H1|]. apply H2. done.
Defined.

(** ** The constructor *)



(** ** Reading the high-water mark *)



(** ** [store_lines] and the high-water mark *)

(** X6. After a call of [store_lines] that returns, for a batch whose
    contents have no line break and a date file that was absent, empty or
    ended with a line terminator, [get_last_store_line_datetime] returns the
    mark the file had when the call appended nothing to it, and otherwise
    the timestamp of the last line the call appended, which is strictly
    later than the mark the file had. *)
Theorem store_lines_sets_high_water_mark
    (self : crawler) (hotkey : string) (lines : list (string * string))
    (st st' : state) (d : string) (mark : option datetime) :
  store_lines self hotkey lines st = (st', Ok tt) →
  batch_clean lines = true →
  (∃ l, l ∈ lines ∧ date_string_of l.1 = d) →
  terminated (file_text (fs st) (log_file_path self hotkey d)) = true →
  high_water_mark (file_text (fs st) (log_file_path self hotkey d)) = Ok mark →
  let appended := new_lines mark (stored_line <$> lines_of_date d lines) in
  fs st' !! log_file_path self hotkey d
    = Some (File (file_text (fs st) (log_file_path self hotkey d)
                  +:+ lines_text appended)) ∧
  (appended = [] →
   get_last_store_line_datetime self d hotkey st' = (st', Ok mark)) ∧
  (∀ before l,
     appended = before ++ [l] →
     ∃ t, DatatimeHandler.get_datetime_from_ts_str l.1 = Ok t ∧
          get_last_store_line_datetime self d hotkey st' = (st', Ok (Some t)) ∧
          ∀ T, mark = Some T → datetime_lt T t = true).
Proof.
  intros Hrun Hclean Hd Hterm Hmark appended.
  destruct (store_lines_ok self hotkey _ _ _ _ Hrun Hd) as (mark' & Hmark' & Hfile).
  rewrite Hmark in Hmark'. injection Hmark' as <-. fold appended in Hfile.
  split; [done|]. rewrite get_last_store_line_datetime_spec, Hfile. split.
  - intros ->. by rewrite sapp_nil_r, Hmark.
  - intros before l Happ. rewrite Happ.
    destruct Hd as (l0 & Hl0 & Hd0).
    assert (∀ x, x ∈ before ++ [l] → valid_ts x = true ∧ no_linebreak x.2 = true)
      as Hgood.
    { intros x Hx. rewrite <- Happ in Hx.
      apply elem_of_new_lines in Hx as [Hx Hnew]. split; [by eapply is_new_valid|].
      eapply (batch_clean_item lines (d, _)); [done| |exact Hx].
      rewrite <- Hd0. by apply group_lines_lookup. }
    destruct (high_water_mark_app _ before l Hterm Hgood) as (t & Ht & ->).
    exists t. split; [done|]. split; [done|].
    intros T ->.
    assert (l ∈ appended) as Hl by (rewrite Happ; apply elem_of_app; right; by left).
    apply elem_of_new_lines in Hl as [_ Hnew]. unfold is_new in Hnew.
    rewrite Ht in Hnew. cbn [already_stored] in Hnew.
    by rewrite datetime_lt_not_le.
Qed.

(** [sample_batch] against [sample_state]: the line of 10:00:09 is appended
    and becomes the mark. *)
Lemma store_lines_sets_high_water_mark_witness :
  get_last_store_line_datetime sample_crawler "2024-01-01" "hk"
    (store_lines sample_crawler "hk" sample_batch sample_state).1
  = ((store_lines sample_crawler "hk" sample_batch sample_state).1,
     Ok (Some (mk_datetime 2024 1 1 10 0 9 0))).
Proof.
  destruct (store_lines_sets_high_water_mark sample_crawler "hk" sample_batch
    sample_state (store_lines sample_crawler "hk" sample_batch sample_state).1
    "2024-01-01" (Some (mk_datetime 2024 1 1 10 0 5 0))) as (_ & _ & H).
  - vm_compute. reflexivity.
  - vm_compute. reflexivity.
  - exists ("2024-01-01T10:00:01.000000", "a"). split; [|reflexivity].
    apply list_elem_of_In. simpl. auto.
  - vm_compute. reflexivity.
  - vm_compute. reflexivity.
  - destruct (H [] ("2024-01-01T10:00:09.000000", "b")) as (t & Ht & Hget & _).
    + vm_compute. reflexivity.
    + vm_compute in Ht. injection Ht as <-. exact Hget.
Defined.

(** X7. A call of [store_lines] that returns, for a batch whose contents
    have no line break, keeps a date file of the owner in a state the next
    call can work with: when the entry at its path did not stand in the way
    before (none, or a file whose last line parses) and the text was empty
    or ended with a line terminator, the same holds afterwards. *)
Theorem store_lines_keeps_files_readable
    (self : crawler) (hotkey : string) (lines : list (string * string))
    (st st' : state) (d : string) :
  store_lines self hotkey lines st = (st', Ok tt) →
  batch_clean lines = true →
  relative_date d →
  file_ready (fs st) (log_file_path self hotkey d) →
  terminated (file_text (fs st) (log_file_path self hotkey d)) = true →
  file_ready (fs st') (log_file_path self hotkey d) ∧
  terminated (file_text (fs st') (log_file_path self hotkey d)) = true.
Proof.
  intros Hrun Hclean Hrel Hready Hterm.
  destruct (decide (d ∈ dates_of lines)) as [Hin|Hout].
  - apply list_elem_of_fmap in Hin as (l0 & Hd0 & Hl0). symmetry in Hd0.
    destruct (store_lines_ok self hotkey _ _ _ _ Hrun (ex_intro _ l0 (conj Hl0 Hd0)))
      as (mark & Hmark & Hfile).
    unfold file_ready, file_text at 1. rewrite Hfile.
    split; [|by apply terminated_app_text].
    destruct (new_lines mark (stored_line <$> lines_of_date d lines))
      as [|x W _] eqn:HW using rev_ind.
    + by rewrite sapp_nil_r, Hmark.
    + assert (∀ y, y ∈ W ++ [x] → valid_ts y = true ∧ no_linebreak y.2 = true)
        as Hgood.
      { intros y Hy. rewrite <- HW in Hy.
        apply elem_of_new_lines in Hy as [Hy Hnew]. split; [by eapply is_new_valid|].
        eapply (batch_clean_item lines (d, _)); [done| |exact Hy].
        rewrite <- Hd0. by apply group_lines_lookup. }
      by destruct (high_water_mark_app _ W x Hterm Hgood) as (t & _ & ->).
  - assert (fs st' !! log_file_path self hotkey d
            = fs st !! log_file_path self hotkey d) as Hsame.
    { replace st' with (store_lines self hotkey lines st).1 by by rewrite Hrun.
      apply store_lines_frame; [by apply log_file_path_ne_folder|].
      intros l Hl Heq. apply log_file_path_inj in Heq; [|done|].
      - apply Hout. rewrite Heq. apply list_elem_of_fmap. by exists l.
      - pose proof (store_lines_ok_valid self hotkey _ _ _ Hrun l Hl) as Hv.
        unfold valid_ts in Hv. destruct (strptime l.1) as [t|] eqn:Ht; [|done].
        by eapply relative_date_valid. }
    unfold file_ready, file_text in *. by rewrite Hsame.
Qed.

(** [sample_batch] against [sample_state]: the file can be read again. *)
Lemma store_lines_keeps_files_readable_witness :
  file_ready (fs (store_lines sample_crawler "hk" sample_batch sample_state).1)
    "wandb_logs/hk/2024-01-01.log".
Proof.
  destruct (store_lines_keeps_files_readable sample_crawler "hk" sample_batch
    sample_state (store_lines sample_crawler "hk" sample_batch sample_state).1
    "2024-01-01") as [H _].
  - vm_compute. reflexivity.
  - vm_compute. reflexivity.
  - vm_compute. reflexivity.
  - vm_compute. reflexivity.
  - vm_compute. reflexivity.
  - exact H.
Defined.

(** ** When [store_lines] returns and when it raises *)

(** X8. On a disk whose store root is a directory, for an owner key that
    is a plain name with no file at the path of its folder, [store_lines]
    returns exactly when every timestamp of the batch is accepted by
    [get_datetime_from_ts_str] and no entry stands in the way at the path of
    the file of a date of the batch: there is none, or it is a file that is
    empty or whose last line [get_datetime_from_log] reads. *)
Theorem store_lines_returns_iff
    (self : crawler) (hotkey : string) (lines : list (string * string))
    (st : state) :
  store_ready self hotkey (fs st) = true →
  (store_lines self hotkey lines st).2 = Ok tt ↔
  ∀ l, l ∈ lines →
    is_ok (DatatimeHandler.get_datetime_from_ts_str l.1) = true ∧
    file_ready (fs st) (log_file_path self hotkey (date_string_of l.1)).
Proof.
  intros _. split.
  - destruct (store_lines self hotkey lines st) as [st' r] eqn:Hrun.
    cbn [snd]. intros ->. intros l Hl.
    split; [by apply (store_lines_ok_valid self hotkey _ _ _ Hrun)|].
    destruct (store_lines_ok self hotkey _ _ _ (date_string_of l.1) Hrun)
      as (mark & Hmark & Hfile); [by exists l|].
    pose proof (store_lines_extends self hotkey lines st
                  (log_file_path self hotkey (date_string_of l.1))) as Hext.
    rewrite Hrun in Hext. cbn [fst] in Hext.
    unfold file_ready. unfold file_text in Hmark.
    destruct (fs st !! log_file_path self hotkey (date_string_of l.1)) as [[|c]|];
      [congruence| |done].
    by rewrite Hmark.
  - intros H. apply store_lines_returns; intros l Hl; by apply H.
Qed.

(** [sample_batch] against [sample_store]. *)
Lemma store_lines_returns_iff_witness :
  (store_lines sample_crawler "hk" sample_batch sample_store).2 = Ok tt.
Proof.
  apply store_lines_returns_iff; [vm_compute; reflexivity|].
  intros l Hl. apply list_elem_of_In in Hl. simpl in Hl.
  destruct Hl as [<-|[<-|[<-|[]]]]; split; vm_compute; reflexivity.
Defined.

(** X9. On a disk whose store root is a directory, for an owner key that
    is a plain name with no file at the path of its folder, and a batch
    whose dates have neither ['/'] nor the null character, the only
    exceptions [store_lines] raises are [ValueError], from a timestamp of the
    batch or the last line of a file, and [IsADirectoryError] for the path
    of the file of a date of the batch. *)
Theorem store_lines_raises_only
    (self : crawler) (hotkey : string) (lines : list (string * string))
    (st : state) (e : exn) :
  store_ready self hotkey (fs st) = true →
  plain_dates lines = true →
  (store_lines self hotkey lines st).2 = Raise e →
  e = ValueError ∨
  ∃ l, l ∈ lines ∧
       e = IsADirectoryError (log_file_path self hotkey (date_string_of l.1)).
Proof.
  intros _ _. destruct (store_lines_fs self hotkey lines st) as [_ ->].
  intros [->|([d part] & Hitem & ->)]%store_all_fs_raise; [by left|]. right.
  assert (d ∈ (group_lines lines).*1) as (l & Hl & <-)%group_lines_keys
    by (apply list_elem_of_fmap; by exists (d, part)).
  by exists l.
Qed.

(** A directory at the path of the file of 2024-01-01. *)
Lemma store_lines_raises_only_witness :
  (store_lines sample_crawler "hk" sample_batch sample_store_blocked).2
  = Raise (IsADirectoryError "wandb_logs/hk/2024-01-01.log").
Proof.
  destruct (store_lines_raises_only sample_crawler "hk" sample_batch
    sample_store_blocked
    (IsADirectoryError "wandb_logs/hk/2024-01-01.log")) as [H|H].
  - vm_compute. reflexivity.
  - vm_compute. reflexivity.
  - vm_compute. reflexivity.
  - discriminate H.
  - vm_compute. reflexivity.
Defined.

(** X10. The dates of a batch are worked through in the order of their
    first line, and an exception ends the call at the date it comes from.
    On a disk whose store root is a directory, for an owner key that is a
    plain name with no file at the path of its folder, and a batch whose
    dates have neither ['/'] nor the null character: the dates before that
    one are stored and logged in full; the file of that date has received
    the new lines that come before the first timestamp that is not
    accepted, and nothing is logged for it; the files of the dates after it
    are as they were.  The exception is the one the body of the loop raises
    for that date on the disk of the start. *)
Theorem store_lines_stops_at_first_failure
    (self : crawler) (hotkey : string) (lines : list (string * string))
    (st st' : state) (e : exn) :
  store_ready self hotkey (fs st) = true →
  plain_dates lines = true →
  store_lines self hotkey lines st = (st', Raise e) →
  ∃ pre item post,
    group_lines lines = pre ++ item :: post ∧
    (store_date self hotkey item st).2 = Raise e ∧
    log st' = log st ++ (stored_record self hotkey (fs st) <$> pre) ∧
    (∀ it, it ∈ pre ∨ it = item →
       file_text (fs st') (log_file_path self hotkey it.1)
       = file_text (fs st) (log_file_path self hotkey it.1)
         +:+ lines_text (written self hotkey it (fs st))) ∧
    (∀ it, it ∈ post →
       fs st' !! log_file_path self hotkey it.1
       = fs st !! log_file_path self hotkey it.1).
Proof.
  intros _ Hplain Hrun.
  destruct (for_each_store_date_split self hotkey (group_lines lines) st)
    as (pre & rest & Hsplit & Hlog & Hfiles & Hend).
  { apply group_lines_NoDup. }
  { intros [d part] Hitem. cbn [fst].
    assert (d ∈ (group_lines lines).*1) as (l & Hl & <-)%group_lines_keys
      by (apply list_elem_of_fmap; by exists (d, part)).
    by eapply plain_dates_relative. }
  unfold store_lines in Hrun. rewrite Hrun in Hlog, Hfiles, Hend.
  cbn [fst snd] in *.
  destruct Hend as (item & post & -> & Hraise & Hfile & Hpost).
  exists pre, item, post. split; [done|]. split.
  { rewrite store_date_spec. cbn [snd]. by rewrite Hraise. }
  split; [done|]. split; [|done].
  intros it [Hit| ->]; [by apply Hfiles|done].
Qed.

(** Two dates against the disk the constructor leaves, the second line of
    the first date with a timestamp that is not accepted: the first line is
    stored, the second date is not reached. *)
Lemma store_lines_stops_at_first_failure_witness :
  ∃ st',
    store_lines sample_crawler "hk"
      [("2024-01-01T10:00:01.000000", "a"); ("2024-01-02T10:00:00.000000", "b");
       ("2024-01-01T25:00:00.000000", "c")] sample_root
    = (st', Raise ValueError) ∧
    file_text (fs st') "wandb_logs/hk/2024-01-01.log"
    = format_line "2024-01-01T10:00:01.000000" "a" ∧
    fs st' !! "wandb_logs/hk/2024-01-02.log" = None ∧
    log st' = [].
Proof.
  set (lines := [("2024-01-01T10:00:01.000000", "a");
                 ("2024-01-02T10:00:00.000000", "b");
                 ("2024-01-01T25:00:00.000000", "c")]).
  set (st' := (store_lines sample_crawler "hk" lines sample_root).1).
  destruct (store_lines_stops_at_first_failure sample_crawler "hk" lines
    sample_root st' ValueError) as (pre & item & post & Hg & _ & Hlog & Hfiles & Hpost).
  - vm_compute. reflexivity.
  - vm_compute. reflexivity.
  - vm_compute. reflexivity.
  - exists st'. split; [vm_compute; reflexivity|].
    vm_compute in Hg. destruct pre as [|x pre].
    + injection Hg as <- <-. split.
      * etrans; [exact (Hfiles _ (or_intror eq_refl))|]. vm_compute. reflexivity.
      * split; [|exact Hlog].
        etrans; [exact (Hpost _ (list_elem_of_here _ _))|]. vm_compute. reflexivity.
    + exfalso. destruct pre as [|y pre].
      * assert (log st' = []) as Hnil by (vm_compute; reflexivity).
        rewrite Hnil in Hlog. discriminate Hlog.
      * injection Hg as _ _ Hg. destruct pre; discriminate Hg.
Defined.

(** X11. When [store_lines] returns, it has logged one record for each date
    of the batch, in the order of the first lines of the dates, and the
    count in the record of a date is the number of lines the call appended
    to the file of that date. *)
Theorem store_lines_logs_counts
    (self : crawler) (hotkey : string) (lines : list (string * string))
    (st st' : state) :
  store_lines self hotkey lines st = (st', Ok tt) →
  (group_lines lines).*1 = nub (dates_of lines) ∧
  log st' = log st ++ (stored_record self hotkey (fs st) <$> group_lines lines) ∧
  ∀ item, item ∈ group_lines lines →
    fs st' !! log_file_path self hotkey item.1
    = Some (File (file_text (fs st) (log_file_path self hotkey item.1)
                  +:+ lines_text (written self hotkey item (fs st)))).
Proof.
  intros Hrun. split; [apply group_lines_dates|].
  pose proof (store_lines_ok_valid self hotkey _ _ _ Hrun) as Hv.
  destruct (for_each_store_date_split self hotkey (group_lines lines) st)
    as (pre & rest & Hsplit & Hlog & Hfiles & Hend).
  { apply group_lines_NoDup. }
  { by apply group_lines_relative. }
  pose proof Hrun as Hrun'. unfold store_lines in Hrun'.
  rewrite Hrun' in Hlog, Hfiles, Hend. cbn [fst snd] in *.
  subst rest. rewrite app_nil_r in Hsplit. subst pre. split; [done|].
  intros [d part] Hitem.
  assert (d ∈ (group_lines lines).*1) as Hd
    by (apply list_elem_of_fmap; by exists (d, part)).
  apply group_lines_keys in Hd.
  destruct (store_lines_ok self hotkey _ _ _ d Hrun Hd) as (mark & _ & Hfile).
  cbn [fst]. rewrite Hfile. do 2 f_equal.
  specialize (Hfiles _ Hitem). cbn [fst] in Hfiles.
  unfold file_text at 1 in Hfiles. by rewrite Hfile in Hfiles.
Qed.

(** [sample_batch_two_dates] against [sample_state]: nothing new for the
    first date, one line for the second. *)
Lemma store_lines_logs_counts_witness :
  log (store_lines sample_crawler "hk" sample_batch_two_dates sample_state).1
  = [InfoStored 0 "hk" "2024-01-01"; InfoStored 1 "hk" "2024-01-02"].
Proof.
  destruct (store_lines_logs_counts sample_crawler "hk" sample_batch_two_dates
    sample_state
    (store_lines sample_crawler "hk" sample_batch_two_dates sample_state).1)
    as (_ & H & _).
  - vm_compute. reflexivity.
  - etrans; [exact H|]. vm_compute. reflexivity.
Defined.

(** X12. The first loop of [store_lines] is a partition of the batch: the
    dates are those of the lines, each once, in the order of their first
    line; the entry of a date holds the lines of that date, with the content
    as rewritten, in the order received; no entry is empty, and together the
    entries hold every line of the batch once. *)
Theorem group_lines_partitions_batch (lines : list (string * string)) :
  group_lines lines
  = (λ d, (d, stored_line <$> lines_of_date d lines)) <$> nub (dates_of lines) ∧
  (∀ item, item ∈ group_lines lines → item.2 ≠ []) ∧
  concat (group_lines lines).*2 ≡ₚ stored_line <$> lines.
Proof.
  split; [apply group_lines_eq|]. split; [apply group_lines_not_nil|].
  apply group_lines_concat.
Qed.

(** Three lines of two dates, the dates interleaved. *)
Lemma group_lines_partitions_batch_witness :
  group_lines [("2024-01-02T10:00:00.000000", "b"); ("2024-01-01T10:00:01.000000", "a");
               ("2024-01-02T09:00:00.000000", "INFO | c")]
  = [("2024-01-02", [("2024-01-02T10:00:00.000000", "b");
                     ("2024-01-02T09:00:00.000000", " c")]);
     ("2024-01-01", [("2024-01-01T10:00:01.000000", "a")])].
Proof.
  destruct (group_lines_partitions_batch
    [("2024-01-02T10:00:00.000000", "b"); ("2024-01-01T10:00:01.000000", "a");
     ("2024-01-02T09:00:00.000000", "INFO | c")]) as [H _].
  etrans; [exact H|]. vm_compute. reflexivity.
Defined.



(** ** [store_logs] *)

(** X14. When an entry of the fetched logs has no ["node"], or its node no
    ["timestamp"] or no ["line"], [store_logs] raises the [KeyError] of a
    missing key before anything is stored: the disk and the log are as they
    were, whatever the other entries are. *)
Theorem store_logs_malformed_entry
    (self : crawler) (hotkey : string)
    (logs : list (gmap string (gmap string string)))
    (entry : gmap string (gmap string string)) (e : exn) (st : state) :
  entry ∈ logs →
  get_log_ts_and_content entry = Raise e →
  ∃ k, k ∈ ["node"; "timestamp"; "line"] ∧
       store_logs self hotkey logs st = (st, Raise (KeyError k)).
Proof.
  intros Hin He.
  destruct (list_comprehension_raise _ _ _ _ Hin He) as (x & e' & _ & Hx & Hall).
  apply get_log_ts_and_content_raise in Hx as (k & Hk & ->).
  exists k. split; [done|]. unfold store_logs, bind, lift. by rewrite Hall.
Qed.

(** Two entries, the second without ["line"]: the first is not stored. *)
Lemma store_logs_malformed_entry_witness :
  ∃ k,
    store_logs sample_crawler "hk"
      [ {[ "node" := {[ "timestamp" := "2024-01-01T10:00:00.000000";
                        "line" := "hello" ]} ]};
        {[ "node" := {[ "timestamp" := "2024-01-01T10:00:01.000000" ]} ]} ]
      empty_state
    = (empty_state, Raise (KeyError k)).
Proof.
  destruct (store_logs_malformed_entry sample_crawler "hk"
    [ {[ "node" := {[ "timestamp" := "2024-01-01T10:00:00.000000";
                      "line" := "hello" ]} ]};
      {[ "node" := {[ "timestamp" := "2024-01-01T10:00:01.000000" ]} ]} ]
    {[ "node" := {[ "timestamp" := "2024-01-01T10:00:01.000000" ]} ]}
    (KeyError "line") empty_state) as (k & _ & H).
  - right. left.
  - vm_compute. reflexivity.
  - exists k. exact H.
Defined.

(** X15. When every entry of the fetched logs has a node with a timestamp
    and a line, [store_logs] is [store_lines] on the pairs of timestamp and
    line, in the order of the entries; what else an entry or its node holds
    makes no difference. *)
Theorem store_logs_well_formed
    (self : crawler) (hotkey : string)
    (logs : list (gmap string (gmap string string)))
    (lines : list (string * string)) (st : state) :
  Forall2 (λ entry line,
             ∃ node, entry !! "node" = Some node ∧
                     node !! "timestamp" = Some line.1 ∧
                     node !! "line" = Some line.2) logs lines →
  store_logs self hotkey logs st = store_lines self hotkey lines st.
Proof.
  apply store_logs_cases_eq.
Qed.

(** An entry with a level and a label besides the timestamp and the
    line. *)
Lemma store_logs_well_formed_witness :
  store_logs sample_crawler "hk"
    [ {[ "node" := {[ "timestamp" := "2024-01-01T10:00:00.000000";
                      "line" := "hello"; "level" := "info"; "label" := "x" ]};
         "__typename" := ∅ ]} ]
    empty_state
  = store_lines sample_crawler "hk" [("2024-01-01T10:00:00.000000", "hello")]
      empty_state.
Proof.
  apply store_logs_well_formed. constructor; [|constructor].
  eexists. split; [reflexivity|]. split; reflexivity.
Defined.

(** ** One run and one cycle *)

(** X16. When the request for the log lines of a run is answered with
    status 200 and well-formed entries, the loop body of [execute] leaves the
    disk [store_lines] leaves for those lines under the run's owner key,
    which is the ["hotkey"] of its configuration or, without one, the run's
    id; the body returns, and an exception of [store_lines] is logged with
    the run's id. *)
Theorem process_run_stores_fetched_lines
    (self : crawler) (w : remote) (r : run) (s : state) (resp : response)
    (logs : list (gmap string (gmap string string)))
    (lines : list (string * string)) :
  graphql_post w (run_id r) = Ok resp →
  status_code resp = 200%N →
  edges resp = Ok logs →
  Forall2 (λ entry line,
             ∃ node, entry !! "node" = Some node ∧
                     node !! "timestamp" = Some line.1 ∧
                     node !! "line" = Some line.2) logs lines →
  let hotkey := match run_config r !! "hotkey" with
                | Some h => h
                | None => run_id r
                end in
  fs (process_run self w r s).1 = fs (store_lines self hotkey lines s).1 ∧
  (process_run self w r s).2 = Ok tt ∧
  ∀ e, (store_lines self hotkey lines s).2 = Raise e →
       ErrorProcess (run_id r) e ∈ log (process_run self w r s).1.
Proof.
  intros Hpost Hstatus Hedges Hlogs hotkey.
  set (s1 := mk_state (fs s) (log s ++ [InfoProcessing (run_id r)])).
  assert (try_body self w r s1 = store_lines self hotkey lines s1) as Hbody.
  { unfold try_body, get_logs, bind at 1, bind at 1, lift. rewrite Hpost, Hstatus.
    cbn [N.eqb Pos.eqb negb]. rewrite Hedges.
    rewrite (store_logs_cases_eq self _ logs lines s1 Hlogs). done. }
  destruct (disk_only_store_lines self hotkey lines s1 s eq_refl) as [Hfs Hres].
  assert (process_run self w r s
          = match store_lines self hotkey lines s1 with
            | (s2, Ok a) => (s2, Ok a)
            | (s2, Raise e) => logging (ErrorProcess (run_id r) e) s2
            end) as ->.
  { rewrite process_run_unfold. unfold bind, try_except. cbn [logging]. fold s1.
    by rewrite Hbody. }
  destruct (store_lines self hotkey lines s1) as [s2 [[]|e]] eqn:Hrun;
    cbn [fst snd logging log fs] in *.
  - split; [done|]. split; [done|]. intros e He. congruence.
  - split; [done|]. split; [done|]. intros e' He'. rewrite <- Hres in He'.
    injection He' as <-. apply elem_of_app. right. by left.
Qed.

(** [run2] of [sample_remote], whose configuration has the hotkey [hk]. *)
Lemma process_run_stores_fetched_lines_witness :
  fs (process_run sample_crawler sample_remote
        (mk_run "run2" {[ "hotkey" := "hk" ]}) empty_state).1
  = fs (store_lines sample_crawler "hk"
          [("2024-01-01T10:00:00.000000", "hello")] empty_state).1.
Proof.
  destruct (process_run_stores_fetched_lines sample_crawler sample_remote
    (mk_run "run2" {[ "hotkey" := "hk" ]}) empty_state
    (mk_response 200
       (Ok [ {[ "node" := {[ "timestamp" := "2024-01-01T10:00:00.000000";
                             "line" := "hello" ]} ]} ]))
    [ {[ "node" := {[ "timestamp" := "2024-01-01T10:00:00.000000";
                      "line" := "hello" ]} ]} ]
    [("2024-01-01T10:00:00.000000", "hello")]) as (H & _ & _).
  - reflexivity.
  - reflexivity.
  - reflexivity.
  - constructor; [|constructor]. eexists. split; [reflexivity|]. split; reflexivity.
  - exact H.
Defined.

(** X17. A cycle of [execute], whatever the remote service answers, removes
    no entry of the disk, leaves every directory a directory, and leaves in
    every file the text it had as the beginning of its text. *)
Theorem execute_is_append_only (self : crawler) (w : remote) (st : state) :
  extends (fs st) (fs (execute self w st).1) ∧
  ∀ q c, fs st !! q = Some (File c) →
         ∃ suffix, fs (execute self w st).1 !! q = Some (File (c +:+ suffix)).
Proof.
  assert (extends (fs st) (fs (execute self w st).1)) as Hext.
  { destruct (api_runs w) as [runs|e] eqn:Hruns.
    - rewrite (execute_fs self w st runs Hruns).
      apply (for_each_process_run_extends self w runs (mk_state (fs st) _)).
    - unfold execute, get_runs, bind, lift. rewrite Hruns. apply extends_refl. }
  split; [done|]. intros q c Hq. specialize (Hext q). by rewrite Hq in Hext.
Qed.

(** A cycle against [sample_remote] on [sample_state]: the line the file had
    is still its first. *)
Lemma execute_is_append_only_witness :
  ∃ suffix,
    fs (execute sample_crawler sample_remote sample_state).1
      !! "wandb_logs/hk/2024-01-01.log"
    = Some (File (format_line "2024-01-01T10:00:05.000000" "old" +:+ suffix)).
Proof.
  destruct (execute_is_append_only sample_crawler sample_remote sample_state) as [_ H].
  apply H. reflexivity.
Defined.



(** X19. [execute] raises exactly when the listing of the runs raises, and
    the exception is that of the listing; nothing has then been written or
    logged.  When the listing succeeds, [execute] returns and the last
    record of the log is that of the end of the cycle. *)
Theorem execute_raises_iff_listing_raises
    (self : crawler) (w : remote) (st : state) :
  (∀ e, (execute self w st).2 = Raise e ↔ api_runs w = Raise e) ∧
  (∀ e, api_runs w = Raise e → execute self w st = (st, Raise e)) ∧
  (∀ runs, api_runs w = Ok runs →
     (execute self w st).2 = Ok tt ∧
     last (log (execute self w st).1) = Some InfoFinished).
Proof.
  destruct (api_runs w) as [runs|e0] eqn:Hruns.
  - assert ((execute self w st).2 = Ok tt
            ∧ last (log (execute self w st).1) = Some InfoFinished) as [Hres Hlast].
    { rewrite (execute_unfold self w st runs Hruns). unfold bind.
      pose proof (for_each_process_run_returns self w runs
        (mk_state (fs st) (log st ++ [InfoRunIds (run_id <$> runs)]))) as Hr.
      destruct (for_each (process_run self w) runs _) as [s' [[]|e']]; [|done].
      cbn [logging fst snd log]. by rewrite last_snoc. }
    split; [|split].
    + intros e. rewrite Hres. split; discriminate.
    + discriminate.
    + done.
  - assert (execute self w st = (st, Raise e0)) as Hex.
    { unfold execute, get_runs, bind, lift. by rewrite Hruns. }
    split; [|split].
    + intros e. rewrite Hex. cbn [snd]. split; congruence.
    + intros e [= <-]. done.
    + discriminate.
Qed.

(** A remote service whose listing of the runs fails. *)
Lemma execute_raises_iff_listing_raises_witness :
  execute sample_crawler
    (mk_remote (Raise (RemoteError "runs")) (graphql_post sample_remote)) sample_state
  = (sample_state, Raise (RemoteError "runs")).
Proof.
  destruct (execute_raises_iff_listing_raises sample_crawler
    (mk_remote (Raise (RemoteError "runs")) (graphql_post sample_remote)) sample_state)
    as (_ & H & _).
  apply H. reflexivity.
Defined.

(** ** What [get_datetime_from_ts_str] refuses *)

(** X20. A timestamp [get_datetime_from_ts_str] accepts consists of digits
    (['0'] to ['9'], the decimal digits among the 8-bit characters) and the
    characters ['-'], ['T'] or ['t'], [':'], ['.'] and blank, begins with a
    digit and ends with one, and the value returned has its fields in the
    ranges of a date and a time of day; every other timestamp, so one with
    a zone suffix, is refused with [ValueError]. *)
Theorem get_datetime_from_ts_str_accepts_only (ts : string) :
  (∀ d, DatatimeHandler.get_datetime_from_ts_str ts = Ok d →
     valid_datetime d = true ∧
     all_chars ts_char ts = true ∧
     (∃ c t, ts = String c t ∧ Str.is_digit c = true) ∧
     (∃ t c, ts = t +:+ String c EmptyString ∧ Str.is_digit c = true)) ∧
  (∀ e, DatatimeHandler.get_datetime_from_ts_str ts = Raise e → e = ValueError).
Proof.
  unfold DatatimeHandler.get_datetime_from_ts_str. split.
  - intros d Hd. split; [by eapply strptime_valid|]. split; [by eapply strptime_chars|].
    destruct (strptime_shape _ _ Hd) as [_ _ _ Hfirst Hlast]. done.
  - intros e. apply strptime_raise.
Qed.

(** A timestamp with the suffix [Z]. *)
Lemma get_datetime_from_ts_str_accepts_only_witness :
  DatatimeHandler.get_datetime_from_ts_str "2024-01-01T10:00:00.000000Z"
  = Raise ValueError.
Proof.
  destruct (get_datetime_from_ts_str_accepts_only "2024-01-01T10:00:00.000000Z")
    as [Hok Hraise].
  destruct (DatatimeHandler.get_datetime_from_ts_str "2024-01-01T10:00:00.000000Z")
    as [d|e].
  - destruct (Hok d eq_refl) as (_ & Hchars & _). discriminate Hchars.
  - by rewrite (Hraise e eq_refl).
Defined.

(** ** Two owners *)

(** X21. For two different owner keys that are plain names and batches
    whose dates have neither ['/'] nor the null character, the two calls of
    [store_lines] touch different paths and can be made in either order: the
    disk left is the same, and each call returns or raises what it does when
    made alone. *)
Theorem store_lines_owners_commute
    (self : crawler) (hotkey1 hotkey2 : string)
    (lines1 lines2 : list (string * string)) (st : state) :
  plain_name hotkey1 = true →
  plain_name hotkey2 = true →
  hotkey1 ≠ hotkey2 →
  plain_dates lines1 = true →
  plain_dates lines2 = true →
  let first := store_lines self hotkey1 lines1 st in
  let second := store_lines self hotkey2 lines2 st in
  (∀ q, touched self hotkey1 lines1 q → ¬ touched self hotkey2 lines2 q) ∧
  fs (store_lines self hotkey2 lines2 first.1).1
  = fs (store_lines self hotkey1 lines1 second.1).1 ∧
  (store_lines self hotkey2 lines2 first.1).2 = second.2 ∧
  (store_lines self hotkey1 lines1 second.1).2 = first.2.
Proof.
  intros Hk1 Hk2 Hne Hd1 Hd2 first second.
  assert (∀ q, touched self hotkey1 lines1 q → ¬ touched self hotkey2 lines2 q)
    as Hapart by (intros q; by apply touched_apart).
  split; [done|].
  assert (∀ q, touched self hotkey2 lines2 q → fs first.1 !! q = fs st !! q) as H21.
  { intros q Hq. apply store_lines_untouched. intros H1. by apply (Hapart q). }
  assert (∀ q, touched self hotkey1 lines1 q → fs second.1 !! q = fs st !! q) as H12.
  { intros q Hq. apply store_lines_untouched. by apply Hapart. }
  destruct (store_lines_pointwise self hotkey2 lines2 first.1 st H21) as [Hr2 Hp2].
  destruct (store_lines_pointwise self hotkey1 lines1 second.1 st H12) as [Hr1 Hp1].
  split; [|done]. apply map_eq. intros q.
  destruct (touched_dec self hotkey1 lines1 q) as [Hq|Hq].
  - rewrite store_lines_untouched by by apply Hapart.
    rewrite Hp1; [done|]. by apply H12.
  - rewrite (store_lines_untouched self hotkey1 lines1 second.1) by done.
    apply Hp2. by apply store_lines_untouched.
Qed.

(** A line for the owner [a] and one for the owner [b], against the disk
    the constructor leaves. *)
Lemma store_lines_owners_commute_witness :
  fs (store_lines sample_crawler "b" [("2024-01-01T10:00:00.000000", "y")]
        (store_lines sample_crawler "a" [("2024-01-01T10:00:00.000000", "x")]
           sample_root).1).1
  = fs (store_lines sample_crawler "a" [("2024-01-01T10:00:00.000000", "x")]
          (store_lines sample_crawler "b" [("2024-01-01T10:00:00.000000", "y")]
             sample_root).1).1.
Proof.
  destruct (store_lines_owners_commute sample_crawler "a" "b"
    [("2024-01-01T10:00:00.000000", "x")] [("2024-01-01T10:00:00.000000", "y")]
    sample_root) as (_ & H & _).
  - vm_compute. reflexivity.
  - vm_compute. reflexivity.
  - discriminate.
  - vm_compute. reflexivity.
  - vm_compute. reflexivity.
  - exact H.
Defined.
